(** * gemini-business2api: message normalisation and the Freemail client

    A shallow embedding of [core/message.py] and [core/freemail_client.py]
    together with the properties stated about them.

    Conventions of the embedding.
    - A Python [str] is a Rocq [string] of ASCII characters; [str.strip],
      [str.lower] and [str.isdigit] are modelled on ASCII, and
      [str.encode()] (UTF-8) is then the byte sequence of the characters.
    - A Python [dict] holding a JSON object is a [gmap string _]; a
      missing key is an absent binding. JSON numbers are integers.
    - Calls that leave the process (HTTP transport, downloads,
      [time.sleep]) are explicit: the answers of the outside world are a
      parameter of the run, and what is sent is collected in a log.
    - A raised [Exception] is the [Raise] outcome of a computation.
    - Logging ([logger], [_log]) has no influence on any value computed
      and is left out.
    - Library functions are modelled from their documented behaviour:
      [hashlib.md5] after RFC 1321, [base64.b64encode], the two regular
      expressions, [httpx.Response.raise_for_status] (raises unless the
      status is 2xx) and [datetime] (CPython on Linux, with a local zone
      at a fixed offset from UTC). Timestamps are exact: the rounding of
      binary floating point in [float(x) / 1000.0] is not modelled. *)

From Stdlib Require Import ZArith List String Ascii Bool Lia Sorting.Sorted Permutation.
From stdpp Require Import base option strings gmap.
Import ListNotations.

Local Open Scope list_scope.
Local Open Scope string_scope.

(* ===================================================================== *)
(** * Python string primitives (ASCII) *)
(* ===================================================================== *)

Module Str.

Definition code (c : ascii) : Z := Z.of_N (N_of_ascii c).

(** [str.isspace] on one ASCII character: TAB, LF, VT, FF, CR, the four
    separators 0x1c..0x1f and the blank. *)
Definition is_space (c : ascii) : bool :=
  let n := code c in
  ((9 <=? n) && (n <=? 13) || (28 <=? n) && (n <=? 32))%Z.

Definition is_digit (c : ascii) : bool :=
  let n := code c in ((48 <=? n) && (n <=? 57))%Z.

Definition lower_char (c : ascii) : ascii :=
  let n := code c in
  if ((65 <=? n) && (n <=? 90))%Z then ascii_of_N (N_of_ascii c + 32) else c.

Fixpoint lower (s : string) : string :=
  match s with
  | EmptyString => EmptyString
  | String c r => String (lower_char c) (lower r)
  end.

Fixpoint lstrip (s : string) : string :=
  match s with
  | EmptyString => EmptyString
  | String c r => if is_space c then lstrip r else s
  end.

(** [rstrip] drops the maximal blank suffix. *)
Fixpoint rstrip (s : string) : string :=
  match s with
  | EmptyString => EmptyString
  | String c r =>
      match rstrip r with
      | EmptyString => if is_space c then EmptyString else String c EmptyString
      | r' => String c r'
      end
  end.

Definition strip (s : string) : string := rstrip (lstrip s).

(** [sep.join(parts)] *)
Fixpoint join (sep : string) (parts : list string) : string :=
  match parts with
  | [] => ""
  | [p] => p
  | p :: rest => p ++ sep ++ join sep rest
  end.

Definition concat_all (parts : list string) : string :=
  fold_right String.append "" parts.

(** [s.startswith(p)] *)
Definition startswith (p s : string) : bool := String.prefix p s.

(** [s.isdigit()]: non-empty and all digits. *)
Fixpoint all_digits (s : string) : bool :=
  match s with
  | EmptyString => true
  | String c r => is_digit c && all_digits r
  end.

Definition isdigit (s : string) : bool :=
  match s with EmptyString => false | _ => all_digits s end.

(** Truthiness of a [str]. *)
Definition nonempty (s : string) : bool :=
  match s with EmptyString => false | _ => true end.

(** [s.encode()] on ASCII text. *)
Definition encode (s : string) : list Z := map code (list_ascii_of_string s).

(** [s * n] *)
Fixpoint times (s : string) (n : nat) : string :=
  match n with O => "" | S k => s ++ times s k end.

End Str.

(* ===================================================================== *)
(** * hashlib.md5 (RFC 1321) *)
(* ===================================================================== *)

Module MD5.
Local Open Scope Z_scope.

Definition w32 (x : Z) : Z := x mod 2 ^ 32.
Definition not32 (x : Z) : Z := Z.lxor x 0xffffffff.
Definition rotl32 (x c : Z) : Z :=
  w32 (Z.lor (Z.shiftl x c) (Z.shiftr x (32 - c))).

Definition shifts : list Z :=
  [ 7; 12; 17; 22; 7; 12; 17; 22; 7; 12; 17; 22; 7; 12; 17; 22;
    5;  9; 14; 20; 5;  9; 14; 20; 5;  9; 14; 20; 5;  9; 14; 20;
    4; 11; 16; 23; 4; 11; 16; 23; 4; 11; 16; 23; 4; 11; 16; 23;
    6; 10; 15; 21; 6; 10; 15; 21; 6; 10; 15; 21; 6; 10; 15; 21 ].

(** [K i = floor (2^32 * |sin (i + 1)|)] *)
Definition K : list Z :=
  [ 0xd76aa478; 0xe8c7b756; 0x242070db; 0xc1bdceee;
    0xf57c0faf; 0x4787c62a; 0xa8304613; 0xfd469501;
    0x698098d8; 0x8b44f7af; 0xffff5bb1; 0x895cd7be;
    0x6b901122; 0xfd987193; 0xa679438e; 0x49b40821;
    0xf61e2562; 0xc040b340; 0x265e5a51; 0xe9b6c7aa;
    0xd62f105d; 0x02441453; 0xd8a1e681; 0xe7d3fbc8;
    0x21e1cde6; 0xc33707d6; 0xf4d50d87; 0x455a14ed;
    0xa9e3e905; 0xfcefa3f8; 0x676f02d9; 0x8d2a4c8a;
    0xfffa3942; 0x8771f681; 0x6d9d6122; 0xfde5380c;
    0xa4beea44; 0x4bdecfa9; 0xf6bb4b60; 0xbebfbc70;
    0x289b7ec6; 0xeaa127fa; 0xd4ef3085; 0x04881d05;
    0xd9d4d039; 0xe6db99e5; 0x1fa27cf8; 0xc4ac5665;
    0xf4292244; 0x432aff97; 0xab9423a7; 0xfc93a039;
    0x655b59c3; 0x8f0ccc92; 0xffeff47d; 0x85845dd1;
    0x6fa87e4f; 0xfe2ce6e0; 0xa3014314; 0x4e0811a1;
    0xf7537e82; 0xbd3af235; 0x2ad7d2bb; 0xeb86d391 ].

Record state := St { sa : Z; sb : Z; sc : Z; sd : Z }.

Definition init : state :=
  St 0x67452301 0xefcdab89 0x98badcfe 0x10325476.

(** One of the 64 operations on the working variables. *)
Definition step (M : list Z) (st : state) (op : Z * (Z * Z)) : state :=
  let '(i, (s, k)) := op in
  let '(St a b c d) := st in
  let '(f, g) :=
    if i <? 16 then (Z.lor (Z.land b c) (Z.land (not32 b) d), i)
    else if i <? 32 then (Z.lor (Z.land d b) (Z.land (not32 d) c), (5 * i + 1) mod 16)
    else if i <? 48 then (Z.lxor (Z.lxor b c) d, (3 * i + 5) mod 16)
    else (Z.lxor c (Z.lor b (not32 d)), (7 * i) mod 16) in
  let f' := w32 (f + a + k + nth (Z.to_nat g) M 0) in
  St d (w32 (b + rotl32 f' s)) b c.

Definition ops : list (Z * (Z * Z)) :=
  combine (map Z.of_nat (seq 0 64)) (combine shifts K).

Definition process_chunk (st : state) (M : list Z) : state :=
  let '(St a b c d) := fold_left (step M) ops st in
  St (w32 (sa st + a)) (w32 (sb st + b)) (w32 (sc st + c)) (w32 (sd st + d)).

(** little-endian bytes of a word *)
Definition le_bytes (n : nat) (x : Z) : list Z :=
  map (fun i => (Z.shiftr x (8 * Z.of_nat i)) mod 256) (seq 0 n).

Fixpoint words (bs : list Z) : list Z :=
  match bs with
  | b0 :: b1 :: b2 :: b3 :: r =>
      (b0 + 256 * (b1 + 256 * (b2 + 256 * b3))) :: words r
  | _ => []
  end.

Fixpoint chunks (fuel : nat) (ws : list Z) : list (list Z) :=
  match fuel with
  | O => []
  | S k =>
      match ws with
      | [] => []
      | _ => firstn 16 ws :: chunks k (skipn 16 ws)
      end
  end.

Definition pad (msg : list Z) : list Z :=
  let len := Z.of_nat (length msg) in
  (msg ++ [0x80] ++ repeat 0 (Z.to_nat ((55 - len) mod 64))
       ++ le_bytes 8 ((8 * len) mod 2 ^ 64))%list.

Definition digest_state (msg : list Z) : state :=
  let ws := words (pad msg) in
  fold_left process_chunk (chunks (length ws) ws) init.

Definition hex_digit (n : Z) : ascii :=
  if n <? 10 then ascii_of_N (Z.to_N (48 + n)) else ascii_of_N (Z.to_N (87 + n)).

Definition hex_byte (b : Z) : string :=
  String (hex_digit (b / 16)) (String (hex_digit (b mod 16)) EmptyString).

Definition hex_of_state (st : state) : string :=
  Str.concat_all
    (map hex_byte (le_bytes 4 (sa st) ++ le_bytes 4 (sb st)
                   ++ le_bytes 4 (sc st) ++ le_bytes 4 (sd st))%list).

(** [hashlib.md5(msg).hexdigest()] *)
Definition hexdigest (msg : list Z) : string := hex_of_state (digest_state msg).

End MD5.

(* ===================================================================== *)
(** * Outcomes of computations that may raise *)
(* ===================================================================== *)

(** [Ok v]: the call returned [v]; [Raise]: it raised an [Exception]. *)
Inductive result (A : Type) : Type :=
| Ok (v : A)
| Raise.
Arguments Ok {A} v.
Arguments Raise {A}.

Definition bind {A B} (r : result A) (k : A -> result B) : result B :=
  match r with
  | Ok v => k v
  | Raise => Raise
  end.

(* ===================================================================== *)
(** * base64.b64encode *)
(* ===================================================================== *)

Module Base64.
Local Open Scope Z_scope.

Definition chr (n : Z) : ascii := ascii_of_N (Z.to_N n).

Definition b64_char (n : Z) : ascii :=
  if n <? 26 then chr (65 + n)
  else if n <? 52 then chr (97 + (n - 26))
  else if n <? 62 then chr (48 + (n - 52))
  else if n =? 62 then chr 43 else chr 47.

Fixpoint encode_bytes (bs : list Z) : string :=
  match bs with
  | [] => ""
  | [a] =>
      String (b64_char (a / 4)) (String (b64_char ((a mod 4) * 16)) "==")
  | [a; b] =>
      String (b64_char (a / 4))
        (String (b64_char ((a mod 4) * 16 + b / 16))
           (String (b64_char ((b mod 16) * 4)) "="))
  | a :: b :: c :: r =>
      String (b64_char (a / 4))
        (String (b64_char ((a mod 4) * 16 + b / 16))
           (String (b64_char ((b mod 16) * 4 + c / 64))
              (String (b64_char (c mod 64)) (encode_bytes r))))
  end.

(** [base64.b64encode(content).decode()] for a body given as a byte string *)
Definition b64encode (content : string) : string :=
  encode_bytes (Str.encode content).

End Base64.

(* ===================================================================== *)
(** * core/message.py *)
(* ===================================================================== *)

Module Message.

(** A Python object that is neither [str], [list] nor [None] reaches the
    output only through [str(x)] or [json.dumps(x, ensure_ascii=False)];
    it is represented by these two renderings. *)
Record rendering := Rendering { r_str : string; r_json : string }.

(** One element of a multimodal [content] list (a dict). [p_url] is
    [part.get("image_url", {}).get("url")]. *)
Record part := Part {
  p_type : option string;
  p_text : option string;
  p_url : option string
}.

Inductive content_value :=
| CStr (s : string)
| CParts (ps : list part)
| CNone
| CDict (r : rendering)
| COther (r : rendering).

(** [dict.get(key, default)] on an optional field *)
Definition get {A} (field : option A) (dflt : A) : A :=
  match field with Some v => v | None => dflt end.

Definition str_eqb (a b : string) : bool := String.eqb a b.

Definition type_is (p : part) (t : string) : bool :=
  match p_type p with Some ty => str_eqb ty t | None => false end.

(** [extract_text_from_content] *)
Definition extract_text_from_content (c : content_value) : string :=
  match c with
  | CStr s => s
  | CParts ps =>
      Str.concat_all
        (map (fun x => get (p_text x) "")
             (List.filter (fun x => type_is x "text") ps))
  | CNone => ""
  | CDict r | COther r => r_str r
  end.

(** [str(content)] for a content that is not a list *)
Definition str_of_content (c : content_value) : string :=
  match c with
  | CStr s => s
  | CParts _ => ""
  | CNone => "None"
  | CDict r | COther r => r_str r
  end.

(** A message as [get_conversation_key] receives it: a dict, with the
    string under ["role"] and the value under ["content"] when present. *)
Record msg_dict := MsgDict {
  d_role : option string;
  d_content : option content_value
}.

Definition fingerprint_role (msg : msg_dict) : string := get (d_role msg) "".

(** The text of a message, trimmed and lower-cased. *)
Definition fingerprint_text (msg : msg_dict) : string :=
  let content := get (d_content msg) (CStr "") in
  let text :=
    match content with
    | CParts _ => extract_text_from_content content
    | _ => str_of_content content
    end in
  Str.lower (Str.strip text).

Definition message_fingerprint (msg : msg_dict) : string :=
  fingerprint_role msg ++ ":" ++ fingerprint_text msg.

(** The string that is hashed: lines 37 to 59. *)
Definition conversation_prefix (messages : list msg_dict) (client_identifier : string) : string :=
  let message_fingerprints := map message_fingerprint (firstn 3 messages) in
  let conversation_prefix := Str.join "|" message_fingerprints in
  if Str.nonempty client_identifier
  then client_identifier ++ "|" ++ conversation_prefix
  else conversation_prefix.

(** [get_conversation_key] *)
Definition get_conversation_key (messages : list msg_dict) (client_identifier : string) : string :=
  match messages with
  | [] =>
      if Str.nonempty client_identifier
      then client_identifier ++ ":empty" else "empty"
  | _ => MD5.hexdigest (Str.encode (conversation_prefix messages client_identifier))
  end.

(** Arguments of a tool call or function call. *)
Inductive argval :=
| ANull
| AStr (s : string)
| AObj (r : rendering).

Record function_obj := FunctionObj {
  f_name : option string;
  f_arguments : option argval
}.

(** A [tool_calls] entry: [tc_function] is present when the ["function"]
    field is a dict. *)
Record tool_call := ToolCall {
  tc_function : option function_obj;
  tc_name : option string;
  tc_arguments : option argval
}.

(** [a or b] on optional strings: the first truthy one *)
Definition truthy_str (o : option string) : option string :=
  match o with
  | Some s => if Str.nonempty s then Some s else None
  | None => None
  end.

Definition or_else (o : option string) (dflt : string) : string :=
  match truthy_str o with Some s => s | None => dflt end.

Definition not_null (o : option argval) : option argval :=
  match o with
  | Some ANull | None => None
  | Some v => Some v
  end.

Definition format_tool_call (tc : tool_call) : string :=
  let function_obj := get (tc_function tc) (FunctionObj None None) in
  let name :=
    match truthy_str (f_name function_obj) with
    | Some n => n
    | None => or_else (tc_name tc) "unknown_tool"
    end in
  let arguments :=
    match not_null (f_arguments function_obj) with
    | Some a => Some a
    | None => not_null (tc_arguments tc)
    end in
  let args_text :=
    match arguments with
    | Some (AStr s) => s
    | Some (AObj r) => r_json r
    | _ => "{}"
    end in
  name ++ ": " ++ args_text.

(** [format_tool_calls_text] *)
Definition format_tool_calls_text (tool_calls : list tool_call) : string :=
  Str.join (String (ascii_of_nat 10) "") (map format_tool_call tool_calls).

(** The pydantic [Message] of the request; absent attributes read as
    [None] through [getattr]. *)
Record Msg := MkMsg {
  role : option string;
  content : content_value;
  name : option string;
  tool_call_id : option string;
  tool_calls : option (list tool_call);
  function_call : option function_obj
}.

Record attachment := Attachment { mime : string; data : string }.

Definition newline : string := String (ascii_of_nat 10) "".

(** Longest prefix of [s] whose characters satisfy [keep], and the rest. *)
Fixpoint span (keep : ascii -> bool) (s : string) : string * string :=
  match s with
  | EmptyString => ("", "")
  | String c r =>
      if keep c then let '(a, b) := span keep r in (String c a, b)
      else ("", s)
  end.

(** [s] without the prefix [p], when [s] starts with [p]. *)
Fixpoint strip_prefix (p s : string) : option string :=
  match p with
  | EmptyString => Some s
  | String a p' =>
      match s with
      | EmptyString => None
      | String b s' => if Ascii.eqb a b then strip_prefix p' s' else None
      end
  end.

Definition not_char (x : ascii) (c : ascii) : bool := negb (Ascii.eqb x c).

(** [re.match(r"data:([^;]+);base64,(.+)", url)]: the pair of groups.
    The pattern is anchored at the start only; [[^;]+] is the maximal
    non-empty run without a semicolon, [.+] the maximal non-empty run
    without a line feed. *)
Definition match_data_uri (url : string) : option (string * string) :=
  match strip_prefix "data:" url with
  | None => None
  | Some rest =>
      let '(mime_type, rest) := span (not_char ";") rest in
      if Str.nonempty mime_type then
        match strip_prefix ";base64," rest with
        | None => None
        | Some rest =>
            let '(payload, _) := span (not_char (ascii_of_nat 10)) rest in
            if Str.nonempty payload then Some (mime_type, payload) else None
        end
      else None
  end.

(** Loop state of the scan over the content parts:
    [text_content], [images], [image_urls]. *)
Definition scan_state : Type := string * list attachment * list string.

Definition scan_part (acc : scan_state) (p : part) : scan_state :=
  let '(text_content, images, image_urls) := acc in
  if type_is p "text" then
    (text_content ++ get (p_text p) "", images, image_urls)
  else if type_is p "image_url" then
    let url := get (p_url p) "" in
    match match_data_uri url with
    | Some (m, d) => (text_content, (images ++ [Attachment m d])%list, image_urls)
    | None =>
        if Str.startswith "http://" url || Str.startswith "https://" url
        then (text_content, images, (image_urls ++ [url])%list)
        else acc
    end
  else acc.

(** Lines 108 to 129. *)
Definition scan_content (c : content_value) : scan_state :=
  match c with
  | CStr s => (s, [], [])
  | CDict r => (r_json r, [], [])
  | CParts ps => fold_left scan_part ps ("", [], [])
  | CNone | COther _ => ("", [], [])
  end.

Definition function_call_name (fc : option function_obj) : option string :=
  match fc with
  | Some f => truthy_str (f_name f)
  | None => None
  end.

(** [assistant_function_call.get("arguments", "{}")] inside an f-string *)
Definition function_call_args (f : function_obj) : string :=
  match f_arguments f with
  | None => "{}"
  | Some ANull => "None"
  | Some (AStr s) => s
  | Some (AObj r) => r_str r
  end.

Definition role_lower (m : Msg) : string := Str.lower (get (role m) "").

(** Lines 131 to 147: role specific wrapping of the text. *)
Definition augment_text (last_msg : Msg) (text_content : string) : string :=
  let role_lower := role_lower last_msg in
  if str_eqb role_lower "tool" then
    let tool_name := or_else (name last_msg) "tool" in
    let call_part :=
      match truthy_str (tool_call_id last_msg) with
      | Some id => " (" ++ id ++ ")"
      | None => ""
      end in
    "Tool result from " ++ tool_name ++ call_part ++ ":" ++ newline ++ text_content
  else if str_eqb role_lower "assistant" then
    let assistant_tool_calls := get (tool_calls last_msg) [] in
    let tail :=
      if Str.nonempty text_content then newline ++ text_content else "" in
    match assistant_tool_calls with
    | _ :: _ =>
        "Assistant requested tool calls:" ++ newline
          ++ format_tool_calls_text assistant_tool_calls ++ tail
    | [] =>
        match function_call last_msg, function_call_name (function_call last_msg) with
        | Some f, Some fn_name =>
            "Assistant requested function call: " ++ fn_name
              ++ "(" ++ function_call_args f ++ ")" ++ tail
        | _, _ => text_content
        end
    end
  else text_content.

(** What [http_client.get(url, timeout=30, follow_redirects=True)] does:
    it raises, or returns a response with a status, an optional
    [content-type] header and a body. *)
Inductive http_result :=
| HttpError
| HttpResponse (status_code : Z) (content_type : option string) (body : string).

(** [httpx.Response.is_success]: [raise_for_status] raises otherwise (in
    the releases of httpx that know [follow_redirects]). *)
Definition is_success (status_code : Z) : bool :=
  ((200 <=? status_code) && (status_code <=? 299))%Z.

(** [h.split(";")[0]] *)
Definition before_semicolon (h : string) : string := fst (span (not_char ";") h).

Section Download.
Variable http_get : string -> http_result.

(** The [try] body of [download_url]. *)
Definition download_body (url : string) : result (option attachment) :=
  match http_get url with
  | HttpError => Raise
  | HttpResponse status_code ctype body =>
      if (status_code =? 404)%Z then Ok None
      else if is_success status_code then
        let content_type :=
          before_semicolon (get ctype "application/octet-stream") in
        Ok (Some (Attachment content_type (Base64.b64encode body)))
      else Raise
  end.

(** [download_url]: both handlers return [None]. *)
Definition download_url (url : string) : option attachment :=
  match download_body url with
  | Ok r => r
  | Raise => None
  end.

(** [asyncio.gather] over the [download_url] tasks with
    [return_exceptions=True]: one slot per URL, in the order of the URLs. *)
Definition gather (image_urls : list string) : list (result (option attachment)) :=
  map (fun u => Ok (download_url u)) image_urls.

Definition safe_results (results : list (result (option attachment))) : list (option attachment) :=
  flat_map (fun r => match r with Ok v => [v] | Raise => [] end) results.

Definition truthy_results (rs : list (option attachment)) : list attachment :=
  flat_map (fun r => match r with Some a => [a] | None => [] end) rs.

(** Result of [parse_last_message] and the URLs requested on the way. *)
Record parsed := Parsed {
  text : string;
  attachments : list attachment;
  requested : list string
}.

(** [parse_last_message] *)
Definition parse_last_message (messages : list Msg) : parsed :=
  match last messages with
  | None => Parsed "" [] []
  | Some last_msg =>
      let '(text_content, images, image_urls) := scan_content (content last_msg) in
      let text_content := augment_text last_msg text_content in
      match image_urls with
      | [] => Parsed text_content images []
      | _ =>
          let results := gather image_urls in
          Parsed text_content
                 (images ++ truthy_results (safe_results results))%list
                 image_urls
      end
  end.

End Download.

(** Role label of a transcript line. *)
Definition role_label (msg : Msg) : string :=
  let role_lower := role_lower msg in
  if str_eqb role_lower "system" then "System"
  else if str_eqb role_lower "user" then "User"
  else if str_eqb role_lower "tool" then
    "Tool[" ++ or_else (name msg) "tool" ++ "]"
  else if str_eqb role_lower "assistant" then "Assistant"
  else or_else (role msg) "Assistant".

Definition image_marker : string := "[图片]".

Definition is_image_part (p : part) : bool := type_is p "image_url".

Definition render_message (msg : Msg) : string :=
  let content_str := extract_text_from_content (content msg) in
  let lead := if Str.nonempty content_str then content_str ++ newline else "" in
  let content_str :=
    if str_eqb (role_lower msg) "assistant" then
      match get (tool_calls msg) [] with
      | (_ :: _) as calls =>
          lead ++ "Tool calls:" ++ newline ++ format_tool_calls_text calls
      | [] =>
          match function_call msg, function_call_name (function_call msg) with
          | Some f, Some fn_name =>
              lead ++ "Function call: " ++ fn_name ++ "(" ++ function_call_args f ++ ")"
          | _, _ => content_str
          end
      end
    else content_str in
  let content_str :=
    match content msg with
    | CParts ps =>
        content_str ++ Str.times image_marker (length (List.filter is_image_part ps))
    | _ => content_str
    end in
  role_label msg ++ ": " ++ content_str ++ newline ++ newline.

(** [build_full_context_text] *)
Definition build_full_context_text (messages : list Msg) : string :=
  fold_left (fun prompt msg => prompt ++ render_message msg) messages "".

End Message.

(* ===================================================================== *)
(** * JSON documents and [datetime] *)
(* ===================================================================== *)

Local Set Warnings "-register-all".

(** A decoded JSON document ([res.json()]). Numbers are integers. *)
Inductive json :=
| JNull
| JBool (b : bool)
| JInt (n : Z)
| JStr (s : string)
| JList (items : list json)
| JDict (fields : gmap string json).

(** Python truthiness of a decoded value *)
Definition truthy (v : json) : bool :=
  match v with
  | JNull => false
  | JBool b => b
  | JInt n => negb (n =? 0)%Z
  | JStr s => Str.nonempty s
  | JList items => match items with [] => false | _ => true end
  | JDict fields => negb (bool_decide (fields = ∅))
  end.

(** [d.get(key)]: [None] for a missing key and for an explicit null *)
Definition dict_get (d : gmap string json) (key : string) : json :=
  match d !! key with Some v => v | None => JNull end.

(** [a or b] *)
Definition py_or (a b : json) : json := if truthy a then a else b.

Module Datetime.
Local Open Scope Z_scope.

(** A naive [datetime]: the number of microseconds since
    [datetime.min = 0001-01-01T00:00:00]. Comparison of naive datetimes
    is comparison of these numbers. *)
Definition datetime : Type := Z.

Definition us_per_second : Z := 1000000.
Definition us_per_day : Z := 86400 * us_per_second.

Definition min : datetime := 0.
(** [datetime.max = 9999-12-31T23:59:59.999999]; [date.max.toordinal() = 3652059] *)
Definition max : datetime := 3652059 * us_per_day - 1.
(** 1970-01-01T00:00:00; [date(1970, 1, 1).toordinal() = 719163] *)
Definition epoch : datetime := 719162 * us_per_day.

Definition in_range (t : Z) : bool := (min <=? t) && (t <=? max).

(** What [datetime.fromisoformat] returns: the wall-clock reading and,
    for an aware value, its UTC offset in microseconds. *)
Record iso_datetime := IsoDatetime {
  wall : datetime;
  utcoffset : option Z
}.

Section LocalZone.
(** The local zone of the host is a fixed offset from UTC, in seconds
    east of Greenwich. *)
Variable tz : Z.

Definition tz_us : Z := tz * us_per_second.

(** [datetime.fromtimestamp(ts)] for [ts] given in microseconds. The
    local reading must lie in [min .. max], and CPython also converts the
    instant one day earlier (to detect a fold), which must not precede
    [min]. *)
Definition fromtimestamp (ts_us : Z) : result datetime :=
  let local := epoch + ts_us + tz_us in
  if (min + us_per_day <=? local) && (local <=? max) then Ok local else Raise.

(** [d.astimezone().replace(tzinfo=None)] for a naive [d], read as local
    time: CPython probes [d + tz], converts to UTC ([d - tz]) and back. *)
Definition naive_astimezone (d : datetime) : result datetime :=
  if in_range (d + tz_us) && in_range (d - tz_us) then Ok d else Raise.

(** [d.astimezone().replace(tzinfo=None)] for an aware [d] whose UTC
    reading is [utc]. *)
Definition utc_astimezone (utc : Z) : result datetime :=
  if in_range utc && in_range (utc + tz_us) then Ok (utc + tz_us) else Raise.

End LocalZone.
End Datetime.

(* ===================================================================== *)
(** * core/freemail_client.py: the timestamp of an email *)
(* ===================================================================== *)

Module EmailTime.
Import Datetime.
Local Open Scope Z_scope.

Definition time_keys : list string :=
  [ "created_at"; "createdAt"; "received_at"; "receivedAt"; "sent_at"; "sentAt" ].

(** The loop over [time_keys]: the first value that is not [None]. *)
Fixpoint first_not_none (keys : list string) (email_obj : gmap string json) : option json :=
  match keys with
  | [] => None
  | key :: rest =>
      match dict_get email_obj key with
      | JNull => first_not_none rest email_obj
      | v => Some v
      end
  end.

(** [float(raw)] for a string of decimal digits *)
Definition digit_value (c : ascii) : Z := Str.code c - 48.

Fixpoint decimal_from (acc : Z) (s : string) : Z :=
  match s with
  | EmptyString => acc
  | String c r => decimal_from (10 * acc + digit_value c) r
  end.

Definition decimal (s : string) : Z := decimal_from 0 s.

(** Lines 217 to 219: [timestamp = float(raw_time)], divided by [1000.0]
    when it exceeds [1e12]. The timestamp (seconds) is carried exactly, as
    a count of microseconds; the rounding of binary floating point is not
    modelled. *)
Definition epoch_timestamp_us (raw : Z) : Z :=
  let timestamp := raw * us_per_second in
  if timestamp >? 1000000000000 * us_per_second
  then timestamp / 1000
  else timestamp.

(** [re.sub(r"(\.\d{6})\d+", r"\1", raw)]: after a dot followed by at least
    seven digits only the first six digits are kept. *)
Fixpoint drop_digits (s : string) : string :=
  match s with
  | EmptyString => EmptyString
  | String c r => if Str.is_digit c then drop_digits r else s
  end.

Fixpoint take_six_digits (n : nat) (s : string) : option (string * string) :=
  match n with
  | O => Some (EmptyString, s)
  | S k =>
      match s with
      | EmptyString => None
      | String c r =>
          if Str.is_digit c then
            match take_six_digits k r with
            | Some (ds, rest) => Some (String c ds, rest)
            | None => None
            end
          else None
      end
  end.

Definition starts_with_digit (s : string) : bool :=
  match s with
  | EmptyString => false
  | String c _ => Str.is_digit c
  end.

Fixpoint truncate_fraction_from (fuel : nat) (s : string) : string :=
  match fuel with
  | O => s
  | S k =>
      match s with
      | EmptyString => EmptyString
      | String c r =>
          if Ascii.eqb c "." then
            match take_six_digits 6 r with
            | Some (six, rest) =>
                if starts_with_digit rest
                then String c (six ++ truncate_fraction_from k (drop_digits rest))
                else String c (truncate_fraction_from k r)
            | None => String c (truncate_fraction_from k r)
            end
          else String c (truncate_fraction_from k r)
      end
  end.

Definition truncate_fraction (s : string) : string :=
  truncate_fraction_from (String.length s) s.

(** [raw.replace("Z", "+00:00")] *)
Fixpoint replace_Z (s : string) : string :=
  match s with
  | EmptyString => EmptyString
  | String c r =>
      if Ascii.eqb c "Z" then "+00:00" ++ replace_Z r else String c (replace_Z r)
  end.

Section Parser.
(** Offset of the host's local zone, and [datetime.fromisoformat]. *)
Variable tz : Z.
Variable fromisoformat : string -> result iso_datetime.

Definition from_epoch (raw : Z) : result (option datetime) :=
  bind (fromtimestamp tz (epoch_timestamp_us raw)) (fun d =>
  bind (naive_astimezone tz d) (fun d => Ok (Some d))).

(** Lines 235 to 241: the guarded ISO branch; any exception gives [None].
    A reading without an offset is taken as UTC. *)
Definition from_iso (raw : string) : option datetime :=
  let attempt :=
    bind (fromisoformat (replace_Z raw)) (fun parsed =>
      match utcoffset parsed with
      | Some off => utc_astimezone tz (wall parsed - off)
      | None => utc_astimezone tz (wall parsed)
      end) in
  match attempt with
  | Ok d => Some d
  | Raise => None
  end.

(** [_parse_email_time] *)
Definition _parse_email_time (email_obj : gmap string json) : result (option datetime) :=
  match first_not_none time_keys email_obj with
  | None => Ok None
  | Some raw_time =>
      match raw_time with
      | JInt n => from_epoch n
      | JBool b => from_epoch (if b then 1 else 0)
      | JStr s =>
          let raw := Str.strip s in
          if negb (Str.nonempty raw) then Ok None
          else if Str.isdigit raw then from_epoch (decimal raw)
          else Ok (from_iso (truncate_fraction raw))
      | _ => Ok None
      end
  end.

(** Line 246: the list of pairs; an exception of the parser leaves the
    comprehension. *)
Fixpoint emails_with_time (emails : list (gmap string json))
  : result (list (gmap string json * option datetime)) :=
  match emails with
  | [] => Ok []
  | email_item :: rest =>
      bind (_parse_email_time email_item) (fun t =>
      bind (emails_with_time rest) (fun items => Ok ((email_item, t) :: items)))
  end.

(** [item[1] or datetime.min]: a [datetime] is always truthy. *)
Definition sort_key (item : gmap string json * option datetime) : datetime :=
  match snd item with
  | Some t => t
  | None => Datetime.min
  end.

(** [list.sort(key=..., reverse=True)]: descending and stable, items with
    equal keys stay in their original order. *)
Fixpoint insert_desc (item : gmap string json * option datetime)
    (sorted : list (gmap string json * option datetime)) :=
  match sorted with
  | [] => [item]
  | y :: rest =>
      if sort_key y >? sort_key item
      then y :: insert_desc item rest
      else item :: sorted
  end.

Definition sort_desc (items : list (gmap string json * option datetime)) :=
  fold_right insert_desc [] items.

Definition has_time (item : gmap string json * option datetime) : bool :=
  match snd item with Some _ => true | None => false end.

(** Lines 246 to 249: the emails in the order in which they are scanned. *)
Definition order_emails (emails : list (gmap string json))
  : result (list (gmap string json)) :=
  bind (emails_with_time emails) (fun items =>
    if existsb has_time items
    then Ok (map fst (sort_desc items))
    else Ok emails).

End Parser.
End EmailTime.

(* ===================================================================== *)
(** * [datetime.fromisoformat] on the extended format *)
(* ===================================================================== *)

(** The reading of [YYYY-MM-DD], optionally followed by one separator
    character, [HH:MM:SS], an optional fraction of one to six digits and
    an optional offset [+HH:MM] or [-HH:MM]. Other spellings are rejected
    here. *)
Module IsoFormat.
Import Datetime.
Local Open Scope Z_scope.

Fixpoint digits (n : nat) (acc : Z) (s : string) : option (Z * string) :=
  match n with
  | O => Some (acc, s)
  | S k =>
      match s with
      | EmptyString => None
      | String c r =>
          if Str.is_digit c then digits k (10 * acc + (Str.code c - 48)) r else None
      end
  end.

Definition expect (c : ascii) (s : string) : option string :=
  match s with
  | String c' r => if Ascii.eqb c c' then Some r else None
  | EmptyString => None
  end.

Definition is_leap (y : Z) : bool :=
  ((y mod 4 =? 0) && negb (y mod 100 =? 0)) || (y mod 400 =? 0).

Definition days_in_month (y m : Z) : Z :=
  if m =? 2 then (if is_leap y then 29 else 28)
  else if (m =? 4) || (m =? 6) || (m =? 9) || (m =? 11) then 30 else 31.

Definition days_before_year (y : Z) : Z :=
  365 * (y - 1) + (y - 1) / 4 - (y - 1) / 100 + (y - 1) / 400.

Definition days_before_month (y m : Z) : Z :=
  fold_right Z.add 0
    (map (fun k => days_in_month y (Z.of_nat k)) (seq 1 (Z.to_nat (m - 1)))).

Definition parse_date (s : string) : option (Z * string) :=
  y ← digits 4 0 s; r ← expect "-" y.2;
  m ← digits 2 0 r; r ← expect "-" m.2;
  d ← digits 2 0 r;
  let '(y, m, d, r) := (y.1, m.1, d.1, d.2) in
  if (1 <=? y) && (1 <=? m) && (m <=? 12) && (1 <=? d) && (d <=? days_in_month y m)
  then Some ((days_before_year y + days_before_month y m + (d - 1)) * us_per_day, r)
  else None.

Definition parse_clock (s : string) : option (Z * string) :=
  h ← digits 2 0 s; r ← expect ":" h.2;
  m ← digits 2 0 r; r ← expect ":" m.2;
  sec ← digits 2 0 r;
  let '(h, m, sec, r) := (h.1, m.1, sec.1, sec.2) in
  if (h <=? 23) && (m <=? 59) && (sec <=? 59)
  then Some (((h * 60 + m) * 60 + sec) * us_per_second, r)
  else None.

(** Up to six fraction digits, scaled to microseconds. *)
Fixpoint fraction (n : nat) (scale acc : Z) (s : string) : Z * string :=
  match n with
  | O => (acc, s)
  | S k =>
      match s with
      | String c r =>
          if Str.is_digit c
          then fraction k (scale / 10) (acc + (Str.code c - 48) * scale) r
          else (acc, s)
      | EmptyString => (acc, s)
      end
  end.

Definition parse_fraction (s : string) : option (Z * string) :=
  match s with
  | String "." r =>
      if EmailTime.starts_with_digit r then Some (fraction 6 100000 0 r) else None
  | _ => Some (0, s)
  end.

Definition parse_offset (s : string) : option (option Z) :=
  match s with
  | EmptyString => Some None
  | String sign r =>
      let sgn := if Ascii.eqb sign "+" then Some 1
                 else if Ascii.eqb sign "-" then Some (-1) else None in
      sg ← sgn;
      h ← digits 2 0 r; r ← expect ":" h.2;
      m ← digits 2 0 r;
      match m.2 with
      | EmptyString =>
          if (h.1 * 60 + m.1) * 60 <? 86400
          then Some (Some (sg * ((h.1 * 60 + m.1) * 60) * us_per_second))
          else None
      | _ => None
      end
  end.

Definition parse (s : string) : option iso_datetime :=
  date ← parse_date s;
  match date.2 with
  | EmptyString => Some (IsoDatetime date.1 None)
  | String sep r =>
      clock ← parse_clock r;
      frac ← parse_fraction clock.2;
      off ← parse_offset frac.2;
      Some (IsoDatetime (date.1 + clock.1 + frac.1) off)
  end.

(** [ValueError] for a string that is not in the format *)
Definition fromisoformat (s : string) : result iso_datetime :=
  match parse s with
  | Some d => Ok d
  | None => Raise
  end.

End IsoFormat.

(* ===================================================================== *)
(** * core/freemail_client.py: requests, registration, polling *)
(* ===================================================================== *)

Module Freemail.
Local Open Scope Z_scope.

(** What reaches the transport ([request_with_proxy_fallback]). *)
Record request := Request {
  method : string;
  url : string;
  headers : gmap string string;
  params : option (gmap string string)
}.

(** [requests.Response]: the status, the raw body ([res.content]) and the
    outcome of [res.json()]. *)
Record response := Response {
  status_code : Z;
  content : string;
  json_body : result json
}.

(** The keyword arguments that callers pass on. *)
Record kwargs := Kwargs {
  kw_headers : option (gmap string string);
  kw_params : option (gmap string string)
}.

(** The fields of [FreemailClient] that the requests depend on; [email]
    is [JNull] while unset. *)
Record client := Client {
  base_url : string;
  jwt_token : string;
  email : json
}.

(** [d.setdefault(k, v)] *)
Definition setdefault (k v : string) (d : gmap string string) : gmap string string :=
  match d !! k with
  | Some _ => d
  | None => <[k := v]> d
  end.

Definition status_in (res : response) (codes : list Z) : bool :=
  existsb (Z.eqb (status_code res)) codes.

Section Transport.
(** The outside world: the answer to a request, given the requests that
    were sent before it. [Raise] is a network-layer exception. *)
Variable transport : list request -> request -> result response.

(** [_request]; the second component is the extended log of requests. *)
Definition _request (self : client) (method url : string)
    (use_admin_token_query : bool) (kw : kwargs) (sent : list request)
  : result response * list request :=
  let headers := default ∅ (kw_headers kw) in
  let params := kw_params kw in
  let '(headers, params) :=
    if Str.nonempty (jwt_token self) then
      let headers := setdefault "Authorization" ("Bearer " ++ jwt_token self) headers in
      let headers := setdefault "X-Admin-Token" (jwt_token self) headers in
      let params :=
        if use_admin_token_query
        then Some (setdefault "admin_token" (jwt_token self) (default ∅ params))
        else params in
      (headers, params)
    else (headers, params) in
  let req := Request method url headers params in
  (transport sent req, (sent ++ [req])%list).

(** [_request_with_auth_fallback]. [_clone_request_kwargs] copies the
    dictionaries, so both calls start from the caller's arguments. *)
Definition _request_with_auth_fallback (self : client) (method url : string)
    (kw : kwargs) (sent : list request) : result response * list request :=
  match _request self method url false kw sent with
  | (Raise, sent) => (Raise, sent)
  | (Ok res, sent) =>
      if negb (status_in res [401; 403]) || negb (Str.nonempty (jwt_token self))
      then (Ok res, sent)
      else _request self method url true kw sent
  end.

(** Lines 108 to 116: the loop over [("GET", "POST")] with its [break]. *)
Fixpoint generate_loop (self : client) (methods : list string) (kw : kwargs)
    (res : option response) (sent : list request)
  : result (option response) * list request :=
  match methods with
  | [] => (Ok res, sent)
  | method :: rest =>
      match _request_with_auth_fallback self method
              (base_url self ++ "/api/generate") kw sent with
      | (Raise, sent) => (Raise, sent)
      | (Ok r, sent) =>
          if negb (status_in r [404; 405]) then (Ok (Some r), sent)
          else generate_loop self rest kw (Some r) sent
      end
  end.

(** [params] of the generate request: the domain when one is given. *)
Definition generate_params (domain : option string) : gmap string string :=
  match Message.truthy_str domain with
  | Some d => {[ "domain" := d ]}
  | None => ∅
  end.

(** The requests of [register_account] and the response it decides on. *)
Definition generate_attempts (self : client) (domain : option string)
    (sent : list request) : result (option response) * list request :=
  generate_loop self ["GET"; "POST"]
    (Kwargs None (Some (generate_params domain))) None sent.

Definition set_email (self : client) (address : json) : client :=
  Client (base_url self) (jwt_token self) address.

(** The [try] block of [register_account]. *)
Definition register_body (self : client) (domain : option string)
    (sent : list request) : result bool * client * list request :=
  match generate_attempts self domain sent with
  | (Raise, sent) => (Raise, self, sent)
  | (Ok None, sent) => (Ok false, self, sent)
  | (Ok (Some res), sent) =>
      if status_in res [200; 201] then
        let data := if Str.nonempty (content res) then json_body res else Ok (JDict ∅) in
        match data with
        | Raise => (Raise, self, sent)
        | Ok (JDict d) =>
            let address := py_or (dict_get d "email") (dict_get d "mailbox") in
            if truthy address
            then (Ok true, set_email self address, sent)
            else (Ok false, self, sent)
        | Ok _ => (Raise, self, sent)
        end
      else if status_in res [401; 403] then (Ok false, self, sent)
      else (Ok false, self, sent)
  end.

(** [register_account]: the handler turns any exception into [False]. *)
Definition register_account (self : client) (domain : option string)
    (sent : list request) : result bool * client * list request :=
  match register_body self domain sent with
  | (Raise, self', sent') => (Ok false, self', sent')
  | r => r
  end.

End Transport.

(** ** Polling *)

Inductive poll_event :=
| Attempt
| Sleep (seconds : Z).

Section Poll.
(** [fetch k] is what the call number [k] (from 0) of
    [fetch_verification_code] returns: a code or [None], since that
    method catches every exception of its body. *)
Variable fetch : nat -> option string.

(** The loop [for i in range(1, max_retries + 1)]; [calls] counts the
    calls made so far. *)
Fixpoint poll_loop (remaining : nat) (i max_retries interval : Z)
    (calls : nat) (trace : list poll_event)
  : result (option string) * list poll_event :=
  match remaining with
  | O => (Ok None, trace)
  | S k =>
      let code := fetch calls in
      let trace := (trace ++ [Attempt])%list in
      match Message.truthy_str code with
      | Some c => (Ok (Some c), trace)
      | None =>
          if i <? max_retries then
            (* time.sleep rejects a negative length *)
            if interval <? 0 then (Raise, trace)
            else poll_loop k (i + 1) max_retries interval (S calls)
                           (trace ++ [Sleep interval])%list
          else poll_loop k (i + 1) max_retries interval (S calls) trace
      end
  end.

(** [poll_for_code]; [timeout // interval] raises for [interval = 0]. *)
Definition poll_for_code (timeout interval : Z)
  : result (option string) * list poll_event :=
  if interval =? 0 then (Raise, [])
  else
    let max_retries := Z.max 1 (timeout / interval) in
    poll_loop (Z.to_nat max_retries) 1 max_retries interval 0%nat [].

End Poll.

End Freemail.

(* ===================================================================== *)
(** * core/freemail_client.py: construction, domains, the inbox *)
(* ===================================================================== *)

Module Mailbox.
Import Freemail.
Local Open Scope Z_scope.

(** [s.rstrip(chars)] for a single character *)
Fixpoint rstrip_char (x : ascii) (s : string) : string :=
  match s with
  | EmptyString => EmptyString
  | String c r =>
      match rstrip_char x r with
      | EmptyString => if Ascii.eqb c x then EmptyString else String c EmptyString
      | r' => String c r'
      end
  end.

(** [FreemailClient.__init__]: the base URL loses its trailing slashes,
    the token its surrounding blanks, and no address is set. *)
Definition __init__ (base_url jwt_token : string) : client :=
  Client (rstrip_char "/" base_url) (Str.strip jwt_token) JNull.

(** [set_credentials] *)
Definition set_credentials (self : client) (email : string) : client :=
  set_email self (JStr email).

(** [login] *)
Definition login (self : client) : bool := true.

(** [a + b] where one operand is a [str]: a [TypeError] unless the other
    one is a [str] too. *)
Definition as_str (v : json) : result string :=
  match v with
  | JStr s => Ok s
  | _ => Raise
  end.

(** [d.get(k1) or d.get(k2) or ... or dflt] *)
Fixpoint first_truthy (d : gmap string json) (keys : list string) (dflt : json) : json :=
  match keys with
  | [] => dflt
  | k :: rest => py_or (dict_get d k) (first_truthy d rest dflt)
  end.

(** Lines 174 to 182: the list of emails inside the listing payload. *)
Definition listing_emails (payload : json) : json :=
  match payload with
  | JList _ => payload
  | JDict d =>
      let emails := first_truthy d ["emails"; "data"; "items"] (JList []) in
      match emails with
      | JDict inner => first_truthy inner ["emails"; "items"] (JList [])
      | _ => emails
      end
  | _ => JList []
  end.

(** The emails as dictionaries; reading a key of anything else raises. *)
Fixpoint as_dicts (items : list json) : result (list (gmap string json)) :=
  match items with
  | [] => Ok []
  | JDict d :: rest => bind (as_dicts rest) (fun ds => Ok (d :: ds))
  | _ :: _ => Raise
  end.

(** Lines 312 to 315 and 318 to 321: the texts of the listing entry. *)
Definition listing_texts (email_data : gmap string json) : result (string * json) :=
  let content := first_truthy email_data ["content"; "text"] (JStr "") in
  let html_content := first_truthy email_data ["html_content"; "html"] (JStr "") in
  let preview := first_truthy email_data ["preview"; "snippet"] (JStr "") in
  bind (as_str content) (fun c =>
  bind (as_str preview) (fun p => Ok (c ++ " " ++ p, html_content))).

(** Lines 295 to 309: the texts of the detail document. *)
Definition detail_texts (detail_data : json) : result (string * json) :=
  let detail_data :=
    match detail_data with
    | JDict d =>
        match dict_get d "data" with
        | JDict inner => JDict inner
        | _ => detail_data
        end
    | _ => detail_data
    end in
  match detail_data with
  | JDict d =>
      let content := first_truthy d ["content"; "text"; "text_content"] (JStr "") in
      let html_content := first_truthy d ["html_content"; "htmlContent"; "html"] (JStr "") in
      bind (as_str content) (fun c => Ok (c, html_content))
  | _ => Raise
  end.

Section Inbox.
(** The local zone, [datetime.fromisoformat], the transport, the matcher
    [core.mail_utils.extract_verification_code], [str(x)] for a value
    that is not a [str], and the text under which such a value is sent as
    a query parameter. *)
Variable tz : Z.
Variable fromisoformat : string -> result Datetime.iso_datetime.
Variable transport : list request -> request -> result response.
Variable extract_verification_code : string -> option string.
Variable py_str : json -> string.
Variable query_str : json -> string.

Definition format_value (v : json) : string :=
  match v with JStr s => s | _ => py_str v end.

Definition query_value (v : json) : string :=
  match v with JStr s => s | _ => query_str v end.

(** Lines 286 to 325 for one email: the code found in it, if any. *)
Definition scan_email (self : client) (email_data : gmap string json)
    (sent : list request) : result (option string) * list request :=
  let email_id := dict_get email_data "id" in
  let '(texts, sent) :=
    if truthy email_id then
      match _request_with_auth_fallback transport self "GET"
              (base_url self ++ "/api/email/" ++ format_value email_id)
              (Kwargs None None) sent with
      | (Raise, sent) => (Raise, sent)
      | (Ok detail_res, sent) =>
          if status_code detail_res =? 200
          then (bind (json_body detail_res) detail_texts, sent)
          else (listing_texts email_data, sent)
      end
    else (listing_texts email_data, sent) in
  (bind texts (fun '(content, html_content) =>
   let subject := first_truthy email_data ["subject"] (JStr "") in
   bind (as_str subject) (fun subject =>
   bind (as_str html_content) (fun html_content =>
   let full_content := subject ++ " " ++ content ++ " " ++ html_content in
   Ok (Message.truthy_str (extract_verification_code full_content))))),
   sent).

(** Lines 277 to 284: the filter on the time of an email. *)
Definition eligible (since_time : option Datetime.datetime)
    (email_data : gmap string json) : result bool :=
  match since_time with
  | None => Ok true
  | Some since =>
      bind (EmailTime._parse_email_time tz fromisoformat email_data) (fun email_time =>
        match email_time with
        | None => Ok false
        | Some t => Ok (negb (t <? since))
        end)
  end.

(** Lines 275 to 335: the loop over the ordered emails. *)
Fixpoint scan_emails (self : client) (since_time : option Datetime.datetime)
    (emails : list (gmap string json)) (sent : list request)
  : result (option string) * list request :=
  match emails with
  | [] => (Ok None, sent)
  | email_data :: rest =>
      match eligible since_time email_data with
      | Raise => (Raise, sent)
      | Ok false => scan_emails self since_time rest sent
      | Ok true =>
          match scan_email self email_data sent with
          | (Raise, sent) => (Raise, sent)
          | (Ok (Some code), sent) => (Ok (Some code), sent)
          | (Ok None, sent) => scan_emails self since_time rest sent
          end
      end
  end.

(** The [try] block of [fetch_verification_code]. *)
Definition fetch_body (self : client) (since_time : option Datetime.datetime)
    (sent : list request) : result (option string) * list request :=
  let params : gmap string string := {[ "mailbox" := query_value (email self) ]} in
  match _request_with_auth_fallback transport self "GET"
          (base_url self ++ "/api/emails") (Kwargs None (Some params)) sent with
  | (Raise, sent) => (Raise, sent)
  | (Ok res, sent) =>
      if negb (status_code res =? 200) then (Ok None, sent)
      else
        let payload :=
          if Str.nonempty (content res) then json_body res else Ok (JList []) in
        match payload with
        | Raise => (Raise, sent)
        | Ok payload =>
            match listing_emails payload with
            | JList [] => (Ok None, sent)
            | JList emails =>
                match bind (as_dicts emails) (EmailTime.order_emails tz fromisoformat) with
                | Raise => (Raise, sent)
                | Ok ordered => scan_emails self since_time ordered sent
                end
            | _ => (Ok None, sent)
            end
        end
  end.

(** [fetch_verification_code]: [None] without an address, and for any
    exception of the body. *)
Definition fetch_verification_code (self : client)
    (since_time : option Datetime.datetime) (sent : list request)
  : option string * list request :=
  if negb (truthy (email self)) then (None, sent)
  else
    match fetch_body self since_time sent with
    | (Ok code, sent) => (code, sent)
    | (Raise, sent) => (None, sent)
    end.

(** The first entry of the domain list, as [_get_domain] reads it. *)
Definition first_domain (payload : json) : json :=
  let domains :=
    match payload with
    | JList _ => payload
    | JDict d => first_truthy d ["domains"; "data"; "items"] (JList [])
    | _ => JList []
    end in
  match domains with
  | JList (JStr s :: _) => JStr s
  | JList (JDict d :: _) => first_truthy d ["domain"; "name"] (JStr "")
  | _ => JStr ""
  end.

(** [_get_domain] *)
Definition _get_domain (self : client) (sent : list request) : json * list request :=
  match _request_with_auth_fallback transport self "GET"
          (base_url self ++ "/api/domains") (Kwargs None None) sent with
  | (Raise, sent) => (JStr "", sent)
  | (Ok res, sent) =>
      if status_code res =? 200 then
        let payload :=
          if Str.nonempty (content res) then json_body res else Ok (JList []) in
        match payload with
        | Ok payload => (first_domain payload, sent)
        | Raise => (JStr "", sent)
        end
      else (JStr "", sent)
  end.

End Inbox.
End Mailbox.

(* ===================================================================== *)
(** * Vocabulary of the statements and sample inputs *)
(* ===================================================================== *)

Import Message.

(** ** Conversation keys *)

Definition word_ok (x : Z) : Prop := (0 <= x < 4294967296)%Z.

Definition state_ok (st : MD5.state) : Prop :=
  word_ok (MD5.sa st) /\ word_ok (MD5.sb st) /\ word_ok (MD5.sc st) /\ word_ok (MD5.sd st).

(** A digest as one number below [2 ^ 128]. *)
Definition state_code (st : MD5.state) : Z :=
  (MD5.sa st + 4294967296 * (MD5.sb st + 4294967296 * (MD5.sc st + 4294967296 * MD5.sd st)))%Z.

Definition digest_space : Z := (2 ^ 128)%Z.

Definition sample_messages : list msg_dict :=
  [ MsgDict (Some "user") (Some (CStr "hi")) ].


(** Two messages agree on the role and on the normalised text. *)
Definition same_fingerprint (m m' : msg_dict) : Prop :=
  fingerprint_role m = fingerprint_role m' /\ fingerprint_text m = fingerprint_text m'.

Definition long_conversation : list msg_dict :=
  [ MsgDict (Some "system") (Some (CStr "Be brief."));
    MsgDict (Some "user") (Some (CStr "hi"));
    MsgDict (Some "assistant") (Some (CParts [Part (Some "text") (Some "Hello") None]));
    MsgDict (Some "user") (Some (CStr "what is the weather?")) ].

Definition long_conversation' : list msg_dict :=
  [ MsgDict (Some "system") (Some (CStr "  BE brief. "));
    MsgDict (Some "user") (Some (CStr "Hi"));
    MsgDict (Some "assistant") (Some (CStr "hello"));
    MsgDict (Some "user") (Some (CStr "tell me a joke"));
    MsgDict (Some "assistant") (Some CNone) ].

(** ** Polling *)

(** [n] attempts with a sleep between two consecutive ones. *)
Fixpoint poll_trace (interval : Z) (n : nat) : list Freemail.poll_event :=
  match n with
  | O => []
  | S k =>
      Freemail.Attempt ::
      match k with
      | O => []
      | S _ => Freemail.Sleep interval :: poll_trace interval k
      end
  end.

Definition is_attempt (e : Freemail.poll_event) : bool :=
  match e with Freemail.Attempt => true | Freemail.Sleep _ => false end.

Definition count_attempts (trace : list Freemail.poll_event) : nat :=
  length (List.filter is_attempt trace).

Definition count_sleeps (trace : list Freemail.poll_event) : nat :=
  length (List.filter (fun e => negb (is_attempt e)) trace).

(** [max(1, timeout // interval)] *)
Definition max_attempts (timeout interval : Z) : nat :=
  Z.to_nat (Z.max 1 (timeout / interval)).

(** A mailbox in which the code arrives for the third call. *)
Definition third_time_lucky (k : nat) : option string :=
  match k with
  | 2%nat => Some "493027"
  | 1%nat => Some ""
  | _ => None
  end.

(** ** Requests *)

(** The status is 401 or 403. *)
Definition auth_failure (res : Freemail.response) : Prop :=
  Freemail.status_code res = 401%Z \/ Freemail.status_code res = 403%Z.

(** The response carries a usable address: status 200 or 201 and a JSON
    object whose ["email"] field, or else ["mailbox"] field, is truthy. *)
Definition has_address (res : Freemail.response) (address : json) : Prop :=
  (Freemail.status_code res = 200%Z \/ Freemail.status_code res = 201%Z)
  /\ Freemail.content res <> ""
  /\ exists d : gmap string json,
       Freemail.json_body res = Ok (JDict d)
       /\ truthy address = true
       /\ (address = dict_get d "email"
           \/ (truthy (dict_get d "email") = false /\ address = dict_get d "mailbox")).

(** A server that wants the token in the query: 401 until it is there. *)
Definition query_only_server (sent : list Freemail.request) (req : Freemail.request)
  : result Freemail.response :=
  match Freemail.params req with
  | Some q =>
      match q !! "admin_token" with
      | Some _ =>
          Ok (Freemail.Response 200 "{...}"
                (Ok (JDict {[ "email" := JStr "k3x9@mail.test" ]})))
      | None => Ok (Freemail.Response 401 "" Raise)
      end
  | None => Ok (Freemail.Response 401 "" Raise)
  end.

(** A server that rejects every request. *)
Definition always_forbidden (sent : list Freemail.request) (req : Freemail.request)
  : result Freemail.response :=
  Ok (Freemail.Response 403 "" Raise).

(** A server whose generate endpoint only accepts POST, and a dead one. *)
Definition post_only_server (sent : list Freemail.request) (req : Freemail.request)
  : result Freemail.response :=
  if String.eqb (Freemail.method req) "POST"
  then Ok (Freemail.Response 201 "{...}"
             (Ok (JDict {[ "email" := JStr ""; "mailbox" := JStr "p7q2@mail.test" ]})))
  else Ok (Freemail.Response 405 "" Raise).

Definition unreachable_server (sent : list Freemail.request) (req : Freemail.request)
  : result Freemail.response := Raise.

Definition sample_client : Freemail.client :=
  Freemail.Client "http://mail.test" "secret" JNull.

(** ** Attachments *)

Definition part_url (p : part) : string := get (p_url p) "".

Definition is_http_url (u : string) : bool :=
  Str.startswith "http://" u || Str.startswith "https://" u.

(** The attachments carried inline by the parts, in order. *)
Definition inline_attachments (ps : list part) : list attachment :=
  flat_map (fun p =>
    if is_image_part p then
      match match_data_uri (part_url p) with
      | Some (m, d) => [Attachment m d]
      | None => []
      end
    else []) ps.

(** The URLs named by the parts that are left for download, in order. *)
Definition remote_urls (ps : list part) : list string :=
  flat_map (fun p =>
    if is_image_part p then
      match match_data_uri (part_url p) with
      | Some _ => []
      | None => if is_http_url (part_url p) then [part_url p] else []
      end
    else []) ps.

(** The downloads that succeeded, in the order of the URLs. *)
Definition downloaded (http_get : string -> http_result) (urls : list string) : list attachment :=
  flat_map (fun u =>
    match download_url http_get u with
    | Some a => [a]
    | None => []
    end) urls.

Definition png_part : part :=
  Part (Some "image_url") None (Some "data:image/png;base64,QUJD").

Definition png_message : Msg :=
  MkMsg (Some "user") (CParts [png_part]) None None None None.

Definition tool_sample : Msg :=
  MkMsg (Some "tool") (CStr "42") (Some "search") (Some "c1") None None.

Definition tool_transcript_sample : Msg :=
  MkMsg (Some "tool") (CStr "42") (Some "search") None None None.

(** One URL is gone, the other one is served. *)
Definition two_url_server (u : string) : http_result :=
  if String.eqb u "https://files.test/gone.png" then HttpResponse 404 None ""
  else HttpResponse 200 (Some "image/png; charset=binary") "ABC".

Definition mixed_message : Msg :=
  MkMsg (Some "user")
    (CParts [ Part (Some "text") (Some "see ") None;
              Part (Some "image_url") None (Some "https://files.test/gone.png");
              png_part;
              Part (Some "image_url") None (Some "ftp://files.test/x");
              Part (Some "text") (Some "these") None;
              Part (Some "image_url") None (Some "http://files.test/ok.png") ])
    None None None None.

(** ** Ordering of emails *)

Definition no_time (item : gmap string json * option Datetime.datetime) : bool :=
  negb (EmailTime.has_time item).

Definition key_is (k : Z) (item : gmap string json * option Datetime.datetime) : bool :=
  (EmailTime.sort_key item =? k)%Z.

(** [a] may stand before [b] in a newest-first list. *)
Definition not_older (a b : gmap string json * option Datetime.datetime) : Prop :=
  (EmailTime.sort_key b <= EmailTime.sort_key a)%Z.

(** Every email without a timestamp stands after every email with one. *)
Definition timestamped_first
    (parse : gmap string json -> result (option Datetime.datetime))
    (emails : list (gmap string json)) : Prop :=
  forall (i j : nat) (e e' : gmap string json),
    emails !! i = Some e -> emails !! j = Some e' ->
    parse e = Ok None -> (exists t, parse e' = Ok (Some t)) -> (j < i)%nat.

Definition email_without_time : gmap string json :=
  {[ "id" := JStr "m1"; "subject" := JStr "Welcome" ]}.

(** The zero value of a server's timestamp type. *)
Definition email_zero_time : gmap string json :=
  {[ "id" := JStr "m2"; "created_at" := JStr "0001-01-01T00:00:00Z" ]}.

Definition email_recent : gmap string json :=
  {[ "id" := JStr "m3"; "created_at" := JInt 1700000000 ]}.

Definition email_recent_millis : gmap string json :=
  {[ "id" := JStr "m4"; "receivedAt" := JInt 1700000060000 ]}.

Definition email_iso : gmap string json :=
  {[ "id" := JStr "m5"; "sent_at" := JStr "2023-11-14T22:13:50.123456789Z" ]}.

Definition email_untimed_2 : gmap string json :=
  {[ "id" := JStr "m6"; "created_at" := JStr "yesterday" ]}.

(** A timestamp of twenty digits. *)
Definition email_far_future : gmap string json :=
  {[ "id" := JStr "m7"; "created_at" := JStr "99999999999999999999" ]}.

Definition sample_inbox : list (gmap string json) :=
  [ email_without_time; email_recent; email_untimed_2; email_iso; email_recent_millis ].

Definition tied_inbox : list (gmap string json) :=
  [ email_without_time; email_zero_time; email_recent ].

(** The naive local [datetime] of an instant given as a count of
    microseconds since the epoch, as the numeric branches compute it. *)
Definition local_datetime_of_us (tz : Z) (us : Z) : result (option Datetime.datetime) :=
  bind (Datetime.fromtimestamp tz us) (fun d =>
  bind (Datetime.naive_astimezone tz d) (fun d => Ok (Some d))).

(* ===================================================================== *)
(** * Further vocabulary and sample inputs *)
(* ===================================================================== *)

(** ** Timestamps *)

(** The raw timestamp of an email is a number: an integer, a boolean or
    a string of digits (after trimming). *)
Definition numeric_time (email_obj : gmap string json) : Prop :=
  match EmailTime.first_not_none EmailTime.time_keys email_obj with
  | Some (JInt _) | Some (JBool _) => True
  | Some (JStr s) => Str.isdigit (Str.strip s) = true
  | _ => False
  end.

(** All characters of a string satisfy a test. *)
Fixpoint all_chars (p : ascii -> bool) (s : string) : bool :=
  match s with
  | EmptyString => true
  | String c r => p c && all_chars p r
  end.

(** The raw timestamp of an email, when it is a string, is ASCII: the
    domain on which [Str.strip] and [Str.isdigit] are [str.strip] and
    [str.isdigit]. (Beyond it [str.isdigit] also accepts digits such as
    the superscript two, which [float] rejects.) *)
Definition is_ascii (c : ascii) : bool := (Str.code c <? 128)%Z.

Definition ascii_time (email_obj : gmap string json) : Prop :=
  match EmailTime.first_not_none EmailTime.time_keys email_obj with
  | Some (JStr s) => all_chars is_ascii s = true
  | _ => True
  end.

Definition email_seconds (n : Z) : gmap string json := {[ "created_at" := JInt n ]}.

Definition email_digits (s : string) : gmap string json := {[ "receivedAt" := JStr s ]}.

(** An email with two timestamps and an explicit null. *)
Definition email_two_times : gmap string json :=
  {[ "created_at" := JNull; "createdAt" := JInt 1700000000;
     "sent_at" := JStr "2001-01-01T00:00:00Z"; "id" := JStr "m8" ]}.

(** ** Polling *)

(** The seconds slept along a trace. *)
Definition slept (trace : list Freemail.poll_event) : Z :=
  fold_right (fun e acc =>
    match e with
    | Freemail.Sleep s => (s + acc)%Z
    | Freemail.Attempt => acc
    end) 0%Z trace.

(** A mailbox that answers with an empty string, then with a code. *)
Definition empty_then_code (k : nat) : option string :=
  match k with
  | O => Some ""
  | _ => Some "771204"
  end.

(** ** Messages *)

(** The URLs that the data-URI pattern stands for, with their two
    groups: [data:], a non-empty MIME type free of semicolons,
    [;base64,] and a non-empty payload free of line feeds, which ends the
    URL or is followed by a line feed. *)
Definition data_uri_shape (url m d : string) : Prop :=
  m <> "" /\ all_chars (not_char ";") m = true
  /\ d <> "" /\ all_chars (not_char (ascii_of_nat 10)) d = true
  /\ exists rest, url = "data:" ++ m ++ ";base64," ++ d ++ rest
                  /\ (rest = "" \/ exists r, rest = newline ++ r).

(** A lower-case hexadecimal digit *)
Definition is_hex (c : ascii) : bool :=
  let n := Str.code c in
  ((48 <=? n) && (n <=? 57) || (97 <=? n) && (n <=? 102))%Z.

Definition is_text_part (p : part) : bool := type_is p "text".

(** Two contents that [get_conversation_key] cannot tell apart: strings
    that differ by surrounding blanks and by letter case, part lists with
    the same text parts, and a part list and the string of its texts. *)
Inductive similar_content : content_value -> content_value -> Prop :=
| similar_str (s s' a b : string) :
    all_chars Str.is_space a = true -> all_chars Str.is_space b = true ->
    Str.lower s = Str.lower s' ->
    similar_content (CStr s) (CStr (a ++ s' ++ b))
| similar_parts (ps ps' : list part) :
    List.filter is_text_part ps = List.filter is_text_part ps' ->
    similar_content (CParts ps) (CParts ps')
| similar_flat (ps : list part) :
    similar_content (CParts ps) (CStr (extract_text_from_content (CParts ps))).

Definition similar_message (m m' : msg_dict) : Prop :=
  d_role m = d_role m'
  /\ exists c c', d_content m = Some c /\ d_content m' = Some c' /\ similar_content c c'.

(** The number of [image_url] parts of a content. *)
Definition image_part_count (c : content_value) : nat :=
  match c with
  | CParts ps => length (List.filter is_image_part ps)
  | _ => O
  end.

Definition shouted_conversation : list msg_dict :=
  [ MsgDict (Some "user")
      (Some (CParts [ Part (Some "text") (Some "Hello ") None;
                      Part (Some "image_url") None (Some "https://files.test/a.png");
                      Part (Some "text") (Some "World") None ]));
    MsgDict (Some "assistant") (Some (CStr "Hi there")) ].

Definition whispered_conversation : list msg_dict :=
  [ MsgDict (Some "user") (Some (CStr "Hello World"));
    MsgDict (Some "assistant")
      (Some (CStr (String (ascii_of_nat 9) " hI THERE" ++ String (ascii_of_nat 10) ""))) ].

Definition sample_history : list Msg :=
  [ MkMsg (Some "system") (CStr "Be brief.") None None None None;
    MkMsg (Some "user") (CParts [png_part; Part (Some "text") (Some "What is this?") None])
      None None None None ].

(** ** Client *)

(** The last character of a string is [x]. *)
Fixpoint ends_with (x : ascii) (s : string) : bool :=
  match s with
  | EmptyString => false
  | String c EmptyString => Ascii.eqb c x
  | String _ r => ends_with x r
  end.

(** A request as [_request_with_auth_fallback] may send it for the given
    arguments: with the caller's query, or with the token added to it. *)
Definition sent_for (self : Freemail.client) (m u : string) (kw : Freemail.kwargs)
    (r : Freemail.request) : Prop :=
  Freemail.method r = m /\ Freemail.url r = u
  /\ (Freemail.params r = Freemail.kw_params kw
      \/ Freemail.params r
         = Some (Freemail.setdefault "admin_token" (Freemail.jwt_token self)
                   (default ∅ (Freemail.kw_params kw)))).

(** A server that lists two domains. *)
Definition domains_server (sent : list Freemail.request) (req : Freemail.request)
  : result Freemail.response :=
  Ok (Freemail.Response 200 "[...]"
        (Ok (JDict {[ "data" := JList [ JDict {[ "name" := JStr "mail.test" ]};
                                        JStr "other.test" ] ]}))).

(** ** Inbox *)

(** The address of the detail document of an email. *)
Definition detail_url (py_str : json -> string) (self : Freemail.client)
    (e : gmap string json) : string :=
  Freemail.base_url self ++ "/api/email/" ++ Mailbox.format_value py_str (dict_get e "id").

(** A request for the listing of the mailbox of the client. *)
Definition listing_request (query_str : json -> string) (self : Freemail.client)
    (r : Freemail.request) : Prop :=
  Freemail.method r = "GET"
  /\ Freemail.url r = Freemail.base_url self ++ "/api/emails"
  /\ exists q : gmap string string,
       Freemail.params r = Some q
       /\ q !! "mailbox" = Some (Mailbox.query_value query_str (Freemail.email self)).

(** The call that lists the mailbox, as [fetch_verification_code] makes
    it, and the entries of the list it yields: none when the call fails,
    when the status is not 200 or when the body holds no list. *)
Definition listing_call (transport : list Freemail.request -> Freemail.request
                                     -> result Freemail.response)
    (query_str : json -> string) (self : Freemail.client) (sent : list Freemail.request)
  : result Freemail.response * list Freemail.request :=
  Freemail._request_with_auth_fallback transport self "GET"
    (Freemail.base_url self ++ "/api/emails")
    (Freemail.Kwargs None
       (Some {[ "mailbox" := Mailbox.query_value query_str (Freemail.email self) ]}))
    sent.

Definition listed (transport : list Freemail.request -> Freemail.request
                               -> result Freemail.response)
    (query_str : json -> string) (self : Freemail.client) (sent : list Freemail.request)
  : list json :=
  match fst (listing_call transport query_str self sent) with
  | Ok res =>
      if (Freemail.status_code res =? 200)%Z then
        match (if Str.nonempty (Freemail.content res)
               then Freemail.json_body res else Ok (JList [])) with
        | Ok payload =>
            match Mailbox.listing_emails payload with
            | JList items => items
            | _ => []
            end
        | Raise => []
        end
      else []
  | Raise => []
  end.

(** The text that is searched for a code. *)
Definition searched_text (subject content html_content : string) : string :=
  subject ++ " " ++ content ++ " " ++ html_content.

(** The code of an email, given its content and HTML texts. *)
Definition code_in (extract_verification_code : string -> option string)
    (email_data : gmap string json) (texts : result (string * json))
  : result (option string) :=
  bind texts (fun '(content, html_content) =>
  bind (Mailbox.as_str (Mailbox.first_truthy email_data ["subject"] (JStr ""))) (fun subject =>
  bind (Mailbox.as_str html_content) (fun html_content =>
  Ok (Message.truthy_str
        (extract_verification_code (searched_text subject content html_content)))))).

(** A matcher that knows one code, and a rendering of values that is
    never needed for string identifiers. *)
Definition toy_extract (text : string) : option string :=
  match String.index 0 "246810" text with
  | Some _ => Some "246810"
  | None => None
  end.

Definition no_str (v : json) : string := "?".

Definition inbox_client : Freemail.client :=
  Freemail.Client "http://mail.test" "secret" (JStr "k3x9@mail.test").

Definition email_welcome : gmap string json :=
  {[ "id" := JStr "m1"; "created_at" := JInt 1700000000; "subject" := JStr "Welcome" ]}.

Definition email_verify : gmap string json :=
  {[ "id" := JStr "m2"; "created_at" := JStr "2023-11-15T00:00:00Z";
     "subject" := JStr "Verify"; "preview" := JStr "Your code is 246810" ]}.

(** A server with two emails; the detail document of the newer one
    holds the code, that of the older one is missing. *)
Definition inbox_server (sent : list Freemail.request) (req : Freemail.request)
  : result Freemail.response :=
  if String.eqb (Freemail.url req) "http://mail.test/api/emails" then
    Ok (Freemail.Response 200 "{...}"
          (Ok (JDict {[ "data" := JList [JDict email_welcome; JDict email_verify] ]})))
  else if String.eqb (Freemail.url req) "http://mail.test/api/email/m2" then
    Ok (Freemail.Response 200 "{...}"
          (Ok (JDict {[ "data" := JDict {[ "content" := JStr "Your code is 246810" ]} ]})))
  else Ok (Freemail.Response 404 "" Raise).

(** The same listing with one more email, whose timestamp is too large. *)
Definition broken_inbox_server (sent : list Freemail.request) (req : Freemail.request)
  : result Freemail.response :=
  if String.eqb (Freemail.url req) "http://mail.test/api/emails" then
    Ok (Freemail.Response 200 "[...]"
          (Ok (JList [JDict email_verify; JDict email_far_future])))
  else inbox_server sent req.

(** A message with its [function_call] attribute removed. *)
Definition without_function_call (m : Msg) : Msg :=
  MkMsg (role m) (content m) (name m) (tool_call_id m) (tool_calls m) None.

(** An assistant turn that asks for a tool and also carries a function
    call. *)
Definition assistant_sample : Msg :=
  MkMsg (Some "Assistant") (CStr "Let me look.") None None
        (Some [ToolCall (Some (FunctionObj (Some "search") (Some (AStr "{}")))) None None])
        (Some (FunctionObj (Some "legacy") None)).

(* ===================================================================== *)
(** * Lemmas on strings *)
(* ===================================================================== *)


Lemma append_nil_l (s : string) : "" ++ s = s.
Proof. reflexivity. Qed.

Lemma append_cons (c : ascii) (a s : string) : String c a ++ s = String c (a ++ s).
Proof. reflexivity. Qed.

Lemma length_append (a b : string) :
  String.length (a ++ b) = (String.length a + String.length b)%nat.
Proof.
  induction a as [|c a IH]; [reflexivity |].
  rewrite append_cons. simpl. now rewrite IH.
Qed.

Lemma append_assoc (a b c : string) : (a ++ b) ++ c = a ++ (b ++ c).
Proof.
  induction a as [|x a IH]; [reflexivity |].
  rewrite !append_cons. now rewrite IH.
Qed.

Lemma append_inv_tail (a b s : string) : a ++ s = b ++ s -> a = b.
Proof.
  revert b. induction a as [|c a IH]; intros [|d b] H.
  - reflexivity.
  - apply (f_equal String.length) in H. rewrite !length_append in H. simpl in H. lia.
  - apply (f_equal String.length) in H. rewrite !length_append in H. simpl in H. lia.
  - rewrite !append_cons in H. injection H as -> H. f_equal. now apply IH.
Qed.

Lemma code_inj (c d : ascii) : Str.code c = Str.code d -> c = d.
Proof.
  unfold Str.code. intros H. apply N2Z.inj in H.
  rewrite <- (ascii_N_embedding c), <- (ascii_N_embedding d). now rewrite H.
Qed.

Lemma encode_inj (a b : string) : Str.encode a = Str.encode b -> a = b.
Proof.
  unfold Str.encode.
  revert b. induction a as [|c a IH]; intros [|d b] H; simpl in H; try discriminate.
  - reflexivity.
  - injection H as Hc Hr. apply code_inj in Hc. subst d. f_equal. now apply IH.
Qed.

Lemma nonempty_false (s : string) : Str.nonempty s = false -> s = "".
Proof. destruct s; [reflexivity | discriminate]. Qed.

Example md5_empty : MD5.hexdigest (Str.encode "") = "d41d8cd98f00b204e9800998ecf8427e".
Proof. vm_compute. reflexivity. Qed.

Example md5_abc : MD5.hexdigest (Str.encode "abc") = "900150983cd24fb0d6963f7d28e17f72".
Proof. vm_compute. reflexivity. Qed.

Example md5_two_blocks :
  MD5.hexdigest
    (Str.encode "12345678901234567890123456789012345678901234567890123456789012345678901234567890")
  = "57edf4a22be3c955ac49da2e2107b67a".
Proof. vm_compute. reflexivity. Qed.

Example b64_ABC : Base64.b64encode "ABC" = "QUJD".
Proof. reflexivity. Qed.

Example b64_padding : Base64.b64encode "hello" = "aGVsbG8=".
Proof. reflexivity. Qed.


(* ===================================================================== *)
(** * Properties of [get_conversation_key] *)
(* ===================================================================== *)

(** The identifier is recoverable from the hashed string. *)
Lemma conversation_prefix_inj (messages : list msg_dict) (cid cid' : string) :
  conversation_prefix messages cid = conversation_prefix messages cid' -> cid = cid'.
Proof.
  unfold conversation_prefix.
  set (p := Str.join "|" (map message_fingerprint (firstn 3 messages))).
  destruct (Str.nonempty cid) eqn:E, (Str.nonempty cid') eqn:E'; intros H.
  - rewrite <- (append_assoc cid "|" p), <- (append_assoc cid' "|" p) in H.
    apply append_inv_tail in H. now apply (append_inv_tail cid cid' "|").
  - apply (f_equal String.length) in H. rewrite !length_append in H.
    destruct cid; [discriminate | simpl in H; lia].
  - apply (f_equal String.length) in H. rewrite !length_append in H.
    destruct cid'; [discriminate | simpl in H; lia].
  - apply nonempty_false in E, E'. congruence.
Qed.

(** ** MD5 digests range over a finite set *)

Lemma w32_ok (x : Z) : word_ok (MD5.w32 x).
Proof. unfold word_ok, MD5.w32. apply Z.mod_pos_bound. reflexivity. Qed.

Lemma process_chunk_ok (st : MD5.state) (M : list Z) : state_ok (MD5.process_chunk st M).
Proof.
  unfold MD5.process_chunk.
  destruct (fold_left (MD5.step M) MD5.ops st) as [a b c d].
  repeat split; apply w32_ok.
Qed.

Lemma fold_chunks_ok (cs : list (list Z)) (st : MD5.state) :
  state_ok st -> state_ok (fold_left MD5.process_chunk cs st).
Proof.
  revert st. induction cs as [|M cs IH]; intros st Hst; [exact Hst |].
  apply IH, process_chunk_ok.
Qed.

Lemma digest_state_ok (msg : list Z) : state_ok (MD5.digest_state msg).
Proof.
  unfold MD5.digest_state. apply fold_chunks_ok.
  unfold state_ok, word_ok, MD5.init; simpl. lia.
Qed.

Lemma state_code_bound (st : MD5.state) :
  state_ok st -> (0 <= state_code st < digest_space)%Z.
Proof.
  unfold state_ok, word_ok, state_code, digest_space.
  change (2 ^ 128)%Z with 340282366920938463463374607431768211456%Z.
  destruct st as [a b c d]; simpl. lia.
Qed.

Lemma state_code_inj (st st' : MD5.state) :
  state_ok st -> state_ok st' -> state_code st = state_code st' -> st = st'.
Proof.
  unfold state_ok, word_ok, state_code.
  destruct st as [a b c d], st' as [a' b' c' d']; simpl.
  intros (Ha & Hb & Hc & Hd) (Ha' & Hb' & Hc' & Hd') H.
  assert (a = a') by lia. subst a'.
  assert (b = b') by lia. subst b'.
  assert (c = c') by lia. subst c'.
  assert (d = d') by lia. now subst d'.
Qed.

(** No function into a set of [M] numbers is injective on the naturals. *)
Lemma pigeonhole (M : nat) (f : nat -> nat) :
  (forall i, (f i < M)%nat) -> ~ (forall i j, i <> j -> f i <> f j).
Proof.
  intros Hbound Hinj.
  assert (Hnd : List.NoDup (map f (seq 0 (S M)))).
  { apply Finite.Injective_map_NoDup; [| apply List.seq_NoDup].
    intros i j Hij. destruct (Nat.eq_dec i j) as [|Hne]; [assumption |].
    now destruct (Hinj i j Hne). }
  assert (Hincl : List.incl (map f (seq 0 (S M))) (seq 0 M)).
  { intros x Hx. apply List.in_map_iff in Hx as (i & <- & _).
    apply List.in_seq. specialize (Hbound i). lia. }
  pose proof (List.NoDup_incl_length Hnd Hincl) as Hlen.
  rewrite List.length_map, !List.length_seq in Hlen. lia.
Qed.

Lemma times_a_length (n : nat) : String.length (Str.times "a" n) = n.
Proof.
  induction n as [|n IH]; [reflexivity |].
  change (Str.times "a" (S n)) with (String "a" (Str.times "a" n)).
  simpl. now rewrite IH.
Qed.

(** For a non-empty list the key is the digest of the prefix. *)
Lemma key_of_nonempty (m : msg_dict) (rest : list msg_dict) (cid : string) :
  get_conversation_key (m :: rest) cid
  = MD5.hex_of_state (MD5.digest_state (Str.encode (conversation_prefix (m :: rest) cid))).
Proof. reflexivity. Qed.

(** By counting alone the key cannot be injective in the client
    identifier: there are more identifiers than digests. No colliding
    pair is exhibited. *)
Lemma conversation_key_collides :
  ~ (forall cid cid' : string, cid <> cid' ->
       get_conversation_key sample_messages cid <> get_conversation_key sample_messages cid').
Proof.
  intros Hclaim.
  set (st := fun i : nat =>
    MD5.digest_state (Str.encode (conversation_prefix sample_messages (Str.times "a" i)))).
  apply (pigeonhole (Z.to_nat digest_space) (fun i => Z.to_nat (state_code (st i)))).
  - intros i. pose proof (state_code_bound (st i) (digest_state_ok _)) as Hb.
    apply Z2Nat.inj_lt; unfold digest_space in *; lia.
  - intros i j Hij Heq.
    apply Z2Nat.inj in Heq;
      [| apply state_code_bound, digest_state_ok | apply state_code_bound, digest_state_ok].
    apply state_code_inj in Heq; [| apply digest_state_ok | apply digest_state_ok].
    apply (Hclaim (Str.times "a" i) (Str.times "a" j)).
    + intros E. apply (f_equal String.length) in E. rewrite !times_a_length in E. contradiction.
    + unfold sample_messages. rewrite !key_of_nonempty. fold sample_messages.
      unfold st in Heq. now rewrite Heq.
Qed.

Lemma fingerprints_agree (l l' : list msg_dict) :
  Forall2 same_fingerprint l l' -> map message_fingerprint l = map message_fingerprint l'.
Proof.
  induction 1 as [|m m' l l' [Hr Ht] _ IH]; [reflexivity |].
  simpl. unfold message_fingerprint at 1 3. now rewrite Hr, Ht, IH.
Qed.

Lemma same_fingerprint_refl (l : list msg_dict) : Forall2 same_fingerprint l l.
Proof. induction l; constructor; [split; reflexivity | assumption]. Qed.

(** X27. For non-empty message lists [get_conversation_key] depends only
    on the roles and normalised texts of the first three messages:
    messages at index 3 and beyond have no influence. Two different
    client identifiers give two different strings to MD5, of which the
    keys are the digests. *)
Theorem conversation_key_first_three
    (messages messages' : list msg_dict) (cid cid' : string) :
  messages <> [] -> messages' <> [] ->
  (Forall2 same_fingerprint (firstn 3 messages) (firstn 3 messages') ->
   get_conversation_key messages cid = get_conversation_key messages' cid)
  /\ (firstn 3 messages = firstn 3 messages' ->
      get_conversation_key messages cid = get_conversation_key messages' cid)
  /\ (cid <> cid' ->
      Str.encode (conversation_prefix messages cid)
        <> Str.encode (conversation_prefix messages cid')
      /\ get_conversation_key messages cid
         = MD5.hexdigest (Str.encode (conversation_prefix messages cid))
      /\ get_conversation_key messages cid'
         = MD5.hexdigest (Str.encode (conversation_prefix messages cid'))).
Proof.
  intros Hne Hne'.
  destruct messages as [|m rest]; [contradiction |].
  destruct messages' as [|m' rest']; [contradiction |].
  assert (Hfp : Forall2 same_fingerprint (firstn 3 (m :: rest)) (firstn 3 (m' :: rest')) ->
                get_conversation_key (m :: rest) cid = get_conversation_key (m' :: rest') cid).
  { intros H. rewrite !key_of_nonempty. unfold conversation_prefix.
    now rewrite (fingerprints_agree _ _ H). }
  split; [exact Hfp |].
  split.
  - intros H. apply Hfp. rewrite H. apply same_fingerprint_refl.
  - intros Hcid. split; [| split; reflexivity].
    intros H. apply encode_inj, conversation_prefix_inj in H. contradiction.
Qed.

Lemma conversation_key_first_three_witness :
  long_conversation <> [] /\ long_conversation' <> []
  /\ Forall2 same_fingerprint (firstn 3 long_conversation) (firstn 3 long_conversation')
  /\ "10.0.0.1" <> "10.0.0.2"
  /\ get_conversation_key long_conversation "10.0.0.1"
     = get_conversation_key long_conversation' "10.0.0.1"
  /\ Str.encode (conversation_prefix long_conversation "10.0.0.1")
     <> Str.encode (conversation_prefix long_conversation "10.0.0.2").
Proof.
  assert (H1 : long_conversation <> []) by discriminate.
  assert (H2 : long_conversation' <> []) by discriminate.
  assert (H3 : Forall2 same_fingerprint (firstn 3 long_conversation) (firstn 3 long_conversation')).
  { repeat constructor. }
  assert (H4 : "10.0.0.1" <> "10.0.0.2") by discriminate.
  pose proof (conversation_key_first_three long_conversation long_conversation'
                "10.0.0.1" "10.0.0.2" H1 H2) as (Hfp & _ & Hcid).
  exact (conj H1 (conj H2 (conj H3 (conj H4 (conj (Hfp H3) (proj1 (Hcid H4))))))).
Defined.

(* ===================================================================== *)
(** * Properties of [poll_for_code] *)
(* ===================================================================== *)

Section PollProofs.
Import Freemail.
Variable fetch : nat -> option string.

Lemma poll_trace_counts (interval : Z) (n : nat) :
  count_attempts (poll_trace interval n) = n
  /\ count_sleeps (poll_trace interval n) = Nat.pred n.
Proof.
  unfold count_attempts, count_sleeps.
  induction n as [|[|k] IH]; [split; reflexivity | split; reflexivity |].
  destruct IH as [IHa IHs].
  change (poll_trace interval (S (S k)))
    with (Attempt :: Sleep interval :: poll_trace interval (S k)).
  cbn [List.filter is_attempt negb length]. rewrite IHa, IHs. split; reflexivity.
Qed.

Lemma poll_trace_last (interval : Z) (n : nat) :
  n <> O -> List.last (poll_trace interval n) (Sleep 0) = Attempt.
Proof.
  induction n as [|[|k] IH]; intros Hn; [contradiction | reflexivity |].
  change (poll_trace interval (S (S k)))
    with (Attempt :: Sleep interval :: poll_trace interval (S k)).
  specialize (IH ltac:(discriminate)).
  destruct (poll_trace interval (S k)) eqn:E; [discriminate E | exact IH].
Qed.

(** The loop from iteration [i] on, with [remaining] iterations left. *)
Lemma poll_loop_exhausts (interval max_retries : Z) (remaining : nat) :
  (0 <= interval)%Z ->
  forall (i : Z) (calls : nat) (trace : list poll_event),
    (Z.of_nat remaining = max_retries - i + 1)%Z ->
    (forall k, (calls <= k < calls + remaining)%nat -> Message.truthy_str (fetch k) = None) ->
    poll_loop fetch remaining i max_retries interval calls trace
    = (Ok None, (trace ++ poll_trace interval remaining)%list).
Proof.
  intros Hint. induction remaining as [|k IH]; intros i calls trace Hrem Hnone.
  - simpl. now rewrite List.app_nil_r.
  - cbn [poll_loop]. rewrite (Hnone calls) by lia.
    destruct k as [|k'].
    + assert (E : (i <? max_retries)%Z = false) by (apply Z.ltb_ge; lia).
      rewrite E. reflexivity.
    + assert (E : (i <? max_retries)%Z = true) by (apply Z.ltb_lt; lia).
      rewrite E.
      assert (E' : (interval <? 0)%Z = false) by (apply Z.ltb_ge; lia).
      rewrite E'. rewrite IH; [| lia | intros j Hj; apply Hnone; lia].
      change (poll_trace interval (S (S k')))
        with (Attempt :: Sleep interval :: poll_trace interval (S k')).
      now rewrite <- !List.app_assoc.
Qed.

Lemma poll_loop_finds (interval max_retries : Z) (c : string) (d : nat) :
  (0 <= interval)%Z ->
  forall (remaining : nat) (i : Z) (calls : nat) (trace : list poll_event),
    (Z.of_nat remaining = max_retries - i + 1)%Z ->
    (d < remaining)%nat ->
    (forall k, (calls <= k < calls + d)%nat -> Message.truthy_str (fetch k) = None) ->
    Message.truthy_str (fetch (calls + d)) = Some c ->
    poll_loop fetch remaining i max_retries interval calls trace
    = (Ok (Some c), (trace ++ poll_trace interval (S d))%list).
Proof.
  intros Hint. induction d as [|d IH]; intros remaining i calls trace Hrem Hd Hnone Hc.
  - destruct remaining as [|k]; [lia |].
    cbn [poll_loop]. rewrite Nat.add_0_r in Hc. rewrite Hc. reflexivity.
  - destruct remaining as [|k]; [lia |].
    cbn [poll_loop]. rewrite (Hnone calls) by lia.
    assert (E : (i <? max_retries)%Z = true) by (apply Z.ltb_lt; lia).
    rewrite E.
    assert (E' : (interval <? 0)%Z = false) by (apply Z.ltb_ge; lia).
    rewrite E'. rewrite (IH k); [| lia | lia | intros j Hj; apply Hnone; lia
                                 | now rewrite Nat.add_succ_comm ].
    change (poll_trace interval (S (S d)))
      with (Attempt :: Sleep interval :: poll_trace interval (S d)).
    now rewrite <- !List.app_assoc.
Qed.

(** C2. For a positive interval, [poll_for_code] calls
    [fetch_verification_code] exactly [max(1, timeout // interval)] times
    when no call returns a code, sleeping [interval] between consecutive
    attempts and not after the last one, and returns [None]; with
    [timeout = 12] and [interval = 4] these are 3 attempts and 2 sleeps.
    When call number [k] is the first to return a code, that code is
    returned after [k + 1] attempts and [k] sleeps, the last event being
    the successful attempt. *)
Theorem poll_for_code_attempts (timeout interval : Z) :
  (0 < interval)%Z ->
  let n := max_attempts timeout interval in
  ((forall k, (k < n)%nat -> Message.truthy_str (fetch k) = None) ->
     poll_for_code fetch timeout interval = (Ok None, poll_trace interval n)
     /\ count_attempts (poll_trace interval n) = n
     /\ count_sleeps (poll_trace interval n) = (n - 1)%nat
     /\ List.last (poll_trace interval n) (Sleep 0) = Attempt)
  /\ (forall (k : nat) (c : string),
        (k < n)%nat ->
        (forall j, (j < k)%nat -> Message.truthy_str (fetch j) = None) ->
        Message.truthy_str (fetch k) = Some c ->
        poll_for_code fetch timeout interval = (Ok (Some c), poll_trace interval (S k))
        /\ count_attempts (poll_trace interval (S k)) = S k
        /\ count_sleeps (poll_trace interval (S k)) = k
        /\ List.last (poll_trace interval (S k)) (Sleep 0) = Attempt)
  /\ max_attempts 12 4 = 3%nat
  /\ poll_trace 4 3 = [Attempt; Sleep 4; Attempt; Sleep 4; Attempt].
Proof.
  intros Hpos n.
  assert (Hn : (1 <= n)%nat) by (unfold n, max_attempts; lia).
  assert (Hunfold : poll_for_code fetch timeout interval
                    = poll_loop fetch n 1 (Z.max 1 (timeout / interval)) interval 0 []).
  { unfold poll_for_code. destruct (Z.eqb_spec interval 0); [lia | reflexivity]. }
  assert (Hrem : Z.of_nat n = (Z.max 1 (timeout / interval) - 1 + 1)%Z)
    by (unfold n, max_attempts; lia).
  split; [| split; [| split; reflexivity]].
  - intros Hnone. split.
    + rewrite Hunfold.
      rewrite (poll_loop_exhausts interval _ n); [reflexivity | lia | exact Hrem |].
      intros k Hk. apply Hnone. lia.
    + destruct (poll_trace_counts interval n) as [Ha Hs]. rewrite Ha, Hs.
      split; [reflexivity |]. split; [lia |]. apply poll_trace_last. lia.
  - intros k c Hk Hnone Hc. split.
    + rewrite Hunfold.
      rewrite (poll_loop_finds interval _ c k); [reflexivity | lia | exact Hrem | exact Hk | |].
      * intros j Hj. apply Hnone. lia.
      * exact Hc.
    + destruct (poll_trace_counts interval (S k)) as [Ha Hs]. rewrite Ha, Hs.
      split; [reflexivity |]. split; [reflexivity |]. apply poll_trace_last. discriminate.
Qed.

End PollProofs.

Lemma poll_for_code_attempts_witness :
  (0 < 4)%Z
  /\ Freemail.poll_for_code (fun _ => None) 12 4
     = (Ok None, [Freemail.Attempt; Freemail.Sleep 4; Freemail.Attempt;
                  Freemail.Sleep 4; Freemail.Attempt])
  /\ Freemail.poll_for_code third_time_lucky 120 4
     = (Ok (Some "493027"), [Freemail.Attempt; Freemail.Sleep 4; Freemail.Attempt;
                             Freemail.Sleep 4; Freemail.Attempt]).
Proof.
  assert (Hpos : (0 < 4)%Z) by reflexivity.
  split; [exact Hpos |]. split.
  - pose proof (poll_for_code_attempts (fun _ => None) 12 4 Hpos) as (Hnone & _).
    apply Hnone. intros k _. reflexivity.
  - pose proof (poll_for_code_attempts third_time_lucky 120 4 Hpos) as (_ & Hfound & _).
    apply (Hfound 2%nat "493027").
    + apply Nat.ltb_lt. reflexivity.
    + intros [|[|j]] Hj; [reflexivity | reflexivity | lia].
    + reflexivity.
Defined.

(* ===================================================================== *)
(** * Properties of [_request_with_auth_fallback] *)
(* ===================================================================== *)

Section RequestProofs.
Import Freemail.
Local Open Scope Z_scope.
Variable transport : list request -> request -> result response.

Lemma status_in_two (res : response) (a b : Z) :
  status_in res [a; b] = true <-> status_code res = a \/ status_code res = b.
Proof.
  unfold status_in. simpl. rewrite !orb_true_iff, !Z.eqb_eq. intuition discriminate.
Qed.

Lemma nonempty_true (s : string) : Str.nonempty s = true <-> s <> "".
Proof. destruct s; simpl; split; congruence. Qed.

Lemma lookup_setdefault (k v : string) (d : gmap string string) (k' : string) :
  setdefault k v d !! k'
  = if decide (k = k') then Some (default v (d !! k)) else d !! k'.
Proof.
  unfold setdefault. destruct (d !! k) eqn:E.
  - case_decide; [subst k'; rewrite E; reflexivity | reflexivity].
  - case_decide; [subst k'; now rewrite lookup_insert_eq | now rewrite lookup_insert_ne].
Qed.

(** C3. One call of [_request_with_auth_fallback] first sends the request
    with the caller's query parameters unchanged and, when a token is
    configured, the token in the [Authorization] and [X-Admin-Token]
    headers; it sends a second request, with the token also in the
    [admin_token] query parameter, exactly when the first response has
    status 401 or 403 and a token is configured; nothing else is sent, so
    at most two requests go out, whatever the second response is. *)
Theorem auth_fallback_at_most_once
    (self : client) (m u : string) (kw : kwargs) (sent : list request) :
  let run := _request_with_auth_fallback transport self m u kw sent in
  let h0 := default ∅ (kw_headers kw) in
  let p0 := default ∅ (kw_params kw) in
  exists (first : request) (rest : list request),
    snd run = (sent ++ first :: rest)%list
    /\ method first = m /\ url first = u
    /\ params first = kw_params kw
    /\ (jwt_token self <> "" ->
        headers first !! "Authorization"
          = Some (default ("Bearer " ++ jwt_token self) (h0 !! "Authorization"))
        /\ headers first !! "X-Admin-Token"
          = Some (default (jwt_token self) (h0 !! "X-Admin-Token")))
    /\ (forall k, k <> "Authorization" -> k <> "X-Admin-Token" ->
        headers first !! k = h0 !! k)
    /\ (jwt_token self = "" -> headers first = h0)
    /\ (rest = []
        \/ exists (second : request) (q : gmap string string),
             rest = [second]
             /\ method second = m /\ url second = u
             /\ headers second = headers first
             /\ params second = Some q
             /\ q !! "admin_token" = Some (default (jwt_token self) (p0 !! "admin_token"))
             /\ forall k, k <> "admin_token" -> q !! k = p0 !! k)
    /\ (rest <> [] <->
        exists res, transport sent first = Ok res
                    /\ auth_failure res /\ jwt_token self <> "")
    /\ (length (snd run) <= length sent + 2)%nat
    /\ fst run = match rest with
                 | [] => transport sent first
                 | second :: _ => transport (sent ++ [first])%list second
                 end.
Proof.
  intros run h0 p0. subst run.
  unfold _request_with_auth_fallback, _request.
  fold h0.
  assert (Hlen : forall r rest, (length rest <= 1)%nat ->
            (length (sent ++ r :: rest) <= length sent + 2)%nat).
  { intros r rest H. rewrite List.length_app. simpl. lia. }
  destruct (Str.nonempty (jwt_token self)) eqn:Ejwt.
  - (* a token is configured *)
    set (hs := setdefault "X-Admin-Token" (jwt_token self)
                 (setdefault "Authorization" ("Bearer " ++ jwt_token self) h0)).
    set (first := Request m u hs (kw_params kw)).
    set (second := Request m u hs
                     (Some (setdefault "admin_token" (jwt_token self) p0))).
    assert (Hhs : jwt_token self <> "" ->
                  headers first !! "Authorization"
                    = Some (default ("Bearer " ++ jwt_token self) (h0 !! "Authorization"))
                  /\ headers first !! "X-Admin-Token"
                    = Some (default (jwt_token self) (h0 !! "X-Admin-Token"))).
    { intros _. simpl. unfold hs. rewrite !lookup_setdefault.
      repeat case_decide; try discriminate; try congruence. split; reflexivity. }
    assert (Hother : forall k, k <> "Authorization" -> k <> "X-Admin-Token" ->
                     headers first !! k = h0 !! k).
    { intros k H1 H2. simpl. unfold hs. rewrite !lookup_setdefault.
      repeat case_decide; congruence. }
    assert (Hnotoken : jwt_token self = "" -> headers first = h0).
    { intros H. apply nonempty_true in Ejwt. contradiction. }
    destruct (transport sent first) as [res|] eqn:Eres.
    + destruct (status_in res [401; 403]) eqn:Est; simpl negb; simpl orb; cbv iota.
      * exists first, [second]. simpl snd. simpl fst.
        split; [now rewrite <- List.app_assoc |].
        split; [reflexivity |]. split; [reflexivity |]. split; [reflexivity |].
        split; [exact Hhs |]. split; [exact Hother |]. split; [exact Hnotoken |].
        split.
        { right. exists second, (setdefault "admin_token" (jwt_token self) p0).
          split; [reflexivity |]. split; [reflexivity |]. split; [reflexivity |].
          split; [reflexivity |]. split; [reflexivity |]. split.
          - rewrite lookup_setdefault. case_decide; [reflexivity | congruence].
          - intros k Hk. rewrite lookup_setdefault. case_decide; [congruence | reflexivity]. }
        split.
        { split; [| intros _; discriminate].
          intros _. exists res.
          split; [exact Eres | split; [now apply status_in_two | now apply nonempty_true]]. }
        split; [| reflexivity].
        rewrite <- List.app_assoc. apply Hlen. simpl. lia.
      * exists first, []. simpl snd. simpl fst.
        split; [reflexivity |].
        split; [reflexivity |]. split; [reflexivity |]. split; [reflexivity |].
        split; [exact Hhs |]. split; [exact Hother |]. split; [exact Hnotoken |].
        split; [now left |].
        split.
        { split; [intros H; now contradiction H |].
          intros (res' & Hres' & Hauth & _). rewrite Eres in Hres'.
          injection Hres' as <-. apply status_in_two in Hauth. congruence. }
        split; [apply Hlen; simpl; lia | now symmetry].
    + exists first, []. simpl snd. simpl fst.
      split; [reflexivity |].
      split; [reflexivity |]. split; [reflexivity |]. split; [reflexivity |].
      split; [exact Hhs |]. split; [exact Hother |]. split; [exact Hnotoken |].
      split; [now left |].
      split.
      { split; [intros H; now contradiction H |].
        intros (res' & Hres' & _). rewrite Eres in Hres'. discriminate. }
      split; [apply Hlen; simpl; lia | now symmetry].
  - (* no token: a single request *)
    set (first := Request m u h0 (kw_params kw)).
    assert (Hno : jwt_token self = "") by now apply nonempty_false.
    destruct (transport sent first) as [res|] eqn:Eres; [rewrite orb_true_r |];
      (exists first, []; simpl snd; simpl fst;
       split; [reflexivity |];
       split; [reflexivity |]; split; [reflexivity |]; split; [reflexivity |];
       split; [intros H; contradiction |];
       split; [reflexivity |]; split; [reflexivity |];
       split; [now left |];
       split; [split; [intros H; now contradiction H
                      | intros (_ & _ & _ & H); contradiction] |];
       split; [apply Hlen; simpl; lia | now symmetry]).
Qed.

End RequestProofs.

Example header_then_query :
  Freemail._request_with_auth_fallback query_only_server sample_client
    "GET" "http://mail.test/api/domains" (Freemail.Kwargs None None) []
  = (Ok (Freemail.Response 200 "{...}"
           (Ok (JDict {[ "email" := JStr "k3x9@mail.test" ]}))),
     [ Freemail.Request "GET" "http://mail.test/api/domains"
         {[ "Authorization" := "Bearer secret"; "X-Admin-Token" := "secret" ]} None;
       Freemail.Request "GET" "http://mail.test/api/domains"
         {[ "Authorization" := "Bearer secret"; "X-Admin-Token" := "secret" ]}
         (Some {[ "admin_token" := "secret" ]}) ]).
Proof. vm_compute. reflexivity. Qed.

Example rejected_twice :
  let run := Freemail._request_with_auth_fallback always_forbidden sample_client
               "GET" "http://mail.test/api/domains" (Freemail.Kwargs None None) [] in
  fst run = Ok (Freemail.Response 403 "" Raise) /\ length (snd run) = 2%nat.
Proof. vm_compute. split; reflexivity. Qed.

(* ===================================================================== *)
(** * Properties of [register_account] *)
(* ===================================================================== *)

Section RegisterProofs.
Import Freemail.
Local Open Scope Z_scope.
Variable transport : list request -> request -> result response.

(** What one authenticated call adds to the log of requests. *)
Lemma fallback_sends (self : client) (m u : string) (kw : kwargs) (sent : list request) :
  exists new : list request,
    snd (_request_with_auth_fallback transport self m u kw sent) = (sent ++ new)%list
    /\ (1 <= length new <= 2)%nat
    /\ Forall (fun r => method r = m /\ url r = u) new.
Proof.
  unfold _request_with_auth_fallback, _request.
  destruct (Str.nonempty (jwt_token self)).
  - match goal with |- context [transport sent ?r] => set (first := r) end.
    destruct (transport sent first) as [res|].
    + destruct (negb (status_in res [401; 403]) || negb true).
      * exists [first]. simpl. repeat constructor.
      * match goal with |- context [transport (sent ++ [first])%list ?r] => set (second := r) end.
        exists [first; second]. simpl. rewrite <- List.app_assoc. repeat constructor.
    + exists [first]. simpl. repeat constructor.
  - match goal with |- context [transport sent ?r] => set (first := r) end.
    destruct (transport sent first) as [res|].
    + rewrite orb_true_r. exists [first]. simpl. repeat constructor.
    + exists [first]. simpl. repeat constructor.
Qed.

(** The loop of [register_account] in closed form: GET, and POST only
    after a GET answered with 404 or 405. *)
Lemma generate_attempts_unfold (self : client) (domain : option string) (sent : list request) :
  let u := base_url self ++ "/api/generate" in
  let kw := Kwargs None (Some (generate_params domain)) in
  generate_attempts transport self domain sent
  = match _request_with_auth_fallback transport self "GET" u kw sent with
    | (Raise, s) => (Raise, s)
    | (Ok r, s) =>
        if status_in r [404; 405] then
          match _request_with_auth_fallback transport self "POST" u kw s with
          | (Raise, s') => (Raise, s')
          | (Ok r', s') => (Ok (Some r'), s')
          end
        else (Ok (Some r), s)
    end.
Proof.
  intros u kw. unfold generate_attempts. cbn [generate_loop]. fold u kw.
  destruct (_request_with_auth_fallback transport self "GET" u kw sent) as [[r|] s];
    [| reflexivity].
  destruct (status_in r [404; 405]); [| reflexivity].
  cbn [negb].
  destruct (_request_with_auth_fallback transport self "POST" u kw s) as [[r'|] s'];
    [| reflexivity].
  destruct (status_in r' [404; 405]); reflexivity.
Qed.

Lemma has_address_unique (res : response) (a a' : json) :
  has_address res a -> has_address res a' -> a = a'.
Proof.
  intros (_ & _ & d & Hd & Ht & Ha) (_ & _ & d' & Hd' & Ht' & Ha').
  rewrite Hd in Hd'. injection Hd' as <-.
  destruct Ha as [-> | [Hf ->]], Ha' as [-> | [Hf' ->]]; congruence.
Qed.

(** The three ways in which the [try] block of [register_account] ends. *)
Lemma register_body_cases (self : client) (domain : option string) (sent : list request) :
  let final := fst (generate_attempts transport self domain sent) in
  let body := fst (register_body transport self domain sent) in
  (exists res address,
      final = Ok (Some res) /\ has_address res address
      /\ body = (Ok true, set_email self address))
  \/ ((fst body = Ok false \/ fst body = Raise) /\ snd body = self
      /\ forall res address, final = Ok (Some res) -> ~ has_address res address).
Proof.
  intros final body. subst final body. unfold register_body.
  destruct (generate_attempts transport self domain sent) as [[[res|]|] s]; cbn [fst snd].
  2: { right. split; [now left |]. split; [reflexivity | discriminate]. }
  2: { right. split; [now right |]. split; [reflexivity | discriminate]. }
  assert (Hinv : (forall address, ~ has_address res address) ->
            forall res' address, Ok (Some res) = Ok (Some res') -> ~ has_address res' address).
  { intros H res' a E. injection E as <-. apply H. }
  destruct (status_in res [200; 201]) eqn:Est.
  - apply status_in_two in Est.
    destruct (Str.nonempty (content res)) eqn:Ec.
    + apply nonempty_true in Ec.
      destruct (json_body res) as [[| b | n | t | items | d]|] eqn:Ej;
        try (right; split; [now right |]; split; [reflexivity |];
             apply Hinv; intros a (_ & _ & d' & Hd' & _); congruence).
      unfold py_or.
      destruct (truthy (dict_get d "email")) eqn:Ee.
      * rewrite Ee. left. exists res, (dict_get d "email").
        split; [reflexivity |]. split; [| reflexivity].
        split; [exact Est |]. split; [exact Ec |].
        exists d. split; [exact Ej |]. split; [exact Ee | now left].
      * destruct (truthy (dict_get d "mailbox")) eqn:Em.
        -- left. exists res, (dict_get d "mailbox").
           split; [reflexivity |]. split; [| reflexivity].
           split; [exact Est |]. split; [exact Ec |].
           exists d. split; [exact Ej |]. split; [exact Em | right; now split].
        -- right. split; [now left |]. split; [reflexivity |].
           apply Hinv. intros a (_ & _ & d' & Hd' & Ht & Ha).
           rewrite Ej in Hd'. injection Hd' as <-.
           destruct Ha as [-> | [_ ->]]; congruence.
    + apply nonempty_false in Ec.
      right. split; [now left |]. split; [reflexivity |].
      apply Hinv. intros a (_ & Hc & _). contradiction.
  - assert (Hst : ~ (status_code res = 200 \/ status_code res = 201)).
    { intros H. apply status_in_two in H. congruence. }
    right. split; [left; destruct (status_in res [401; 403]); reflexivity |].
    split; [destruct (status_in res [401; 403]); reflexivity |].
    apply Hinv. intros a (H & _). contradiction.
Qed.

Lemma auth_failure_no_address (res : response) (address : json) :
  auth_failure res -> ~ has_address res address.
Proof. intros [H | H] ([H' | H'] & _); congruence. Qed.

Lemma generate_attempts_some (self : client) (domain : option string) (sent : list request) :
  fst (generate_attempts transport self domain sent) <> Ok None.
Proof.
  rewrite generate_attempts_unfold.
  destruct (_request_with_auth_fallback _ _ "GET" _ _ _) as [[r|] s]; [| discriminate].
  destruct (status_in r [404; 405]); [| discriminate].
  destruct (_request_with_auth_fallback _ _ "POST" _ _ _) as [[r'|] s']; discriminate.
Qed.

Lemma register_body_log (self : client) (domain : option string) (sent : list request) :
  snd (register_body transport self domain sent)
  = snd (generate_attempts transport self domain sent).
Proof.
  unfold register_body.
  destruct (generate_attempts transport self domain sent) as [[[res|]|] s]; try reflexivity.
  destruct (status_in res [200; 201]).
  - destruct (if Str.nonempty (content res) then json_body res else Ok (JDict ∅))
      as [[| | | | |d]|]; try reflexivity.
    destruct (truthy (py_or (dict_get d "email") (dict_get d "mailbox"))); reflexivity.
  - destruct (status_in res [401; 403]); reflexivity.
Qed.

Lemma register_account_result (self : client) (domain : option string) (sent : list request) :
  fst (fst (register_account transport self domain sent))
    = match fst (fst (register_body transport self domain sent)) with
      | Ok b => Ok b
      | Raise => Ok false
      end
  /\ snd (fst (register_account transport self domain sent))
     = snd (fst (register_body transport self domain sent))
  /\ snd (register_account transport self domain sent)
     = snd (register_body transport self domain sent).
Proof.
  unfold register_account.
  destruct (register_body transport self domain sent) as [[[b|] c] s];
    repeat split; reflexivity.
Qed.

(** C5. [register_account] never raises: it returns a boolean for every
    behaviour of the transport. It sends GET and then POST to the generate
    endpoint, POST only after the GET call ended with status 404 or 405.
    It returns [True] exactly when the response of the last call has
    status 200 or 201 and a body with a truthy ["email"] or ["mailbox"]
    field, and then stores that address; it returns [False] on a 401 or
    403 response, when no such field is there, and when the transport
    raises. *)
Theorem register_account_never_raises
    (self : client) (domain : option string) (sent : list request) :
  let run := register_account transport self domain sent in
  let final := generate_attempts transport self domain sent in
  let u := base_url self ++ "/api/generate" in
  let kw := Kwargs None (Some (generate_params domain)) in
  (exists b : bool, fst (fst run) = Ok b)
  /\ final = match _request_with_auth_fallback transport self "GET" u kw sent with
             | (Raise, s) => (Raise, s)
             | (Ok r, s) =>
                 if status_in r [404; 405] then
                   match _request_with_auth_fallback transport self "POST" u kw s with
                   | (Raise, s') => (Raise, s')
                   | (Ok r', s') => (Ok (Some r'), s')
                   end
                 else (Ok (Some r), s)
             end
  /\ snd run = snd final
  /\ (exists new : list request,
        snd run = (sent ++ new)%list /\ (1 <= length new <= 4)%nat
        /\ Forall (fun r => url r = u /\ (method r = "GET" \/ method r = "POST")) new)
  /\ (fst (fst run) = Ok true <->
      exists res address, fst final = Ok (Some res) /\ has_address res address)
  /\ (forall res address,
        fst final = Ok (Some res) -> has_address res address ->
        email (snd (fst run)) = address)
  /\ (forall res, fst final = Ok (Some res) -> auth_failure res -> fst (fst run) = Ok false)
  /\ (forall res,
        fst final = Ok (Some res) -> (forall address, ~ has_address res address) ->
        fst (fst run) = Ok false)
  /\ (fst final = Raise -> fst (fst run) = Ok false).
Proof.
  intros run final u kw. subst run final.
  pose proof (register_body_cases self domain sent) as Hcases.
  pose proof (register_body_log self domain sent) as Hlog.
  destruct (register_account_result self domain sent) as (-> & -> & ->).
  cbv zeta in Hcases.
  destruct (register_body transport self domain sent) as [[r self'] sent'] eqn:Ebody.
  cbn [fst snd] in *.
  split; [destruct r as [b|]; eauto |].
  split; [apply generate_attempts_unfold |].
  split; [exact Hlog |].
  split.
  { rewrite Hlog, generate_attempts_unfold. fold u kw.
    destruct (fallback_sends self "GET" u kw sent) as (new & Hnew & Hlen & Hall).
    destruct (_request_with_auth_fallback transport self "GET" u kw sent) as [[rg|] s].
    2: { exists new. simpl in *. split; [exact Hnew |]. split; [lia |].
         eapply List.Forall_impl; [| exact Hall]. intros q [Hm Hu]. split; [exact Hu | now left]. }
    simpl snd in Hnew. subst s.
    assert (Hget : Forall (fun r0 => url r0 = u /\ (method r0 = "GET" \/ method r0 = "POST")) new).
    { eapply List.Forall_impl; [| exact Hall]. intros q [Hm Hu]. split; [exact Hu | now left]. }
    destruct (status_in rg [404; 405]).
    2: { exists new. simpl. split; [reflexivity |]. split; [lia | exact Hget]. }
    destruct (fallback_sends self "POST" u kw (sent ++ new)%list) as (new' & Hnew' & Hlen' & Hall').
    assert (Hpost : Forall (fun r0 => url r0 = u /\ (method r0 = "GET" \/ method r0 = "POST")) new').
    { eapply List.Forall_impl; [| exact Hall']. intros q [Hm Hu]. split; [exact Hu | now right]. }
    exists (new ++ new')%list.
    destruct (_request_with_auth_fallback transport self "POST" u kw (sent ++ new)%list)
      as [[rp|] s']; simpl in *; subst s';
      (split; [now rewrite List.app_assoc |];
       split; [rewrite List.length_app; lia | apply List.Forall_app; split; assumption]). }
  destruct Hcases as [(res & address & Hfinal & Haddr & Hbody)
                     | (Hres & Hself & Hnone)].
  - injection Hbody as -> ->.
    split; [split; [intros _; eauto | reflexivity] |].
    split.
    { intros res' a Hfinal' Ha. rewrite Hfinal in Hfinal'. injection Hfinal' as <-.
      simpl. apply (has_address_unique res); assumption. }
    split.
    { intros res' Hfinal' Hauth. rewrite Hfinal in Hfinal'. injection Hfinal' as <-.
      now destruct (auth_failure_no_address res address Hauth). }
    split.
    { intros res' Hfinal' Hno. rewrite Hfinal in Hfinal'. injection Hfinal' as <-.
      now destruct (Hno address). }
    intros Hraise. rewrite Hfinal in Hraise. discriminate.
  - assert (Hfalse : match r with Ok b => Ok b | Raise => Ok false end = Ok false)
      by (destruct Hres as [-> | ->]; reflexivity).
    rewrite Hfalse.
    split.
    { split; [discriminate |]. intros (res & a & Hf & Ha). now destruct (Hnone res a Hf). }
    split; [intros res a Hf Ha; now destruct (Hnone res a Hf) |].
    repeat split; reflexivity.
Qed.

(** C10. [register_account] leaves the stored address alone unless it
    succeeds: when it returns [False] the client is exactly as before the
    call, and the [email] field is assigned only on the path that returns
    [True], where it receives the truthy address of the response. *)
Theorem register_account_email_atomic
    (self : client) (domain : option string) (sent : list request) :
  let run := register_account transport self domain sent in
  (fst (fst run) = Ok false -> snd (fst run) = self)
  /\ (snd (fst run) <> self -> fst (fst run) = Ok true)
  /\ (fst (fst run) = Ok true ->
      exists address, truthy address = true
                      /\ snd (fst run) = set_email self address
                      /\ email (snd (fst run)) = address).
Proof.
  intros run. subst run.
  pose proof (register_body_cases self domain sent) as Hcases.
  destruct (register_account_result self domain sent) as (-> & -> & _).
  cbv zeta in Hcases.
  destruct (register_body transport self domain sent) as [[r self'] sent'].
  cbn [fst snd] in *.
  destruct Hcases as [(res & address & _ & Haddr & Hbody) | (Hres & Hself & _)].
  - injection Hbody as -> ->. simpl.
    split; [discriminate |]. split; [reflexivity |].
    intros _. exists address.
    destruct Haddr as (_ & _ & d & _ & Ht & _). repeat split. exact Ht.
  - subst self'. destruct Hres as [-> | ->]; simpl;
      (split; [reflexivity |]; split; [contradiction | discriminate]).
Qed.

End RegisterProofs.

Example register_by_post :
  let run := Freemail.register_account post_only_server sample_client (Some "mail.test") [] in
  fst (fst run) = Ok true
  /\ Freemail.email (snd (fst run)) = JStr "p7q2@mail.test"
  /\ map Freemail.method (snd run) = ["GET"; "POST"]
  /\ map Freemail.params (snd run)
     = [Some {[ "domain" := "mail.test" ]}; Some {[ "domain" := "mail.test" ]}].
Proof. vm_compute. repeat split; reflexivity. Qed.

Example register_forbidden :
  let run := Freemail.register_account always_forbidden sample_client None [] in
  fst (fst run) = Ok false
  /\ snd (fst run) = sample_client
  /\ map Freemail.method (snd run) = ["GET"; "GET"].
Proof. vm_compute. repeat split; reflexivity. Qed.

Example register_unreachable :
  let run := Freemail.register_account unreachable_server sample_client None [] in
  fst (fst run) = Ok false /\ snd (fst run) = sample_client /\ length (snd run) = 1%nat.
Proof. vm_compute. repeat split; reflexivity. Qed.

(* ===================================================================== *)
(** * The data-URI pattern *)
(* ===================================================================== *)

Lemma append_nil_r (s : string) : s ++ "" = s.
Proof. induction s as [|c s IH]; [reflexivity | now rewrite append_cons, IH]. Qed.

Lemma strip_prefix_sound (p s r : string) : strip_prefix p s = Some r -> s = p ++ r.
Proof.
  revert s. induction p as [|a p IH]; intros s H; simpl in H.
  - now injection H as ->.
  - destruct s as [|b s]; [discriminate |].
    destruct (Ascii.eqb_spec a b) as [->|]; [| discriminate].
    rewrite append_cons. f_equal. now apply IH.
Qed.

Lemma span_sound (keep : ascii -> bool) (s a b : string) : span keep s = (a, b) -> s = a ++ b.
Proof.
  revert a b. induction s as [|c s IH]; intros a b H; simpl in H.
  - now injection H as <- <-.
  - destruct (keep c).
    + destruct (span keep s) as [a' b']. injection H as <- <-.
      rewrite append_cons. f_equal. now apply IH.
    + now injection H as <- <-.
Qed.

Lemma span_all (keep : ascii -> bool) (s : string) : all_chars keep (fst (span keep s)) = true.
Proof.
  induction s as [|c s IH]; [reflexivity |].
  cbn [span]. destruct (keep c) eqn:E; [| reflexivity].
  destruct (span keep s) as [a b]. cbn [fst all_chars] in *. now rewrite E, IH.
Qed.

Lemma strip_prefix_app (p r : string) : strip_prefix p (p ++ r) = Some r.
Proof.
  induction p as [|c p IH]; [reflexivity |].
  rewrite append_cons. cbn [strip_prefix]. now rewrite Ascii.eqb_refl.
Qed.

Lemma span_app (keep : ascii -> bool) (a r : string) (c : ascii) :
  all_chars keep a = true -> keep c = false ->
  span keep (a ++ String c r) = (a, String c r).
Proof.
  intros Ha Hc. induction a as [|x a IH].
  - rewrite append_nil_l. cbn [span]. now rewrite Hc.
  - cbn [all_chars] in Ha. apply andb_true_iff in Ha as [Hx Ha].
    rewrite append_cons. cbn [span]. now rewrite Hx, (IH Ha).
Qed.

Lemma span_whole (keep : ascii -> bool) (a : string) :
  all_chars keep a = true -> span keep a = (a, "").
Proof.
  induction a as [|x a IH]; [reflexivity |].
  cbn [all_chars span]. intros H. apply andb_true_iff in H as [Hx Ha].
  now rewrite Hx, (IH Ha).
Qed.

Lemma span_rest (keep : ascii -> bool) (s a b : string) :
  span keep s = (a, b) -> b = "" \/ exists c r, b = String c r /\ keep c = false.
Proof.
  revert a b. induction s as [|c s IH]; intros a b H; cbn [span] in H.
  - injection H as <- <-. now left.
  - destruct (keep c) eqn:E.
    + destruct (span keep s) as [a' b']. injection H as <- <-. now apply (IH a').
    + injection H as <- <-. right. now exists c, s.
Qed.

Lemma not_char_false (x c : ascii) : not_char x c = false -> c = x.
Proof.
  unfold not_char. intros H. apply negb_false_iff in H.
  symmetry. now apply Ascii.eqb_eq.
Qed.

(** The pattern matches exactly the URLs that start with [data:], a
    non-empty MIME type free of semicolons, [;base64,] and a non-empty
    payload that runs to the end of the URL or to its first line feed. *)
Lemma match_data_uri_iff (url m d : string) :
  match_data_uri url = Some (m, d) <-> data_uri_shape url m d.
Proof.
  unfold data_uri_shape. split.
  - unfold match_data_uri. intros H.
    destruct (strip_prefix "data:" url) as [r1|] eqn:E1; [| discriminate].
    destruct (span (not_char ";") r1) as [mt r2] eqn:E2.
    destruct (Str.nonempty mt) eqn:Em; [| discriminate].
    destruct (strip_prefix ";base64," r2) as [r3|] eqn:E3; [| discriminate].
    destruct (span (not_char (ascii_of_nat 10)) r3) as [pl r4] eqn:E4.
    destruct (Str.nonempty pl) eqn:Ep; [| discriminate].
    injection H as <- <-.
    pose proof (span_all (not_char ";") r1) as Hm. rewrite E2 in Hm.
    pose proof (span_all (not_char (ascii_of_nat 10)) r3) as Hd. rewrite E4 in Hd.
    split; [now apply nonempty_true |]. split; [exact Hm |].
    split; [now apply nonempty_true |]. split; [exact Hd |].
    exists r4. split.
    + apply strip_prefix_sound in E1, E3. apply span_sound in E2, E4.
      now rewrite E1, E2, E3, E4.
    + destruct (span_rest _ _ _ _ E4) as [-> | (c & r & -> & Hc)]; [now left |].
      right. exists r. now rewrite (not_char_false _ _ Hc).
  - intros (Hm & Hms & Hd & Hds & rest & -> & Hrest).
    apply nonempty_true in Hm, Hd.
    unfold match_data_uri. rewrite strip_prefix_app.
    change (";base64," ++ d ++ rest) with (String ";" ("base64," ++ d ++ rest)).
    rewrite (span_app (not_char ";") m _ ";" Hms eq_refl), Hm.
    change (String ";" ("base64," ++ d ++ rest)) with (";base64," ++ d ++ rest).
    rewrite strip_prefix_app.
    assert (Hspan : span (not_char (ascii_of_nat 10)) (d ++ rest) = (d, rest)).
    { destruct Hrest as [-> | (r & ->)].
      - rewrite append_nil_r. now apply span_whole.
      - change (newline ++ r) with (String (ascii_of_nat 10) r). now apply span_app. }
    now rewrite Hspan, Hd.
Qed.

(* ===================================================================== *)
(** * Properties of [parse_last_message] and [build_full_context_text] *)
(* ===================================================================== *)

Section MessageProofs.
Variable http_get : string -> http_result.

Lemma last_snoc_msg (history : list Msg) (m : Msg) : last (history ++ [m])%list = Some m.
Proof. apply last_snoc. Qed.

Lemma type_text_not_image (p : part) : type_is p "text" = true -> is_image_part p = false.
Proof.
  unfold is_image_part, type_is. destruct (p_type p) as [ty|]; [| discriminate].
  unfold str_eqb. intros H. apply String.eqb_eq in H. now subst ty.
Qed.

(** The scan of the parts, from any state of the three accumulators. *)
Lemma scan_parts_from (ps : list part) (t : string) (im : list attachment) (us : list string) :
  fold_left scan_part ps (t, im, us)
  = (t ++ extract_text_from_content (CParts ps),
     (im ++ inline_attachments ps)%list,
     (us ++ remote_urls ps)%list).
Proof.
  revert t im us. induction ps as [|p ps IH]; intros t im us.
  - simpl. unfold extract_text_from_content. simpl.
    rewrite !List.app_nil_r. f_equal. f_equal.
    clear. induction t as [|c t IHt]; [reflexivity | now rewrite append_cons, <- IHt].
  - cbn [fold_left]. unfold scan_part at 2.
    assert (Htext : forall q qs,
              extract_text_from_content (CParts (q :: qs))
              = (if type_is q "text" then get (p_text q) "" else "")
                  ++ extract_text_from_content (CParts qs)).
    { intros q qs. unfold extract_text_from_content. cbn [List.filter].
      destruct (type_is q "text"); reflexivity. }
    rewrite Htext.
    unfold inline_attachments, remote_urls. cbn [flat_map].
    fold (inline_attachments ps). fold (remote_urls ps).
    destruct (type_is p "text") eqn:Et.
    + rewrite (type_text_not_image p Et). rewrite IH.
      now rewrite append_assoc.
    + change (type_is p "image_url") with (is_image_part p).
      destruct (is_image_part p) eqn:Ei.
      * change (get (p_url p) "") with (part_url p).
        destruct (match_data_uri (part_url p)) as [[m d]|] eqn:Em.
        -- rewrite IH. now rewrite <- List.app_assoc.
        -- fold (is_http_url (part_url p)).
           destruct (is_http_url (part_url p)); rewrite IH;
             [now rewrite <- List.app_assoc | reflexivity].
      * rewrite IH. reflexivity.
Qed.

Lemma scan_content_parts (ps : list part) :
  scan_content (CParts ps)
  = (extract_text_from_content (CParts ps), inline_attachments ps, remote_urls ps).
Proof. unfold scan_content. now rewrite scan_parts_from. Qed.

Lemma safe_results_gather (urls : list string) :
  truthy_results (safe_results (gather http_get urls)) = downloaded http_get urls.
Proof.
  unfold gather, downloaded, safe_results, truthy_results.
  induction urls as [|u urls IH]; [reflexivity |].
  cbn [map flat_map app]. now rewrite IH.
Qed.

(** What [parse_last_message] returns for a multimodal last message. *)
Lemma parse_last_parts (history : list Msg) (m : Msg) (ps : list part) :
  content m = CParts ps ->
  parse_last_message http_get (history ++ [m])
  = Parsed (augment_text m (extract_text_from_content (CParts ps)))
           (inline_attachments ps ++ downloaded http_get (remote_urls ps))%list
           (remote_urls ps).
Proof.
  intros Hc. unfold parse_last_message. rewrite last_snoc_msg, Hc, scan_content_parts.
  destruct (remote_urls ps) as [|u us] eqn:Eu.
  - simpl. now rewrite List.app_nil_r.
  - now rewrite safe_results_gather.
Qed.

(** A match of the data-URI pattern has the shape
    [data:<mime>;base64,<payload>], with both groups non-empty. *)
Lemma match_data_uri_shape (url m d : string) :
  match_data_uri url = Some (m, d) ->
  m <> "" /\ d <> "" /\ exists rest, url = "data:" ++ m ++ ";base64," ++ d ++ rest.
Proof.
  unfold match_data_uri. intros H.
  destruct (strip_prefix "data:" url) as [r1|] eqn:E1; [| discriminate].
  destruct (span (not_char ";") r1) as [mt r2] eqn:E2.
  destruct (Str.nonempty mt) eqn:Em; [| discriminate].
  destruct (strip_prefix ";base64," r2) as [r3|] eqn:E3; [| discriminate].
  destruct (span (not_char (ascii_of_nat 10)) r3) as [pl r4] eqn:E4.
  destruct (Str.nonempty pl) eqn:Ep; [| discriminate].
  injection H as <- <-.
  split; [now apply nonempty_true |]. split; [now apply nonempty_true |].
  exists r4.
  apply strip_prefix_sound in E1, E3. apply span_sound in E2, E4.
  now rewrite E1, E2, E3, E4.
Qed.

Lemma data_uri_not_http (url m d : string) :
  match_data_uri url = Some (m, d) -> is_http_url url = false.
Proof.
  intros H. apply match_data_uri_shape in H as (_ & _ & rest & ->). reflexivity.
Qed.

Lemma http_url_no_match (url : string) : is_http_url url = true -> match_data_uri url = None.
Proof.
  intros H. destruct (match_data_uri url) as [[m d]|] eqn:E; [| reflexivity].
  apply data_uri_not_http in E. congruence.
Qed.

Lemma download_url_cases (url : string) :
  download_url http_get url
  = match http_get url with
    | HttpResponse status ctype body =>
        if is_success status
        then Some (Attachment (before_semicolon (get ctype "application/octet-stream"))
                              (Base64.b64encode body))
        else None
    | HttpError => None
    end.
Proof.
  unfold download_url, download_body.
  destruct (http_get url) as [|status ctype body]; [reflexivity |].
  destruct (Z.eqb_spec status 404) as [->|]; [reflexivity |].
  destruct (is_success status); reflexivity.
Qed.

(** C7. A failed download (an exception, a 404, any status outside
    200..299) gives [None] in the slot of its URL and nothing else: the
    gathered results have one slot per URL, in order, none of them an
    exception, and each slot depends on its own URL only. With one URL
    answering 404 and one answering 200 the slots are [None] and the
    attachment. The attachments returned are the inline ones followed by
    the successful downloads in the order of their URLs, failures left
    out. *)
Theorem remote_failures_elided
    (history : list Msg) (r n tid : option string) (tcs : option (list tool_call))
    (fc : option function_obj) (ps : list part) :
  let out := parse_last_message http_get (history ++ [MkMsg r (CParts ps) n tid tcs fc]) in
  (forall url, http_get url = HttpError -> download_url http_get url = None)
  /\ (forall url status ctype body,
        http_get url = HttpResponse status ctype body ->
        (status = 404 \/ ~ (200 <= status <= 299))%Z ->
        download_url http_get url = None)
  /\ (forall url status ctype body,
        http_get url = HttpResponse status ctype body ->
        (200 <= status <= 299)%Z ->
        download_url http_get url
        = Some (Attachment (before_semicolon (get ctype "application/octet-stream"))
                           (Base64.b64encode body)))
  /\ (forall urls,
        length (gather http_get urls) = length urls
        /\ forall i u, urls !! i = Some u ->
             gather http_get urls !! i = Some (Ok (download_url http_get u)))
  /\ (forall u1 u2 ct1 body1 ct2 body2,
        http_get u1 = HttpResponse 404 ct1 body1 ->
        http_get u2 = HttpResponse 200 ct2 body2 ->
        let a := Attachment (before_semicolon (get ct2 "application/octet-stream"))
                            (Base64.b64encode body2) in
        gather http_get [u1; u2] = [Ok None; Ok (Some a)]
        /\ downloaded http_get [u1; u2] = [a])
  /\ attachments out
     = (inline_attachments ps ++ downloaded http_get (remote_urls ps))%list.
Proof.
  intros out. subst out.
  assert (Hfail : forall url status ctype body,
            http_get url = HttpResponse status ctype body ->
            (status = 404 \/ ~ (200 <= status <= 299))%Z ->
            download_url http_get url = None).
  { intros url status ctype body Hget Hst. rewrite download_url_cases, Hget.
    unfold is_success.
    destruct ((200 <=? status)%Z && (status <=? 299)%Z) eqn:E; [| reflexivity].
    apply andb_true_iff in E as [E1 E2]. apply Z.leb_le in E1, E2. lia. }
  assert (Hok : forall url status ctype body,
            http_get url = HttpResponse status ctype body ->
            (200 <= status <= 299)%Z ->
            download_url http_get url
            = Some (Attachment (before_semicolon (get ctype "application/octet-stream"))
                               (Base64.b64encode body))).
  { intros url status ctype body Hget [H1 H2]. rewrite download_url_cases, Hget.
    unfold is_success.
    apply Z.leb_le in H1, H2. now rewrite H1, H2. }
  split; [intros url Hget; now rewrite download_url_cases, Hget |].
  split; [exact Hfail |].
  split; [exact Hok |].
  split.
  { intros urls. unfold gather. split; [apply List.length_map |].
    intros i u Hu. rewrite list_lookup_fmap, Hu. reflexivity. }
  split.
  { intros u1 u2 ct1 body1 ct2 body2 H1 H2 a.
    unfold gather, downloaded. cbn [map flat_map].
    rewrite (Hfail u1 404%Z ct1 body1 H1 (or_introl eq_refl)).
    rewrite (Hok u2 200%Z ct2 body2 H2 ltac:(lia)).
    split; reflexivity. }
  now rewrite (parse_last_parts history (MkMsg r (CParts ps) n tid tcs fc) ps eq_refl).
Qed.

(** C8. For the content
    [[{"type":"image_url","image_url":{"url":"data:image/png;base64,QUJD"}}]]
    [parse_last_message] requests nothing and returns the one inline
    attachment [image/png], [QUJD]. In general the URLs requested are
    those of the [image_url] parts that do not match the data-URI pattern
    and start with [http://] or [https://]; a part that matches
    [data:<mime>;base64,<payload>] gives its attachment inline and no
    request; any other URL gives neither. The pattern matches exactly
    the URLs made of [data:], a non-empty MIME type without semicolon,
    [;base64,] and a non-empty payload that runs to the end of the URL or
    to its first line feed; so a part with the URL
    [data:<mime>;base64,<payload>], the payload free of line feeds, gives
    the attachment [<mime>], [<payload>], payload whole, and no request. *)
Theorem data_uri_captured_inline
    (history : list Msg) (r n tid : option string) (tcs : option (list tool_call))
    (fc : option function_obj) (ps : list part) :
  let out := parse_last_message http_get (history ++ [MkMsg r (CParts ps) n tid tcs fc]) in
  parse_last_message http_get [png_message]
    = Parsed "" [Attachment "image/png" "QUJD"] []
  /\ (let png := parse_last_message http_get
                   (history ++ [MkMsg r (CParts [png_part]) n tid tcs fc]) in
      attachments png = [Attachment "image/png" "QUJD"] /\ requested png = [])
  /\ requested out = remote_urls ps
  /\ attachments out
     = (inline_attachments ps ++ downloaded http_get (remote_urls ps))%list
  /\ (forall p, is_image_part p = true ->
        match match_data_uri (part_url p) with
        | Some (m, d) =>
            inline_attachments [p] = [Attachment m d] /\ remote_urls [p] = []
            /\ m <> "" /\ d <> ""
            /\ exists rest, part_url p = "data:" ++ m ++ ";base64," ++ d ++ rest
        | None =>
            inline_attachments [p] = []
            /\ remote_urls [p] = if is_http_url (part_url p) then [part_url p] else []
        end)
  /\ (forall p, is_image_part p = false ->
        inline_attachments [p] = [] /\ remote_urls [p] = [])
  /\ (forall ps1 ps2,
        inline_attachments (ps1 ++ ps2) = (inline_attachments ps1 ++ inline_attachments ps2)%list
        /\ remote_urls (ps1 ++ ps2) = (remote_urls ps1 ++ remote_urls ps2)%list)
  /\ (forall url, is_http_url url = true -> match_data_uri url = None)
  /\ (forall url m d, match_data_uri url = Some (m, d) <-> data_uri_shape url m d)
  /\ (forall (m d : string) (t : option string),
        m <> "" -> all_chars (not_char ";") m = true ->
        d <> "" -> all_chars (not_char (ascii_of_nat 10)) d = true ->
        let uri := parse_last_message http_get
                     (history ++ [MkMsg r (CParts [Part (Some "image_url") t
                                    (Some ("data:" ++ m ++ ";base64," ++ d))]) n tid tcs fc]) in
        attachments uri = [Attachment m d] /\ requested uri = []).
Proof.
  intros out. subst out.
  rewrite (parse_last_parts history (MkMsg r (CParts ps) n tid tcs fc) ps eq_refl).
  split; [reflexivity |].
  split.
  { cbv zeta.
    rewrite (parse_last_parts history (MkMsg r (CParts [png_part]) n tid tcs fc)
               [png_part] eq_refl).
    split; reflexivity. }
  split; [reflexivity |]. split; [reflexivity |].
  split.
  { intros p Hp. unfold inline_attachments, remote_urls. cbn [flat_map]. rewrite Hp.
    destruct (match_data_uri (part_url p)) as [[m d]|] eqn:E.
    - split; [reflexivity |]. split; [reflexivity |]. now apply match_data_uri_shape.
    - rewrite !List.app_nil_r. split; reflexivity. }
  split.
  { intros p Hp. unfold inline_attachments, remote_urls. cbn [flat_map]. rewrite Hp.
    split; reflexivity. }
  split.
  { intros ps1 ps2. unfold inline_attachments, remote_urls.
    split; apply List.flat_map_app. }
  split; [exact http_url_no_match |].
  split; [exact match_data_uri_iff |].
  intros m d t Hm Hms Hd Hds uri. subst uri.
  rewrite (parse_last_parts history
             (MkMsg r (CParts [Part (Some "image_url") t
                                 (Some ("data:" ++ m ++ ";base64," ++ d))]) n tid tcs fc)
             [Part (Some "image_url") t (Some ("data:" ++ m ++ ";base64," ++ d))] eq_refl).
  assert (Hmatch : match_data_uri ("data:" ++ m ++ ";base64," ++ d) = Some (m, d)).
  { apply match_data_uri_iff. unfold data_uri_shape.
    split; [exact Hm |]. split; [exact Hms |]. split; [exact Hd |]. split; [exact Hds |].
    exists "". split; [now rewrite append_nil_r | now left]. }
  unfold inline_attachments, remote_urls. cbn [flat_map attachments requested].
  change (is_image_part (Part (Some "image_url") t
            (Some ("data:" ++ m ++ ";base64," ++ d)))) with true.
  change (part_url (Part (Some "image_url") t (Some ("data:" ++ m ++ ";base64," ++ d))))
    with ("data:" ++ m ++ ";base64," ++ d).
  rewrite Hmatch. split; reflexivity.
Qed.

Lemma tool_text (history : list Msg) (r : option string) (t : string)
    (n tid : option string) (tcs : option (list tool_call)) (fc : option function_obj) :
  Str.lower (get r "") = "tool" ->
  text (parse_last_message http_get (history ++ [MkMsg r (CStr t) n tid tcs fc]))
  = "Tool result from " ++ or_else n "tool"
      ++ match truthy_str tid with Some id => " (" ++ id ++ ")" | None => "" end
      ++ ":" ++ newline ++ t.
Proof.
  intros Hr. unfold parse_last_message. rewrite last_snoc_msg.
  cbn [content scan_content text]. unfold augment_text, role_lower.
  cbn [role name tool_call_id]. rewrite Hr. reflexivity.
Qed.

(** C9 (amended). A last message of role [tool] with name [n], call id
    [c] and text [t] is rendered as ["Tool result from <n> (<c>):\n<t>"],
    with a blank between the name and the parenthesised call id; without a
    call id the parenthesis is left out. [build_full_context_text] on the
    single message [{role: "tool", name: "search", content: "42"}] returns
    ["Tool[search]: 42\n\n"]. *)
Theorem tool_result_rendering
    (history : list Msg) (r : option string) (n c t : string)
    (tcs : option (list tool_call)) (fc : option function_obj) :
  Str.lower (get r "") = "tool" -> n <> "" -> c <> "" ->
  text (parse_last_message http_get
          (history ++ [MkMsg r (CStr t) (Some n) (Some c) tcs fc]))
    = "Tool result from " ++ n ++ " (" ++ c ++ "):" ++ newline ++ t
  /\ text (parse_last_message http_get
             (history ++ [MkMsg r (CStr t) (Some n) None tcs fc]))
     = "Tool result from " ++ n ++ ":" ++ newline ++ t
  /\ build_full_context_text [tool_transcript_sample]
     = "Tool[search]: 42" ++ newline ++ newline.
Proof.
  intros Hr Hn Hc.
  apply nonempty_true in Hn, Hc.
  rewrite !tool_text by exact Hr.
  unfold or_else, truthy_str. rewrite Hn, Hc.
  split; [| split; reflexivity].
  now rewrite !append_assoc.
Qed.

End MessageProofs.

Lemma remote_failures_elided_witness :
  two_url_server "https://files.test/gone.png" = HttpResponse 404 None ""
  /\ two_url_server "http://files.test/ok.png"
     = HttpResponse 200 (Some "image/png; charset=binary") "ABC"
  /\ gather two_url_server ["https://files.test/gone.png"; "http://files.test/ok.png"]
     = [Ok None; Ok (Some (Attachment "image/png" "QUJD"))]
  /\ attachments (parse_last_message two_url_server [mixed_message])
     = [Attachment "image/png" "QUJD"; Attachment "image/png" "QUJD"].
Proof.
  assert (H1 : two_url_server "https://files.test/gone.png" = HttpResponse 404 None "")
    by reflexivity.
  assert (H2 : two_url_server "http://files.test/ok.png"
               = HttpResponse 200 (Some "image/png; charset=binary") "ABC") by reflexivity.
  pose proof (remote_failures_elided two_url_server [] (Some "user") None None None None
                [ Part (Some "text") (Some "see ") None;
                  Part (Some "image_url") None (Some "https://files.test/gone.png");
                  png_part;
                  Part (Some "image_url") None (Some "ftp://files.test/x");
                  Part (Some "text") (Some "these") None;
                  Part (Some "image_url") None (Some "http://files.test/ok.png") ])
    as (_ & _ & _ & _ & Hpair & Hall).
  split; [exact H1 |]. split; [exact H2 |].
  split; [exact (proj1 (Hpair _ _ _ _ _ _ H1 H2)) | exact Hall].
Defined.

Lemma tool_result_rendering_witness :
  Str.lower (get (Some "Tool") "") = "tool" /\ "search" <> "" /\ "c1" <> ""
  /\ text (parse_last_message (fun _ => HttpError)
             [MkMsg (Some "Tool") (CStr "42") (Some "search") (Some "c1") None None])
     = "Tool result from search (c1):" ++ newline ++ "42".
Proof.
  assert (H1 : Str.lower (get (Some "Tool") "") = "tool") by reflexivity.
  assert (H2 : "search" <> "") by discriminate.
  assert (H3 : "c1" <> "") by discriminate.
  split; [exact H1 |]. split; [exact H2 |]. split; [exact H3 |].
  exact (proj1 (tool_result_rendering (fun _ => HttpError) [] (Some "Tool")
                  "search" "c1" "42" None None H1 H2 H3)).
Defined.

(** C9, as stated, fails: the code puts a blank before the parenthesis. *)
Lemma tool_result_blank_before_call_id :
  text (parse_last_message (fun _ => HttpError) [tool_sample])
  <> "Tool result from " ++ "search" ++ "(" ++ "c1" ++ "):" ++ newline ++ "42".
Proof. discriminate. Qed.

(* ===================================================================== *)
(** * Properties of the ordering of emails *)
(* ===================================================================== *)

Section OrderProofs.
Import Datetime EmailTime.
Local Open Scope Z_scope.
Variable tz : Z.
Variable fromisoformat : string -> result iso_datetime.

Abbreviation item := (gmap string json * option datetime)%type.

Lemma emails_with_time_ok (emails : list (gmap string json)) :
  Forall (fun e => _parse_email_time tz fromisoformat e <> Raise) emails ->
  exists items : list item,
    emails_with_time tz fromisoformat emails = Ok items
    /\ map fst items = emails
    /\ Forall (fun it => _parse_email_time tz fromisoformat (fst it) = Ok (snd it)) items.
Proof.
  induction 1 as [|e emails He _ (items & Hitems & Hfst & Hall)].
  - exists []. repeat split. constructor.
  - destruct (_parse_email_time tz fromisoformat e) as [t|] eqn:Et; [| contradiction].
    exists ((e, t) :: items). cbn [emails_with_time]. rewrite Et, Hitems.
    split; [reflexivity |]. split; [simpl; now rewrite Hfst |].
    constructor; [exact Et | exact Hall].
Qed.

Lemma insert_desc_perm (x : item) (l : list item) : Permutation (x :: l) (insert_desc x l).
Proof.
  induction l as [|y l IH]; [reflexivity |].
  cbn [insert_desc]. destruct (sort_key y >? sort_key x); [| reflexivity].
  rewrite perm_swap. now apply perm_skip.
Qed.

Lemma sort_desc_perm (l : list item) : Permutation l (sort_desc l).
Proof.
  induction l as [|x l IH]; [reflexivity |].
  cbn [sort_desc fold_right]. fold (sort_desc l).
  rewrite <- insert_desc_perm. now apply perm_skip.
Qed.

Lemma insert_desc_sorted (x : item) (l : list item) :
  StronglySorted not_older l -> StronglySorted not_older (insert_desc x l).
Proof.
  induction 1 as [|y l Hl IH Hy]; cbn [insert_desc].
  - repeat constructor.
  - destruct (sort_key y >? sort_key x) eqn:E.
    + constructor; [exact IH |].
      apply (Permutation_Forall (insert_desc_perm x l)).
      constructor; [unfold not_older; lia | exact Hy].
    + constructor; [now constructor |].
      assert (Hxy : not_older x y) by (unfold not_older; lia).
      constructor; [exact Hxy |].
      eapply List.Forall_impl; [| exact Hy].
      intros z Hz. unfold not_older in *. lia.
Qed.

Lemma sort_desc_sorted (l : list item) : StronglySorted not_older (sort_desc l).
Proof.
  induction l as [|x l IH]; [constructor |].
  cbn [sort_desc fold_right]. fold (sort_desc l). now apply insert_desc_sorted.
Qed.

(** Inserting keeps the order among the items that a filter selects, as
    soon as the filter drops what the new item overtakes. *)
Lemma insert_desc_filter (p : item -> bool) (x : item) (l : list item) :
  (forall y, sort_key y > sort_key x -> p x = true -> p y = false) ->
  List.filter p (insert_desc x l) = List.filter p (x :: l).
Proof.
  intros Hp. induction l as [|y l IH]; [reflexivity |].
  cbn [insert_desc]. destruct (sort_key y >? sort_key x) eqn:E; [| reflexivity].
  apply Z.gtb_lt in E.
  cbn [List.filter] in *. rewrite IH.
  destruct (p x) eqn:Ex; [| reflexivity].
  rewrite (Hp y); [reflexivity | lia | reflexivity].
Qed.

Lemma sort_desc_filter (p : item -> bool) (l : list item) :
  (forall x y, sort_key y > sort_key x -> p x = true -> p y = false) ->
  List.filter p (sort_desc l) = List.filter p l.
Proof.
  intros Hp. induction l as [|x l IH]; [reflexivity |].
  cbn [sort_desc fold_right]. fold (sort_desc l).
  rewrite insert_desc_filter by (apply Hp).
  cbn [List.filter]. now rewrite IH.
Qed.

Lemma no_time_key (it : item) : no_time it = true -> sort_key it = Datetime.min.
Proof. unfold no_time, has_time, sort_key. destruct (snd it); [discriminate | reflexivity]. Qed.

Lemma existsb_has_time_false (l : list item) :
  existsb has_time l = false -> Forall (fun it => sort_key it = Datetime.min) l.
Proof.
  induction l as [|x l IH]; [constructor |].
  cbn [existsb]. intros H. apply orb_false_iff in H as [Hx Hl].
  constructor; [| now apply IH].
  apply no_time_key. unfold no_time. now rewrite Hx.
Qed.

Lemma same_key_sorted (l : list item) :
  Forall (fun it => sort_key it = Datetime.min) l -> StronglySorted not_older l.
Proof.
  induction 1 as [|x l Hx Hl IH]; constructor; [exact IH |].
  eapply List.Forall_impl; [| exact Hl]. intros y Hy. cbv beta in Hy. unfold not_older. lia.
Qed.

Lemma sorted_filter (p : item -> bool) (l : list item) :
  StronglySorted not_older l -> StronglySorted not_older (List.filter p l).
Proof.
  induction 1 as [|x l Hl IH Hx]; [constructor |].
  cbn [List.filter]. destruct (p x); [| exact IH].
  constructor; [exact IH |].
  apply List.Forall_forall. intros y Hy. apply List.filter_In in Hy as [Hy _].
  revert y Hy. now apply List.Forall_forall.
Qed.

(** In a newest-first list the items above the sentinel come first. *)
Lemma sorted_split (l : list item) :
  StronglySorted not_older l ->
  Forall (fun it => forall t, snd it = Some t -> Datetime.min < t) l ->
  l = (List.filter has_time l ++ List.filter no_time l)%list.
Proof.
  induction 1 as [|x l Hl IH Hx]; intros Hmin; [reflexivity |].
  inversion Hmin as [|? ? Hxmin Hlmin]; subst.
  cbn [List.filter]. unfold no_time at 1.
  destruct (has_time x) eqn:Ex; cbn [negb].
  - cbn [app]. f_equal. now apply IH.
  - assert (Hall : Forall (fun it => has_time it = false) l).
    { apply List.Forall_forall. intros y Hy.
      destruct (has_time y) eqn:Ey; [| reflexivity]. exfalso.
      assert (Hxy : not_older x y) by (rewrite List.Forall_forall in Hx; now apply Hx).
      assert (Hkx : sort_key x = Datetime.min)
        by (apply no_time_key; unfold no_time; now rewrite Ex).
      unfold has_time in Ey. unfold not_older, sort_key in Hxy, Hkx.
      rewrite List.Forall_forall in Hlmin. specialize (Hlmin y Hy).
      destruct (snd y) as [t|] eqn:Esy; [| discriminate].
      specialize (Hlmin t Esy). destruct (snd x); lia. }
    assert (Hnone : List.filter has_time l = []).
    { clear -Hall. induction Hall as [|y l Hy _ IH]; [reflexivity |].
      cbn [List.filter]. now rewrite Hy. }
    assert (Hsame : List.filter no_time l = l).
    { clear -Hall. induction Hall as [|y l Hy _ IH]; [reflexivity |].
      cbn [List.filter]. unfold no_time at 1. rewrite Hy. cbn [negb]. now rewrite IH. }
    now rewrite Hnone, Hsame.
Qed.

(** C4 (amended). When no timestamp makes the parser raise, the emails
    are scanned in an order that is a rearrangement of the list, newest
    first by sort key (the parsed instant, [datetime.min] for an email
    without one), and stable: emails with equal keys, and in particular
    the emails without a timestamp, keep their original relative order.
    When every parsed instant is later than [datetime.min], all
    timestamped emails stand before all emails without a timestamp. *)
Theorem order_emails_newest_first (emails : list (gmap string json)) :
  Forall (fun e => _parse_email_time tz fromisoformat e <> Raise) emails ->
  exists items ordered : list item,
    emails_with_time tz fromisoformat emails = Ok items
    /\ map fst items = emails
    /\ Forall (fun it => _parse_email_time tz fromisoformat (fst it) = Ok (snd it)) items
    /\ order_emails tz fromisoformat emails = Ok (map fst ordered)
    /\ Permutation items ordered
    /\ StronglySorted not_older ordered
    /\ StronglySorted not_older (List.filter has_time ordered)
    /\ (forall k, List.filter (key_is k) ordered = List.filter (key_is k) items)
    /\ List.filter no_time ordered = List.filter no_time items
    /\ (Forall (fun it => forall t, snd it = Some t -> Datetime.min < t) items ->
        ordered = (List.filter has_time ordered ++ List.filter no_time items)%list).
Proof.
  intros Hparse.
  destruct (emails_with_time_ok emails Hparse) as (items & Hitems & Hfst & Hall).
  assert (Hgoal : forall ordered : list item,
            order_emails tz fromisoformat emails = Ok (map fst ordered) ->
            Permutation items ordered ->
            StronglySorted not_older ordered ->
            (forall k, List.filter (key_is k) ordered = List.filter (key_is k) items) ->
            List.filter no_time ordered = List.filter no_time items ->
            exists items' ordered' : list item,
              emails_with_time tz fromisoformat emails = Ok items'
              /\ map fst items' = emails
              /\ Forall (fun it => _parse_email_time tz fromisoformat (fst it) = Ok (snd it)) items'
              /\ order_emails tz fromisoformat emails = Ok (map fst ordered')
              /\ Permutation items' ordered'
              /\ StronglySorted not_older ordered'
              /\ StronglySorted not_older (List.filter has_time ordered')
              /\ (forall k, List.filter (key_is k) ordered' = List.filter (key_is k) items')
              /\ List.filter no_time ordered' = List.filter no_time items'
              /\ (Forall (fun it => forall t, snd it = Some t -> Datetime.min < t) items' ->
                  ordered' = (List.filter has_time ordered' ++ List.filter no_time items')%list)).
  { intros ordered Horder Hperm Hsorted Hkeys Hnone.
    exists items, ordered.
    split; [exact Hitems |]. split; [exact Hfst |]. split; [exact Hall |].
    split; [exact Horder |]. split; [exact Hperm |]. split; [exact Hsorted |].
    split; [now apply sorted_filter |]. split; [exact Hkeys |]. split; [exact Hnone |].
    intros Hmin. rewrite <- Hnone. apply sorted_split; [exact Hsorted |].
    now apply (Permutation_Forall Hperm). }
  assert (Horder : order_emails tz fromisoformat emails
                   = Ok (if existsb has_time items then map fst (sort_desc items) else emails)).
  { unfold order_emails. rewrite Hitems. cbn [bind].
    destruct (existsb has_time items); reflexivity. }
  destruct (existsb has_time items) eqn:Eany.
  - apply (Hgoal (sort_desc items)).
    + exact Horder.
    + apply sort_desc_perm.
    + apply sort_desc_sorted.
    + intros k. apply sort_desc_filter. intros x y Hgt Hx.
      unfold key_is in *. apply Z.eqb_eq in Hx. apply Z.eqb_neq. lia.
    + apply sort_desc_filter. intros x y Hgt Hx.
      apply no_time_key in Hx.
      destruct (no_time y) eqn:Ey; [| reflexivity].
      apply no_time_key in Ey. lia.
  - apply (Hgoal items).
    + now rewrite Hfst.
    + reflexivity.
    + now apply same_key_sorted, existsb_has_time_false.
    + reflexivity.
    + reflexivity.
Qed.

(** ** The timestamp parser *)

Lemma epoch_timestamp_rule (n : Z) :
  epoch_timestamp_us n
  = if n >? 1000000000000 then n * 1000 else n * 1000000.
Proof.
  unfold epoch_timestamp_us, us_per_second.
  destruct (Z.gtb_spec n 1000000000000) as [H|H].
  - assert (E : (n * 1000000 >? 1000000000000 * 1000000) = true) by (apply Z.gtb_lt; lia).
    rewrite E. replace (n * 1000000) with (n * 1000 * 1000) by lia.
    now rewrite Z.div_mul.
  - assert (E : (n * 1000000 >? 1000000000000 * 1000000) = false)
      by (destruct (Z.gtb_spec (n * 1000000) (1000000000000 * 1000000)); [lia | reflexivity]).
    now rewrite E.
Qed.

(** A number above [1e12] is read as milliseconds, any other as seconds. *)
Lemma parse_number (email_obj : gmap string json) (n : Z) :
  first_not_none time_keys email_obj = Some (JInt n) ->
  _parse_email_time tz fromisoformat email_obj
  = local_datetime_of_us tz (if n >? 1000000000000 then n * 1000 else n * 1000000).
Proof.
  intros H. unfold _parse_email_time. rewrite H.
  unfold from_epoch, local_datetime_of_us. now rewrite epoch_timestamp_rule.
Qed.

Lemma parse_digit_string (email_obj : gmap string json) (s : string) :
  first_not_none time_keys email_obj = Some (JStr s) ->
  Str.isdigit (Str.strip s) = true ->
  _parse_email_time tz fromisoformat email_obj
  = local_datetime_of_us tz (let n := decimal (Str.strip s) in
                             if n >? 1000000000000 then n * 1000 else n * 1000000).
Proof.
  intros H Hd. unfold _parse_email_time. rewrite H, Hd.
  assert (Hne : Str.nonempty (Str.strip s) = true)
    by (destruct (Str.strip s); [discriminate | reflexivity]).
  rewrite Hne. cbn [negb]. unfold from_epoch, local_datetime_of_us.
  now rewrite epoch_timestamp_rule.
Qed.

(** The millisecond and the second spelling of one instant agree. *)
Lemma millis_and_seconds_agree (email_obj email_obj' : gmap string json) :
  first_not_none time_keys email_obj = Some (JInt 1700000000000) ->
  first_not_none time_keys email_obj' = Some (JInt 1700000000) ->
  _parse_email_time tz fromisoformat email_obj
  = _parse_email_time tz fromisoformat email_obj'.
Proof. intros H H'. now rewrite (parse_number _ _ H), (parse_number _ _ H'). Qed.

Lemma parse_absent (email_obj : gmap string json) :
  first_not_none time_keys email_obj = None ->
  _parse_email_time tz fromisoformat email_obj = Ok None.
Proof. intros H. unfold _parse_email_time. now rewrite H. Qed.

Lemma parse_blank (email_obj : gmap string json) (s : string) :
  first_not_none time_keys email_obj = Some (JStr s) ->
  Str.strip s = "" ->
  _parse_email_time tz fromisoformat email_obj = Ok None.
Proof. intros H Hs. unfold _parse_email_time. now rewrite H, Hs. Qed.

(** A string that is not a number never makes the parser raise. *)
Lemma parse_text_total (email_obj : gmap string json) (s : string) :
  first_not_none time_keys email_obj = Some (JStr s) ->
  Str.isdigit (Str.strip s) = false ->
  exists t, _parse_email_time tz fromisoformat email_obj = Ok t.
Proof.
  intros H Hd. unfold _parse_email_time. rewrite H, Hd.
  destruct (negb (Str.nonempty (Str.strip s))); eauto.
Qed.

Lemma parse_unreadable (email_obj : gmap string json) (s : string) :
  first_not_none time_keys email_obj = Some (JStr s) ->
  Str.strip s <> "" -> Str.isdigit (Str.strip s) = false ->
  fromisoformat (replace_Z (truncate_fraction (Str.strip s))) = Raise ->
  _parse_email_time tz fromisoformat email_obj = Ok None.
Proof.
  intros H Hs Hd Hiso. unfold _parse_email_time. rewrite H, Hd.
  apply nonempty_true in Hs. rewrite Hs. cbn [negb].
  unfold from_iso. now rewrite Hiso.
Qed.

(** A number too large for a [datetime] makes the parser raise: as
    seconds from 253402387200 up to [1e12], as milliseconds from
    253402387200000 on. *)
Lemma from_epoch_out_of_range (n : Z) :
  -86400 <= tz <= 86400 ->
  253402387200 <= n <= 1000000000000 \/ 253402387200000 <= n ->
  from_epoch tz n = Raise.
Proof.
  intros Htz Hn. unfold from_epoch.
  assert (Hts : 253402387200 * 1000000 <= epoch_timestamp_us n).
  { rewrite epoch_timestamp_rule. destruct (n >? 1000000000000) eqn:E.
    - apply Z.gtb_lt in E. lia.
    - destruct (Z.gtb_spec n 1000000000000); [discriminate | lia]. }
  unfold fromtimestamp.
  assert (E : (epoch + epoch_timestamp_us n + tz_us tz <=? max) = false).
  { apply Z.leb_gt. unfold epoch, max, tz_us, us_per_day, us_per_second. lia. }
  rewrite E, andb_false_r. reflexivity.
Qed.

End OrderProofs.

Lemma order_emails_newest_first_witness :
  Forall (fun e => EmailTime._parse_email_time 0 IsoFormat.fromisoformat e <> Raise) sample_inbox
  /\ exists items ordered,
       EmailTime.order_emails 0 IsoFormat.fromisoformat sample_inbox = Ok (map fst ordered)
       /\ Permutation items ordered
       /\ StronglySorted not_older ordered
       /\ List.filter no_time ordered = List.filter no_time items.
Proof.
  assert (H : Forall (fun e => EmailTime._parse_email_time 0 IsoFormat.fromisoformat e <> Raise)
                sample_inbox).
  { repeat constructor; vm_compute; discriminate. }
  split; [exact H |].
  destruct (order_emails_newest_first 0 IsoFormat.fromisoformat sample_inbox H)
    as (items & ordered & _ & _ & _ & Ho & Hp & Hs & _ & _ & Hn & _).
  exists items, ordered. exact (conj Ho (conj Hp (conj Hs Hn))).
Defined.

Example sample_inbox_order :
  EmailTime.order_emails 0 IsoFormat.fromisoformat sample_inbox
  = Ok [ email_recent_millis; email_iso; email_recent; email_without_time; email_untimed_2 ].
Proof. vm_compute. reflexivity. Qed.

(** C4, as stated, fails: an email whose timestamp is [datetime.min] ties
    with the emails without a timestamp and stays behind them. *)
Lemma order_emails_sentinel_tie :
  exists sorted,
    EmailTime.order_emails 0 IsoFormat.fromisoformat tied_inbox = Ok sorted
    /\ ~ timestamped_first (EmailTime._parse_email_time 0 IsoFormat.fromisoformat) sorted.
Proof.
  exists [ email_recent; email_without_time; email_zero_time ].
  split; [vm_compute; reflexivity |].
  intros H.
  assert (Hlt : (2 < 1)%nat).
  { apply (H 1%nat 2%nat email_without_time email_zero_time).
    - reflexivity.
    - reflexivity.
    - vm_compute. reflexivity.
    - exists Datetime.min. vm_compute. reflexivity. }
  lia.
Qed.

(** C6: the parser raises on a numeric timestamp outside the range of
    [datetime], here the digit string [99999999999999999999]; the
    exception leaves the comprehension that pairs the emails with their
    instants, so no order is produced. *)
Theorem parse_email_time_raises :
  EmailTime._parse_email_time 0 IsoFormat.fromisoformat email_far_future = Raise
  /\ EmailTime.order_emails 0 IsoFormat.fromisoformat [email_recent; email_far_future] = Raise.
Proof. split; vm_compute; reflexivity. Qed.

Example millis_and_seconds_same_instant :
  EmailTime._parse_email_time 0 IsoFormat.fromisoformat {[ "created_at" := JInt 1700000000000 ]}
  = Ok (Some 63835596800000000%Z)
  /\ EmailTime._parse_email_time 0 IsoFormat.fromisoformat {[ "created_at" := JInt 1700000000 ]}
     = Ok (Some 63835596800000000%Z)
  /\ EmailTime._parse_email_time 0 IsoFormat.fromisoformat {[ "created_at" := JStr "1700000000000" ]}
     = Ok (Some 63835596800000000%Z).
Proof. repeat split; vm_compute; reflexivity. Qed.

Example threshold_is_seconds :
  EmailTime._parse_email_time 0 IsoFormat.fromisoformat {[ "created_at" := JInt 1000000000000 ]}
  = Raise.
Proof. vm_compute. reflexivity. Qed.

(* ===================================================================== *)
(** * Further properties of the timestamp parser and of the ordering *)
(* ===================================================================== *)

Section TimeExtras.
Import Datetime EmailTime.
Local Open Scope Z_scope.
Variable tz : Z.
Variable fromisoformat : string -> result iso_datetime.

Abbreviation item := (gmap string json * option datetime)%type.

Lemma from_epoch_range (raw t : Z) :
  from_epoch tz raw = Ok (Some t) -> Datetime.min + us_per_day <= t <= Datetime.max.
Proof.
  unfold from_epoch, fromtimestamp, naive_astimezone.
  destruct ((Datetime.min + us_per_day <=? epoch + epoch_timestamp_us raw + tz_us tz)
            && (epoch + epoch_timestamp_us raw + tz_us tz <=? Datetime.max)) eqn:E;
    cbn [bind]; [| discriminate].
  destruct (in_range _ && in_range _); cbn [bind]; [| discriminate].
  intros H. injection H as <-.
  apply andb_true_iff in E as [E1 E2]. apply Z.leb_le in E1, E2. lia.
Qed.

Lemma from_iso_range (raw : string) (t : Z) :
  from_iso tz fromisoformat raw = Some t -> Datetime.min <= t <= Datetime.max.
Proof.
  unfold from_iso.
  destruct (fromisoformat (replace_Z raw)) as [parsed|]; cbn [bind]; [| discriminate].
  assert (H : forall utc, match utc_astimezone tz utc with Ok d => Some d | Raise => None end
                          = Some t -> Datetime.min <= t <= Datetime.max).
  { intros utc. unfold utc_astimezone.
    destruct (in_range utc); cbn [andb]; [| discriminate].
    destruct (in_range (utc + tz_us tz)) eqn:E; [| discriminate].
    intros H. injection H as <-. unfold in_range in E.
    apply andb_true_iff in E as [E1 E2]. apply Z.leb_le in E1, E2. lia. }
  destruct (utcoffset parsed); apply H.
Qed.

(** X1. Every instant that [_parse_email_time] returns lies between
    [datetime.min] and [datetime.max]; an instant read from a number (an
    integer, a boolean or a string of digits) is at least one day after
    [datetime.min], so it never equals the sort key of an email without a
    timestamp. *)
Theorem parsed_instant_in_range (email_obj : gmap string json) (t : Z) :
  _parse_email_time tz fromisoformat email_obj = Ok (Some t) ->
  Datetime.min <= t <= Datetime.max
  /\ (numeric_time email_obj -> Datetime.min + us_per_day <= t).
Proof.
  unfold _parse_email_time, numeric_time.
  destruct (first_not_none time_keys email_obj) as [[| b | n | s | l | d]|];
    try discriminate.
  - intros H. apply from_epoch_range in H. unfold us_per_day, us_per_second in *. lia.
  - intros H. apply from_epoch_range in H. unfold us_per_day, us_per_second in *. lia.
  - destruct (negb (Str.nonempty (Str.strip s))); [discriminate |].
    destruct (Str.isdigit (Str.strip s)).
    + intros H. apply from_epoch_range in H. unfold us_per_day, us_per_second in *. lia.
    + intros H. injection H as H. apply from_iso_range in H.
      split; [exact H | discriminate].
Qed.

(** X2. On an email whose raw timestamp is not a string with characters
    outside ASCII, the parser raises only when that timestamp is a number
    or a string of decimal digits: for an absent or null field, for any
    other ASCII string, for a list and for an object it returns an
    instant or [None]. (The numbers of the model are the integers and the
    booleans; a JSON float, which the model leaves out, is a number for
    the code as well and takes the same unguarded branch.) *)
Theorem parser_raises_only_on_numbers (email_obj : gmap string json) :
  ascii_time email_obj ->
  _parse_email_time tz fromisoformat email_obj = Raise -> numeric_time email_obj.
Proof.
  unfold _parse_email_time, numeric_time, ascii_time.
  destruct (first_not_none time_keys email_obj) as [[| b | n | s | l | d]|];
    intros _; try discriminate; try (intros _; exact I).
  destruct (negb (Str.nonempty (Str.strip s))); [discriminate |].
  destruct (Str.isdigit (Str.strip s)); [reflexivity | discriminate].
Qed.

(** X3. An instant after 2001-09-09 written in seconds ([n] above [1e9],
    at most [1e12]) and the same instant written in milliseconds
    ([1000 * n]) parse to the same result. *)
Theorem seconds_and_millis_agree (email_obj email_obj' : gmap string json) (n : Z) :
  1000000000 < n <= 1000000000000 ->
  first_not_none time_keys email_obj = Some (JInt n) ->
  first_not_none time_keys email_obj' = Some (JInt (1000 * n)) ->
  _parse_email_time tz fromisoformat email_obj'
  = _parse_email_time tz fromisoformat email_obj.
Proof.
  intros Hn H H'. rewrite (parse_number _ _ _ _ H), (parse_number _ _ _ _ H').
  f_equal.
  assert (E1 : (n >? 1000000000000) = false)
    by (destruct (Z.gtb_spec n 1000000000000); [lia | reflexivity]).
  assert (E2 : (1000 * n >? 1000000000000) = true) by (apply Z.gtb_lt; lia).
  rewrite E1, E2. lia.
Qed.

(** X4. A string of digits, with or without surrounding blanks, is read
    exactly as the number it spells. *)
Theorem digits_read_as_number (email_obj email_obj' : gmap string json) (s : string) :
  Str.isdigit (Str.strip s) = true ->
  first_not_none time_keys email_obj = Some (JStr s) ->
  first_not_none time_keys email_obj' = Some (JInt (decimal (Str.strip s))) ->
  _parse_email_time tz fromisoformat email_obj
  = _parse_email_time tz fromisoformat email_obj'
  /\ 0 <= decimal (Str.strip s).
Proof.
  intros Hd H H'. split.
  - rewrite (parse_digit_string _ _ _ _ H Hd), (parse_number _ _ _ _ H'). reflexivity.
  - assert (Hacc : forall r acc, Str.all_digits r = true -> 0 <= acc -> 0 <= decimal_from acc r).
    { induction r as [|c r IH]; intros acc Hr Hacc; [exact Hacc |].
      cbn [decimal_from]. cbn [Str.all_digits] in Hr.
      apply andb_true_iff in Hr as [Hc Hr]. apply IH; [exact Hr |].
      unfold Str.is_digit in Hc. apply andb_true_iff in Hc as [Hc1 Hc2].
      apply Z.leb_le in Hc1, Hc2. unfold digit_value. lia. }
    unfold decimal. apply Hacc; [| lia].
    unfold Str.isdigit in Hd. destruct (Str.strip s); [discriminate | exact Hd].
Qed.

Lemma first_not_none_app (before after : list string) (email_obj : gmap string json) :
  Forall (fun k => dict_get email_obj k = JNull) before ->
  first_not_none (before ++ after) email_obj = first_not_none after email_obj.
Proof.
  induction 1 as [|k before Hk _ IH]; [reflexivity |].
  cbn [app first_not_none]. now rewrite Hk.
Qed.

(** X5. The timestamp fields are tried in the fixed order [created_at],
    [createdAt], [received_at], [receivedAt], [sent_at], [sentAt]; the
    first one that is present and not null decides alone: the other
    fields of the email, later timestamps included, have no influence. *)
Theorem first_timestamp_field_decides
    (email_obj : gmap string json) (before after : list string) (k : string) :
  time_keys = (before ++ k :: after)%list ->
  Forall (fun k' => dict_get email_obj k' = JNull) before ->
  dict_get email_obj k <> JNull ->
  first_not_none time_keys email_obj = Some (dict_get email_obj k)
  /\ _parse_email_time tz fromisoformat email_obj
     = _parse_email_time tz fromisoformat {[ k := dict_get email_obj k ]}.
Proof.
  intros Hkeys Hbefore Hk.
  assert (Hfirst : forall e : gmap string json,
            Forall (fun k' => dict_get e k' = JNull) before ->
            dict_get e k <> JNull ->
            first_not_none time_keys e = Some (dict_get e k)).
  { intros e Hb Hv. rewrite Hkeys, first_not_none_app by exact Hb.
    cbn [first_not_none]. destruct (dict_get e k); congruence. }
  assert (Hnodup : ~ In k before).
  { intros Hin. rewrite List.Forall_forall in Hbefore. now apply Hk, Hbefore. }
  assert (Hsingle : dict_get ({[ k := dict_get email_obj k ]} : gmap string json) k
                    = dict_get email_obj k).
  { unfold dict_get at 1. now rewrite lookup_singleton_eq. }
  split; [now apply Hfirst |].
  unfold _parse_email_time.
  rewrite (Hfirst email_obj Hbefore Hk).
  rewrite (Hfirst {[ k := dict_get email_obj k ]}).
  - now rewrite Hsingle.
  - apply List.Forall_forall. intros k' Hin. unfold dict_get.
    rewrite lookup_singleton_ne; [reflexivity |]. intros ->. contradiction.
  - now rewrite Hsingle.
Qed.

Lemma insert_desc_head (x : item) (l : list item) :
  Forall (not_older x) l -> insert_desc x l = x :: l.
Proof.
  intros H. destruct l as [|y l]; [reflexivity |].
  cbn [insert_desc]. inversion H as [|? ? Hxy _]; subst. unfold not_older in Hxy.
  destruct (Z.gtb_spec (sort_key y) (sort_key x)); [lia | reflexivity].
Qed.

Lemma sort_desc_sorted_id (l : list item) :
  StronglySorted not_older l -> sort_desc l = l.
Proof.
  induction 1 as [|x l Hl IH Hx]; [reflexivity |].
  cbn [sort_desc fold_right]. fold (sort_desc l). rewrite IH.
  now apply insert_desc_head.
Qed.

Lemma emails_with_time_of_items (l : list item) :
  Forall (fun it => _parse_email_time tz fromisoformat (fst it) = Ok (snd it)) l ->
  emails_with_time tz fromisoformat (map fst l) = Ok l.
Proof.
  induction 1 as [|[e t] l He _ IH]; [reflexivity |].
  cbn [map fst emails_with_time]. cbn [fst snd] in He. rewrite He, IH. reflexivity.
Qed.

(** X6. Ordering is idempotent: ordering the ordered emails again returns
    them unchanged. Ordering keeps the number of emails, and a list in
    which no email has a timestamp is returned as it is. *)
Theorem order_emails_idempotent (emails ordered : list (gmap string json)) :
  order_emails tz fromisoformat emails = Ok ordered ->
  order_emails tz fromisoformat ordered = Ok ordered
  /\ length ordered = length emails
  /\ (Forall (fun e => _parse_email_time tz fromisoformat e = Ok None) emails ->
      ordered = emails).
Proof.
  intros Horder.
  assert (Hparse : Forall (fun e => _parse_email_time tz fromisoformat e <> Raise) emails).
  { unfold order_emails in Horder.
    destruct (emails_with_time tz fromisoformat emails) as [items|] eqn:E; [| discriminate].
    clear Horder. revert items E.
    induction emails as [|e emails IH]; intros items E; [constructor |].
    cbn [emails_with_time] in E.
    destruct (_parse_email_time tz fromisoformat e) as [t|] eqn:Et; [| discriminate].
    cbn [bind] in E.
    destruct (emails_with_time tz fromisoformat emails) as [items'|]; [| discriminate].
    constructor; [congruence | now apply (IH items')]. }
  destruct (emails_with_time_ok tz fromisoformat emails Hparse)
    as (items & Hitems & Hfst & Hall).
  unfold order_emails in Horder. rewrite Hitems in Horder. cbn [bind] in Horder.
  destruct (existsb has_time items) eqn:Eany.
  - injection Horder as <-.
    assert (Hall' : Forall (fun it => _parse_email_time tz fromisoformat (fst it) = Ok (snd it))
                      (sort_desc items))
      by (apply (Permutation_Forall (sort_desc_perm items)); exact Hall).
    split; [| split].
    + unfold order_emails. rewrite (emails_with_time_of_items _ Hall'). cbn [bind].
      rewrite (sort_desc_sorted_id (sort_desc items)) by apply sort_desc_sorted.
      destruct (existsb has_time (sort_desc items)); reflexivity.
    + rewrite List.length_map, <- Hfst, List.length_map.
      symmetry. apply Permutation_length, sort_desc_perm.
    + intros Hnone. exfalso.
      apply List.existsb_exists in Eany as (it & Hin & Hit).
      rewrite List.Forall_forall in Hall, Hnone. specialize (Hall it Hin).
      assert (Hine : In (fst it) emails) by (rewrite <- Hfst; now apply List.in_map).
      rewrite (Hnone _ Hine) in Hall. injection Hall as Hs.
      unfold has_time in Hit. rewrite <- Hs in Hit. discriminate.
  - injection Horder as <-. split; [| split; reflexivity].
    unfold order_emails. rewrite Hitems. cbn [bind]. now rewrite Eany.
Qed.

End TimeExtras.

Lemma parsed_instant_in_range_witness :
  EmailTime._parse_email_time 0 IsoFormat.fromisoformat email_recent
  = Ok (Some 63835596800000000%Z)
  /\ (Datetime.min <= 63835596800000000 <= Datetime.max)%Z
  /\ (Datetime.min + Datetime.us_per_day <= 63835596800000000)%Z.
Proof.
  assert (H : EmailTime._parse_email_time 0 IsoFormat.fromisoformat email_recent
              = Ok (Some 63835596800000000%Z)) by (vm_compute; reflexivity).
  assert (Hn : numeric_time email_recent) by (vm_compute; exact I).
  destruct (parsed_instant_in_range 0 IsoFormat.fromisoformat email_recent _ H) as [Hr Hd].
  exact (conj H (conj Hr (Hd Hn))).
Defined.

Lemma parser_raises_only_on_numbers_witness :
  ascii_time email_far_future
  /\ EmailTime._parse_email_time 0 IsoFormat.fromisoformat email_far_future = Raise
  /\ numeric_time email_far_future.
Proof.
  assert (Ha : ascii_time email_far_future) by (vm_compute; reflexivity).
  assert (H : EmailTime._parse_email_time 0 IsoFormat.fromisoformat email_far_future = Raise)
    by (vm_compute; reflexivity).
  exact (conj Ha (conj H
           (parser_raises_only_on_numbers 0 IsoFormat.fromisoformat email_far_future Ha H))).
Defined.

Lemma seconds_and_millis_agree_witness :
  (1000000000 < 1700000000 <= 1000000000000)%Z
  /\ EmailTime._parse_email_time 0 IsoFormat.fromisoformat (email_seconds (1000 * 1700000000))
     = EmailTime._parse_email_time 0 IsoFormat.fromisoformat (email_seconds 1700000000).
Proof.
  assert (Hn : (1000000000 < 1700000000 <= 1000000000000)%Z) by lia.
  split; [exact Hn |].
  apply (seconds_and_millis_agree 0 IsoFormat.fromisoformat _ _ 1700000000 Hn);
    vm_compute; reflexivity.
Defined.

Lemma digits_read_as_number_witness :
  Str.isdigit (Str.strip " 1700000000 ") = true
  /\ EmailTime._parse_email_time 0 IsoFormat.fromisoformat (email_digits " 1700000000 ")
     = EmailTime._parse_email_time 0 IsoFormat.fromisoformat (email_seconds 1700000000).
Proof.
  assert (Hd : Str.isdigit (Str.strip " 1700000000 ") = true) by (vm_compute; reflexivity).
  split; [exact Hd |].
  refine (proj1 (digits_read_as_number 0 IsoFormat.fromisoformat
                   (email_digits " 1700000000 ") (email_seconds 1700000000)
                   " 1700000000 " Hd _ _)); vm_compute; reflexivity.
Defined.

Lemma first_timestamp_field_decides_witness :
  EmailTime.first_not_none EmailTime.time_keys email_two_times = Some (JInt 1700000000)
  /\ EmailTime._parse_email_time 0 IsoFormat.fromisoformat email_two_times
     = EmailTime._parse_email_time 0 IsoFormat.fromisoformat
         {[ "createdAt" := JInt 1700000000 ]}.
Proof.
  assert (H1 : EmailTime.time_keys
               = (["created_at"] ++ "createdAt"
                  :: ["received_at"; "receivedAt"; "sent_at"; "sentAt"])%list) by reflexivity.
  assert (H2 : Forall (fun k' => dict_get email_two_times k' = JNull) ["created_at"])
    by (constructor; [vm_compute; reflexivity | constructor]).
  assert (H3 : dict_get email_two_times "createdAt" <> JNull) by (vm_compute; discriminate).
  assert (E : dict_get email_two_times "createdAt" = JInt 1700000000)
    by (vm_compute; reflexivity).
  destruct (first_timestamp_field_decides 0 IsoFormat.fromisoformat email_two_times
              _ _ _ H1 H2 H3) as [Ha Hb].
  rewrite E in Ha, Hb. exact (conj Ha Hb).
Defined.

Lemma order_emails_idempotent_witness :
  EmailTime.order_emails 0 IsoFormat.fromisoformat sample_inbox
  = Ok [ email_recent_millis; email_iso; email_recent; email_without_time; email_untimed_2 ]
  /\ EmailTime.order_emails 0 IsoFormat.fromisoformat
       [ email_recent_millis; email_iso; email_recent; email_without_time; email_untimed_2 ]
     = Ok [ email_recent_millis; email_iso; email_recent; email_without_time; email_untimed_2 ].
Proof.
  assert (H : EmailTime.order_emails 0 IsoFormat.fromisoformat sample_inbox
              = Ok [ email_recent_millis; email_iso; email_recent; email_without_time;
                     email_untimed_2 ]) by (vm_compute; reflexivity).
  exact (conj H (proj1 (order_emails_idempotent 0 IsoFormat.fromisoformat _ _ H))).
Defined.

(* ===================================================================== *)
(** * Further properties of [poll_for_code] *)
(* ===================================================================== *)

Section PollExtras.
Import Freemail.
Local Open Scope Z_scope.
Variable fetch : nat -> option string.

Lemma slept_poll_trace (interval : Z) (k : nat) :
  slept (poll_trace interval (S k)) = Z.of_nat k * interval.
Proof.
  induction k as [|k IH]; [reflexivity |].
  change (poll_trace interval (S (S k)))
    with (Attempt :: Sleep interval :: poll_trace interval (S k)).
  cbn [slept fold_right]. fold (slept (poll_trace interval (S k))). rewrite IH. lia.
Qed.

(** Among the first [n] calls either none returns a code or there is a
    first one that does. *)
Lemma first_code (n : nat) :
  (forall k, (k < n)%nat -> Message.truthy_str (fetch k) = None)
  \/ exists k c, (k < n)%nat /\ Message.truthy_str (fetch k) = Some c
                 /\ forall j, (j < k)%nat -> Message.truthy_str (fetch j) = None.
Proof.
  induction n as [|n [IH | (k & c & Hk & Hc & Hfirst)]].
  - left. intros k Hk. lia.
  - destruct (Message.truthy_str (fetch n)) as [c|] eqn:E.
    + right. exists n, c. split; [lia |]. split; [exact E |]. intros j Hj. now apply IH.
    + left. intros k Hk. destruct (Nat.eq_dec k n) as [->|]; [exact E | apply IH; lia].
  - right. exists k, c. split; [lia |]. now split.
Qed.

Lemma truthy_str_nonempty (o : option string) (c : string) :
  Message.truthy_str o = Some c -> c <> "" /\ o = Some c.
Proof.
  unfold Message.truthy_str. destruct o as [s|]; [| discriminate].
  destruct s; [discriminate |]. intros H. injection H as <-. split; [discriminate | reflexivity].
Qed.

(** X7. Whatever the calls of [fetch_verification_code] return, for a
    positive interval [poll_for_code] does not raise; it makes [k]
    attempts with a sleep between consecutive ones, for some [k] between
    1 and [max(1, timeout // interval)]; it sleeps [(k - 1) * interval]
    seconds in all, never more than [max(0, timeout - interval)]; it
    returns [None] only after the full number of attempts, and a code that
    it returns is a non-empty string returned by the last call made. *)
Theorem poll_for_code_bounded (timeout interval : Z) :
  0 < interval ->
  let n := max_attempts timeout interval in
  exists (k : nat) (code : option string),
    poll_for_code fetch timeout interval = (Ok code, poll_trace interval k)
    /\ (1 <= k <= n)%nat
    /\ slept (poll_trace interval k) = (Z.of_nat k - 1) * interval
    /\ slept (poll_trace interval k) <= Z.max 0 (timeout - interval)
    /\ (code = None -> k = n)
    /\ (forall c, code = Some c -> c <> "" /\ fetch (k - 1)%nat = Some c).
Proof.
  intros Hpos n.
  assert (Hn : (1 <= n)%nat) by (unfold n, max_attempts; lia).
  assert (Hunfold : poll_for_code fetch timeout interval
                    = poll_loop fetch n 1 (Z.max 1 (timeout / interval)) interval 0 []).
  { unfold poll_for_code. destruct (Z.eqb_spec interval 0); [lia | reflexivity]. }
  assert (Hrem : Z.of_nat n = Z.max 1 (timeout / interval) - 1 + 1)
    by (unfold n, max_attempts; lia).
  assert (Hslept : forall k, (1 <= k <= n)%nat ->
            slept (poll_trace interval k) = (Z.of_nat k - 1) * interval
            /\ slept (poll_trace interval k) <= Z.max 0 (timeout - interval)).
  { intros [|k] Hk; [lia |]. rewrite slept_poll_trace. split; [lia |].
    assert (Hkn : Z.of_nat k <= Z.of_nat n - 1) by lia.
    destruct (Z.max_spec 1 (timeout / interval)) as [[Hlt Hmax] | [Hge Hmax]].
    - pose proof (Z.mul_div_le timeout interval Hpos) as Hdiv.
      assert (Z.of_nat k * interval <= (timeout / interval - 1) * interval) by nia.
      nia.
    - assert (Z.of_nat k = 0) by lia. nia. }
  destruct (first_code n) as [Hnone | (k & c & Hk & Hc & Hfirst)].
  - exists n, None.
    split.
    { rewrite Hunfold.
      rewrite (poll_loop_exhausts fetch interval _ n); [reflexivity | lia | exact Hrem |].
      intros j Hj. apply Hnone. lia. }
    split; [lia |]. destruct (Hslept n ltac:(lia)) as [H1 H2].
    split; [exact H1 |]. split; [exact H2 |]. split; [reflexivity | discriminate].
  - exists (S k), (Some c).
    split.
    { rewrite Hunfold.
      rewrite (poll_loop_finds fetch interval _ c k); [reflexivity | lia | exact Hrem | exact Hk | |].
      - intros j Hj. apply Hfirst. lia.
      - exact Hc. }
    split; [lia |]. destruct (Hslept (S k) ltac:(lia)) as [H1 H2].
    split; [exact H1 |]. split; [exact H2 |]. split; [discriminate |].
    intros c' Hc'. injection Hc' as <-.
    replace (S k - 1)%nat with k by lia. now apply truthy_str_nonempty.
Qed.

(** X8. [poll_for_code] raises for the interval 0 before any attempt
    (the division fails). For a negative interval it raises after the
    first attempt when that attempt finds no code and a second attempt is
    due ([timeout // interval >= 2]), because [time.sleep] rejects the
    negative length; when only one attempt is due it makes that attempt
    and returns its outcome without sleeping. *)
Theorem poll_for_code_bad_interval (timeout interval : Z) :
  (interval = 0 -> poll_for_code fetch timeout interval = (Raise, []))
  /\ (interval < 0 -> 2 <= timeout / interval ->
      Message.truthy_str (fetch 0%nat) = None ->
      poll_for_code fetch timeout interval = (Raise, [Attempt]))
  /\ (interval < 0 -> timeout / interval < 2 ->
      poll_for_code fetch timeout interval
      = (Ok (Message.truthy_str (fetch 0%nat)), [Attempt])).
Proof.
  split; [| split].
  - intros ->. reflexivity.
  - intros Hneg Hdiv Hnone. unfold poll_for_code.
    destruct (Z.eqb_spec interval 0) as [|Hne]; [lia |].
    remember (Z.to_nat (Z.max 1 (timeout / interval))) as n eqn:En.
    destruct n as [|n]; [lia |].
    cbn [poll_loop]. rewrite Hnone.
    assert (E : (1 <? Z.max 1 (timeout / interval)) = true) by (apply Z.ltb_lt; lia).
    assert (E' : (interval <? 0) = true) by (apply Z.ltb_lt; lia).
    now rewrite E, E'.
  - intros Hneg Hdiv. unfold poll_for_code.
    destruct (Z.eqb_spec interval 0) as [|Hne]; [lia |].
    assert (Hmax : Z.max 1 (timeout / interval) = 1) by lia.
    rewrite Hmax. change (Z.to_nat 1) with 1%nat.
    cbn [poll_loop].
    destruct (Message.truthy_str (fetch 0%nat)); reflexivity.
Qed.

End PollExtras.

Lemma poll_for_code_bounded_witness :
  (0 < 4)%Z
  /\ exists (k : nat) (code : option string),
       Freemail.poll_for_code empty_then_code 9 4 = (Ok code, poll_trace 4 k)
       /\ (1 <= k <= max_attempts 9 4)%nat
       /\ (slept (poll_trace 4 k) <= Z.max 0 (9 - 4))%Z.
Proof.
  assert (Hpos : (0 < 4)%Z) by reflexivity.
  split; [exact Hpos |].
  destruct (poll_for_code_bounded empty_then_code 9 4 Hpos)
    as (k & code & Hrun & Hk & _ & Hs & _).
  exists k, code. exact (conj Hrun (conj Hk Hs)).
Defined.

Lemma poll_for_code_bad_interval_witness :
  (-3 < 0)%Z /\ (2 <= -7 / -3)%Z
  /\ Message.truthy_str (empty_then_code 0) = None
  /\ Freemail.poll_for_code empty_then_code (-7) (-3) = (Raise, [Freemail.Attempt])
  /\ Freemail.poll_for_code empty_then_code 10 0 = (Raise, []).
Proof.
  assert (H1 : (-3 < 0)%Z) by reflexivity.
  assert (H2 : (2 <= -7 / -3)%Z) by (apply Z.leb_le; reflexivity).
  assert (H3 : Message.truthy_str (empty_then_code 0) = None) by reflexivity.
  split; [exact H1 |]. split; [exact H2 |]. split; [exact H3 |].
  split.
  - exact (proj1 (proj2 (poll_for_code_bad_interval empty_then_code (-7) (-3))) H1 H2 H3).
  - exact (proj1 (poll_for_code_bad_interval empty_then_code 10 0) eq_refl).
Defined.

(* ===================================================================== *)
(** * Further properties of [core/message.py] *)
(* ===================================================================== *)

Lemma all_chars_app (p : ascii -> bool) (a b : string) :
  all_chars p (a ++ b) = all_chars p a && all_chars p b.
Proof.
  induction a as [|c a IH]; [reflexivity |].
  rewrite append_cons. cbn [all_chars]. now rewrite IH, andb_assoc.
Qed.

Lemma concat_all_app (xs ys : list string) :
  Str.concat_all (xs ++ ys) = Str.concat_all xs ++ Str.concat_all ys.
Proof.
  unfold Str.concat_all. induction xs as [|x xs IH]; [reflexivity |].
  cbn [app fold_right]. now rewrite IH, append_assoc.
Qed.

(** ** The shape of a conversation key *)

Lemma hex_digit_is_hex (n : Z) : (0 <= n < 16)%Z -> is_hex (MD5.hex_digit n) = true.
Proof.
  intros H.
  assert (Hn : exists k : nat, (k < 16)%nat /\ n = Z.of_nat k)
    by (exists (Z.to_nat n); lia).
  destruct Hn as (k & Hk & ->).
  do 16 (destruct k as [|k]; [reflexivity |]). lia.
Qed.

Lemma hex_bytes_shape (bs : list Z) :
  Forall (fun b => (0 <= b < 256)%Z) bs ->
  String.length (Str.concat_all (map MD5.hex_byte bs)) = (2 * length bs)%nat
  /\ all_chars is_hex (Str.concat_all (map MD5.hex_byte bs)) = true.
Proof.
  induction 1 as [|b bs Hb _ [IHl IHh]]; [split; reflexivity |].
  cbn [map]. unfold Str.concat_all in *. cbn [fold_right].
  unfold MD5.hex_byte at 1 3. rewrite !append_cons, append_nil_l.
  cbn [String.length all_chars]. rewrite IHl, IHh.
  rewrite !hex_digit_is_hex.
  - split; [cbn [length]; lia | reflexivity].
  - apply Z.mod_pos_bound. lia.
  - split; [apply Z.div_pos; lia | apply Z.div_lt_upper_bound; lia].
Qed.

Lemma le_bytes_range (n : nat) (x : Z) : Forall (fun b => (0 <= b < 256)%Z) (MD5.le_bytes n x).
Proof.
  unfold MD5.le_bytes. apply List.Forall_forall. intros b Hb.
  apply List.in_map_iff in Hb as (i & <- & _). apply Z.mod_pos_bound. lia.
Qed.

Lemma hexdigest_shape (msg : list Z) :
  String.length (MD5.hexdigest msg) = 32%nat /\ all_chars is_hex (MD5.hexdigest msg) = true.
Proof.
  unfold MD5.hexdigest, MD5.hex_of_state.
  set (st := MD5.digest_state msg).
  destruct (hex_bytes_shape
              (MD5.le_bytes 4 (MD5.sa st) ++ MD5.le_bytes 4 (MD5.sb st)
               ++ MD5.le_bytes 4 (MD5.sc st) ++ MD5.le_bytes 4 (MD5.sd st))%list)
    as [Hl Hh].
  { repeat (apply List.Forall_app; split); apply le_bytes_range. }
  split; [| exact Hh].
  rewrite Hl. unfold MD5.le_bytes. rewrite !List.length_app, !List.length_map, !List.length_seq.
  reflexivity.
Qed.

(** X9. For a non-empty message list the key is a string of 32
    lower-case hexadecimal digits, whatever the client identifier; it is
    therefore different from the key of the empty conversation
    (["empty"], or the identifier followed by [":empty"]) of every
    client. *)
Theorem conversation_key_shape (messages : list msg_dict) (cid : string) :
  messages <> [] ->
  String.length (get_conversation_key messages cid) = 32%nat
  /\ all_chars is_hex (get_conversation_key messages cid) = true
  /\ forall cid', get_conversation_key messages cid <> get_conversation_key [] cid'.
Proof.
  intros Hne. destruct messages as [|m rest]; [contradiction |].
  rewrite key_of_nonempty.
  destruct (hexdigest_shape (Str.encode (conversation_prefix (m :: rest) cid))) as [Hl Hh].
  unfold MD5.hexdigest in Hl, Hh.
  split; [exact Hl |]. split; [exact Hh |].
  intros cid' Heq. cbn [get_conversation_key] in Heq.
  destruct (Str.nonempty cid').
  - rewrite Heq, all_chars_app in Hh.
    apply andb_true_iff in Hh as [_ Hh]. discriminate.
  - rewrite Heq in Hl. discriminate.
Qed.

(** ** Normalisation of the text *)

Lemma is_space_lower (c : ascii) : Str.is_space (Str.lower_char c) = Str.is_space c.
Proof. destruct c as [[] [] [] [] [] [] [] []]; reflexivity. Qed.

Lemma lower_lstrip (s : string) : Str.lower (Str.lstrip s) = Str.lstrip (Str.lower s).
Proof.
  induction s as [|c s IH]; [reflexivity |].
  cbn [Str.lstrip Str.lower]. rewrite is_space_lower.
  destruct (Str.is_space c); [exact IH | reflexivity].
Qed.

Lemma lower_rstrip (s : string) : Str.lower (Str.rstrip s) = Str.rstrip (Str.lower s).
Proof.
  induction s as [|c s IH]; [reflexivity |].
  cbn [Str.rstrip Str.lower]. rewrite <- IH, is_space_lower.
  destruct (Str.rstrip s) as [|d r]; cbn [Str.lower].
  - destruct (Str.is_space c); reflexivity.
  - reflexivity.
Qed.

Lemma lower_strip (s : string) : Str.lower (Str.strip s) = Str.strip (Str.lower s).
Proof. unfold Str.strip. now rewrite lower_rstrip, lower_lstrip. Qed.

Lemma rstrip_spaces (b : string) : all_chars Str.is_space b = true -> Str.rstrip b = "".
Proof.
  induction b as [|c b IH]; [reflexivity |].
  cbn [all_chars Str.rstrip]. intros H. apply andb_true_iff in H as [Hc Hb].
  now rewrite (IH Hb), Hc.
Qed.

Lemma lstrip_spaces (a : string) : all_chars Str.is_space a = true -> Str.lstrip a = "".
Proof.
  induction a as [|c a IH]; [reflexivity |].
  cbn [all_chars Str.lstrip]. intros H. apply andb_true_iff in H as [Hc Ha].
  rewrite Hc. now apply IH.
Qed.

Lemma rstrip_app_spaces (s b : string) :
  all_chars Str.is_space b = true -> Str.rstrip (s ++ b) = Str.rstrip s.
Proof.
  intros Hb. induction s as [|c s IH]; [now apply rstrip_spaces |].
  rewrite append_cons. cbn [Str.rstrip]. now rewrite IH.
Qed.

Lemma lstrip_spaces_app (a s : string) :
  all_chars Str.is_space a = true -> Str.lstrip (a ++ s) = Str.lstrip s.
Proof.
  induction a as [|c a IH]; [reflexivity |].
  cbn [all_chars]. intros H. apply andb_true_iff in H as [Hc Ha].
  rewrite append_cons. cbn [Str.lstrip]. rewrite Hc. now apply IH.
Qed.

Lemma strip_app_spaces (s b : string) :
  all_chars Str.is_space b = true -> Str.strip (s ++ b) = Str.strip s.
Proof.
  intros Hb. unfold Str.strip. induction s as [|c s IH].
  - rewrite append_nil_l, (lstrip_spaces b Hb). reflexivity.
  - rewrite append_cons. cbn [Str.lstrip].
    destruct (Str.is_space c); [exact IH |].
    rewrite <- append_cons. now apply rstrip_app_spaces.
Qed.

Lemma strip_padded (a s b : string) :
  all_chars Str.is_space a = true -> all_chars Str.is_space b = true ->
  Str.strip (a ++ s ++ b) = Str.strip s.
Proof.
  intros Ha Hb. unfold Str.strip at 1. rewrite (lstrip_spaces_app a _ Ha).
  now apply strip_app_spaces.
Qed.

Lemma extract_text_filter (ps : list part) :
  extract_text_from_content (CParts ps)
  = Str.concat_all (map (fun x => get (p_text x) "") (List.filter is_text_part ps)).
Proof. reflexivity. Qed.

Lemma similar_same_fingerprint (m m' : msg_dict) :
  similar_message m m' -> same_fingerprint m m'.
Proof.
  intros (Hrole & c & c' & Hc & Hc' & Hsim).
  split; [unfold fingerprint_role; now rewrite Hrole |].
  unfold fingerprint_text. rewrite Hc, Hc'. cbn [get].
  destruct Hsim as [s s' a b Ha Hb Hlow | ps ps' Hps | ps].
  - cbn [str_of_content]. rewrite (strip_padded a s' b Ha Hb).
    now rewrite !lower_strip, Hlow.
  - now rewrite !extract_text_filter, Hps.
  - reflexivity.
Qed.

(** X10. The key does not change when, in the first three messages, a
    string content gets other surrounding blanks or another letter case,
    when the parts of a multimodal content other than its text parts
    change (images added, removed or replaced), or when a multimodal
    content is replaced by the string of its text parts. *)
Theorem conversation_key_normalised (messages messages' : list msg_dict) (cid : string) :
  messages <> [] -> messages' <> [] ->
  Forall2 similar_message (firstn 3 messages) (firstn 3 messages') ->
  get_conversation_key messages cid = get_conversation_key messages' cid.
Proof.
  intros Hne Hne' Hsim.
  destruct messages as [|m rest]; [contradiction |].
  destruct messages' as [|m' rest']; [contradiction |].
  rewrite !key_of_nonempty. unfold conversation_prefix.
  rewrite (fingerprints_agree (firstn 3 (m :: rest)) (firstn 3 (m' :: rest'))); [reflexivity |].
  eapply List.Forall2_impl; [| exact Hsim].
  intros a b. apply similar_same_fingerprint.
Qed.

Lemma conversation_key_shape_witness :
  sample_messages <> []
  /\ String.length (get_conversation_key sample_messages "10.0.0.1") = 32%nat
  /\ get_conversation_key sample_messages "10.0.0.1" <> get_conversation_key [] "10.0.0.1".
Proof.
  assert (H : sample_messages <> []) by discriminate.
  destruct (conversation_key_shape sample_messages "10.0.0.1" H) as (Hl & _ & Hd).
  exact (conj H (conj Hl (Hd "10.0.0.1"))).
Defined.

Lemma conversation_key_normalised_witness :
  shouted_conversation <> [] /\ whispered_conversation <> []
  /\ Forall2 similar_message (firstn 3 shouted_conversation) (firstn 3 whispered_conversation)
  /\ get_conversation_key shouted_conversation "10.0.0.1"
     = get_conversation_key whispered_conversation "10.0.0.1".
Proof.
  assert (H1 : shouted_conversation <> []) by discriminate.
  assert (H2 : whispered_conversation <> []) by discriminate.
  assert (H3 : Forall2 similar_message (firstn 3 shouted_conversation)
                 (firstn 3 whispered_conversation)).
  { constructor; [| constructor; [| constructor]].
    - split; [reflexivity |]. eexists _, _. split; [reflexivity |]. split; [reflexivity |].
      apply (similar_flat [ Part (Some "text") (Some "Hello ") None;
                            Part (Some "image_url") None (Some "https://files.test/a.png");
                            Part (Some "text") (Some "World") None ]).
    - split; [reflexivity |]. eexists _, _. split; [reflexivity |]. split; [reflexivity |].
      apply (similar_str "Hi there" "hI THERE" (String (ascii_of_nat 9) " ")
               (String (ascii_of_nat 10) "")); reflexivity. }
  exact (conj H1 (conj H2 (conj H3
           (conversation_key_normalised _ _ "10.0.0.1" H1 H2 H3)))).
Defined.

(** ** Transcript and last message *)

Lemma build_from (messages : list Msg) (prompt : string) :
  fold_left (fun prompt msg => prompt ++ render_message msg) messages prompt
  = prompt ++ build_full_context_text messages.
Proof.
  unfold build_full_context_text. revert prompt.
  induction messages as [|m messages IH]; intros prompt.
  - cbn [fold_left]. now rewrite append_nil_r.
  - cbn [fold_left]. rewrite IH, (IH ("" ++ render_message m)).
    now rewrite append_nil_l, append_assoc.
Qed.

Lemma render_message_length (m : Msg) : (4 <= String.length (render_message m))%nat.
Proof.
  unfold render_message. rewrite !length_append. cbn [String.length newline]. lia.
Qed.

(** X11. The transcript is built message by message: the transcript of
    two lists put together is the two transcripts put together, so a new
    message only appends its own block; and the transcript is empty
    exactly for the empty list (each message contributes at least the
    four characters of [": "] and the two line feeds). *)
Theorem transcript_compositional (messages messages' : list Msg) :
  build_full_context_text (messages ++ messages')
    = build_full_context_text messages ++ build_full_context_text messages'
  /\ (build_full_context_text messages = "" <-> messages = [])
  /\ (4 * length messages <= String.length (build_full_context_text messages))%nat.
Proof.
  assert (Happ : forall a b, build_full_context_text (a ++ b)
                             = build_full_context_text a ++ build_full_context_text b).
  { intros a b. unfold build_full_context_text at 1.
    rewrite List.fold_left_app. fold (build_full_context_text a). apply build_from. }
  assert (Hlen : forall l, (4 * length l <= String.length (build_full_context_text l))%nat).
  { induction l as [|m l IH]; [cbn; lia |].
    change (m :: l) with ([m] ++ l)%list. rewrite Happ, length_append.
    change (build_full_context_text [m]) with ("" ++ render_message m).
    rewrite append_nil_l. pose proof (render_message_length m). cbn [length app]. lia. }
  split; [apply Happ |]. split; [| apply Hlen].
  split.
  - intros H. destruct messages as [|m l]; [reflexivity |].
    specialize (Hlen (m :: l)). rewrite H in Hlen. cbn in Hlen. lia.
  - intros ->. reflexivity.
Qed.

Section LastMessageExtras.
Variable http_get : string -> http_result.

Lemma downloaded_length (urls : list string) :
  (length (downloaded http_get urls) <= length urls)%nat.
Proof.
  unfold downloaded. induction urls as [|u urls IH]; [cbn; lia |].
  cbn [flat_map]. rewrite List.length_app.
  destruct (download_url http_get u); cbn [length]; lia.
Qed.

Lemma image_parts_account (ps : list part) :
  (length (inline_attachments ps) + length (remote_urls ps)
   <= length (List.filter is_image_part ps))%nat
  /\ Forall (fun u => is_http_url u = true) (remote_urls ps).
Proof.
  unfold inline_attachments, remote_urls.
  induction ps as [|p ps [IHl IHh]]; [split; [cbn; lia | constructor] |].
  cbn [flat_map List.filter]. rewrite !List.length_app.
  destruct (is_image_part p).
  - destruct (match_data_uri (part_url p)) as [[m d]|].
    + split; [cbn [length app]; lia | exact IHh].
    + destruct (is_http_url (part_url p)) eqn:E.
      * split; [cbn [length app]; lia |]. cbn [app]. constructor; assumption.
      * split; [cbn [length app]; lia | exact IHh].
  - split; [cbn [length app]; lia | exact IHh].
Qed.

(** X12. Only the last message counts: [parse_last_message] returns for a
    list what it returns for its last message alone, and the empty text
    with no attachment and no request for the empty list. *)
Theorem only_last_message_counts (history : list Msg) (m : Msg) :
  parse_last_message http_get (history ++ [m]) = parse_last_message http_get [m]
  /\ parse_last_message http_get [] = Parsed "" [] [].
Proof.
  split; [| reflexivity].
  unfold parse_last_message. rewrite last_snoc_msg. reflexivity.
Qed.

(** X13. [parse_last_message] requests only URLs that start with
    [http://] or [https://]; every [image_url] part of the last message
    accounts for at most one attachment or request, so there are never
    more attachments, nor more requests, than such parts; and a last
    message whose content is not a list of parts gives neither. *)
Theorem attachments_bounded_by_parts (messages : list Msg) :
  let out := parse_last_message http_get messages in
  let parts := match last messages with
               | Some m => image_part_count (content m)
               | None => O
               end in
  Forall (fun u => is_http_url u = true) (requested out)
  /\ (length (requested out) <= parts)%nat
  /\ (length (attachments out) <= parts)%nat.
Proof.
  intros out parts. subst out parts.
  destruct (last messages) as [m|] eqn:Elast.
  2: { unfold parse_last_message. rewrite Elast. cbn. repeat split; [constructor | lia | lia]. }
  destruct (content m) as [s | ps | | r | r] eqn:Ec;
    try (unfold parse_last_message; rewrite Elast, Ec; cbn;
         repeat split; [constructor | lia | lia]).
  assert (Hparse : parse_last_message http_get messages
                   = Parsed (augment_text m (extract_text_from_content (CParts ps)))
                            (inline_attachments ps ++ downloaded http_get (remote_urls ps))%list
                            (remote_urls ps)).
  { unfold parse_last_message. rewrite Elast, Ec, scan_content_parts.
    destruct (remote_urls ps) as [|u us] eqn:Eu.
    - cbn. now rewrite List.app_nil_r.
    - now rewrite safe_results_gather. }
  rewrite Hparse. cbn [requested attachments image_part_count].
  destruct (image_parts_account ps) as [Hl Hh].
  pose proof (downloaded_length (remote_urls ps)) as Hd.
  split; [exact Hh |]. rewrite List.length_app. split; lia.
Qed.

Lemma encode_bytes_length (fuel : nat) (bs : list Z) :
  (length bs <= fuel)%nat ->
  String.length (Base64.encode_bytes bs) = (4 * ((length bs + 2) / 3))%nat.
Proof.
  revert bs. induction fuel as [fuel IH] using (well_founded_induction Wf_nat.lt_wf).
  intros bs Hlen.
  destruct bs as [|a [|b [|c r]]]; [reflexivity | reflexivity | reflexivity |].
  cbn [Base64.encode_bytes String.length length].
  rewrite (IH (length r)); [| cbn [length] in Hlen; lia | lia].
  replace (S (S (S (length r))) + 2)%nat with ((length r + 2) + 1 * 3)%nat by lia.
  rewrite Nat.div_add by discriminate. lia.
Qed.

(** X14. The attachment of a successful download has a MIME type
    without parameters (no semicolon in it), [application/octet-stream]
    when the response has no [content-type] header, and its data is the
    base64 text of the body, [4 * ceil(n / 3)] characters for a body of
    [n] bytes. *)
Theorem downloaded_attachment_shape (url : string) (a : attachment) :
  download_url http_get url = Some a ->
  exists status ctype body,
    http_get url = HttpResponse status ctype body
    /\ all_chars (not_char ";") (mime a) = true
    /\ (ctype = None -> mime a = "application/octet-stream")
    /\ data a = Base64.b64encode body
    /\ String.length (data a) = (4 * ((String.length body + 2) / 3))%nat.
Proof.
  rewrite download_url_cases.
  destruct (http_get url) as [|status ctype body]; [discriminate |].
  destruct (is_success status); [| discriminate].
  intros H. injection H as <-. exists status, ctype, body.
  split; [reflexivity |]. cbn [mime data].
  split; [apply span_all |].
  split; [intros ->; reflexivity |].
  split; [reflexivity |].
  unfold Base64.b64encode.
  rewrite (encode_bytes_length (length (Str.encode body))) by lia.
  unfold Str.encode. rewrite List.length_map.
  assert (Hl : forall s, length (list_ascii_of_string s) = String.length s)
    by (induction s as [|c s IHs]; [reflexivity | cbn; now rewrite IHs]).
  now rewrite Hl.
Qed.

End LastMessageExtras.

(** X15. A URL [data:<mime>;base64,<payload>] with a non-empty MIME
    type free of semicolons and a non-empty payload free of line feeds is
    matched as exactly that pair; when a line feed and more text follow
    the payload, the match is still the pair: what follows the first line
    feed is dropped. *)
Theorem data_uri_round_trip (m d rest : string) :
  m <> "" -> all_chars (not_char ";") m = true ->
  d <> "" -> all_chars (not_char (ascii_of_nat 10)) d = true ->
  match_data_uri ("data:" ++ m ++ ";base64," ++ d) = Some (m, d)
  /\ match_data_uri ("data:" ++ m ++ ";base64," ++ d ++ newline ++ rest) = Some (m, d).
Proof.
  intros Hm Hms Hd Hds.
  apply nonempty_true in Hm, Hd.
  assert (Hgen : forall tail payload_rest,
            span (not_char (ascii_of_nat 10)) tail = (d, payload_rest) ->
            match_data_uri ("data:" ++ m ++ ";base64," ++ tail) = Some (m, d)).
  { intros tail payload_rest Htail. unfold match_data_uri.
    rewrite strip_prefix_app.
    change (";base64," ++ tail) with (String ";" ("base64," ++ tail)).
    rewrite (span_app (not_char ";") m _ ";" Hms eq_refl), Hm.
    change (String ";" ("base64," ++ tail)) with (";base64," ++ tail).
    rewrite strip_prefix_app, Htail. now rewrite Hd. }
  split.
  - apply (Hgen d ""). now apply span_whole.
  - apply (Hgen (d ++ newline ++ rest) (newline ++ rest)).
    change (newline ++ rest) with (String (ascii_of_nat 10) rest).
    now apply span_app.
Qed.

Lemma downloaded_attachment_shape_witness :
  download_url two_url_server "http://files.test/ok.png" = Some (Attachment "image/png" "QUJD")
  /\ exists status ctype body,
       two_url_server "http://files.test/ok.png" = HttpResponse status ctype body
       /\ all_chars (not_char ";") "image/png" = true.
Proof.
  assert (H : download_url two_url_server "http://files.test/ok.png"
              = Some (Attachment "image/png" "QUJD")) by reflexivity.
  split; [exact H |].
  destruct (downloaded_attachment_shape two_url_server _ _ H)
    as (status & ctype & body & Hget & Hmime & _).
  exists status, ctype, body. exact (conj Hget Hmime).
Defined.

Lemma data_uri_round_trip_witness :
  "image/png" <> "" /\ all_chars (not_char ";") "image/png" = true
  /\ "QUJD" <> "" /\ all_chars (not_char (ascii_of_nat 10)) "QUJD" = true
  /\ match_data_uri "data:image/png;base64,QUJD" = Some ("image/png", "QUJD").
Proof.
  assert (H1 : "image/png" <> "") by discriminate.
  assert (H2 : all_chars (not_char ";") "image/png" = true) by reflexivity.
  assert (H3 : "QUJD" <> "") by discriminate.
  assert (H4 : all_chars (not_char (ascii_of_nat 10)) "QUJD" = true) by reflexivity.
  exact (conj H1 (conj H2 (conj H3 (conj H4
           (proj1 (data_uri_round_trip "image/png" "QUJD" "" H1 H2 H3 H4)))))).
Defined.

(* ===================================================================== *)
(** * Further properties of the client: construction, registration,
      domains *)
(* ===================================================================== *)

Lemma lstrip_length (s : string) : (String.length (Str.lstrip s) <= String.length s)%nat.
Proof.
  induction s as [|c s IH]; [cbn; lia |].
  cbn [Str.lstrip]. destruct (Str.is_space c); cbn [String.length]; lia.
Qed.

Lemma lstrip_idempotent (s : string) : Str.lstrip (Str.lstrip s) = Str.lstrip s.
Proof.
  induction s as [|c s IH]; [reflexivity |].
  cbn [Str.lstrip]. destruct (Str.is_space c) eqn:E; [exact IH |].
  cbn [Str.lstrip]. now rewrite E.
Qed.

Lemma rstrip_cons (c : ascii) (r : string) :
  Str.rstrip (String c r)
  = match Str.rstrip r with
    | EmptyString => if Str.is_space c then EmptyString else String c EmptyString
    | r' => String c r'
    end.
Proof. reflexivity. Qed.

Lemma rstrip_idempotent (s : string) : Str.rstrip (Str.rstrip s) = Str.rstrip s.
Proof.
  induction s as [|c s IH]; [reflexivity |].
  rewrite rstrip_cons. destruct (Str.rstrip s) as [|d r] eqn:E.
  - destruct (Str.is_space c) eqn:Ec; [reflexivity |].
    rewrite rstrip_cons. cbn [Str.rstrip]. now rewrite Ec.
  - rewrite rstrip_cons, IH. reflexivity.
Qed.

Lemma lstrip_rstrip (t : string) :
  Str.lstrip t = t -> Str.lstrip (Str.rstrip t) = Str.rstrip t.
Proof.
  destruct t as [|c r]; [reflexivity |].
  cbn [Str.lstrip]. destruct (Str.is_space c) eqn:Ec.
  - intros H. pose proof (lstrip_length r) as Hl. rewrite H in Hl. cbn in Hl. lia.
  - intros _. rewrite rstrip_cons.
    destruct (Str.rstrip r); rewrite ?Ec; cbn [Str.lstrip]; now rewrite Ec.
Qed.

Lemma strip_idempotent (s : string) : Str.strip (Str.strip s) = Str.strip s.
Proof.
  unfold Str.strip.
  rewrite (lstrip_rstrip (Str.lstrip s)) by apply lstrip_idempotent.
  apply rstrip_idempotent.
Qed.

Lemma strip_spaces (s : string) : all_chars Str.is_space s = true -> Str.strip s = "".
Proof. intros H. unfold Str.strip. now rewrite (lstrip_spaces s H). Qed.

Lemma rstrip_char_spec (x : ascii) (s : string) :
  ends_with x (Mailbox.rstrip_char x s) = false
  /\ exists k, s = Mailbox.rstrip_char x s ++ Str.times (String x "") k.
Proof.
  induction s as [|c s [IHe (k & IHk)]]; [split; [reflexivity | now exists O] |].
  cbn [Mailbox.rstrip_char].
  destruct (Mailbox.rstrip_char x s) as [|d r] eqn:E.
  - destruct (Ascii.eqb_spec c x) as [->|Hne].
    + split; [reflexivity |]. exists (S k). rewrite IHk at 1. reflexivity.
    + split.
      * cbn [ends_with]. now apply Ascii.eqb_neq.
      * exists k. rewrite IHk at 1. reflexivity.
  - split; [exact IHe |]. exists k. rewrite IHk at 1. reflexivity.
Qed.

Section ClientExtras.
Import Freemail.
Local Open Scope Z_scope.
Variable transport : list request -> request -> result response.

(** What one authenticated call adds to the log, query included. *)
Lemma fallback_log (self : client) (m u : string) (kw : kwargs) (sent : list request) :
  exists new : list request,
    snd (_request_with_auth_fallback transport self m u kw sent) = (sent ++ new)%list
    /\ (1 <= length new <= 2)%nat
    /\ Forall (sent_for self m u kw) new.
Proof.
  unfold _request_with_auth_fallback, _request, sent_for.
  destruct (Str.nonempty (jwt_token self)).
  - match goal with |- context [transport sent ?r] => set (first := r) end.
    destruct (transport sent first) as [res|].
    + destruct (negb (status_in res [401; 403]) || negb true).
      * exists [first]. cbn [snd length]. split; [reflexivity |]. split; [lia |].
        repeat constructor.
      * match goal with |- context [transport (sent ++ [first])%list ?r] => set (second := r) end.
        exists [first; second]. cbn [snd length]. rewrite <- List.app_assoc.
        split; [reflexivity |]. split; [lia |].
        constructor; [repeat split; now left |].
        constructor; [repeat split; now right | constructor].
    + exists [first]. cbn [snd length]. split; [reflexivity |]. split; [lia |].
      repeat constructor.
  - match goal with |- context [transport sent ?r] => set (first := r) end.
    destruct (transport sent first) as [res|].
    + rewrite orb_true_r. exists [first]. cbn [snd length].
      split; [reflexivity |]. split; [lia |]. repeat constructor.
    + exists [first]. cbn [snd length]. split; [reflexivity |]. split; [lia |].
      repeat constructor.
Qed.

(** X16. A client built by [__init__] has a base URL without a trailing
    slash (only slashes are removed from the given one), a token without
    surrounding blanks, and no address. A token made of blanks only counts
    as no token: every authenticated call then sends a single request with
    the caller's headers and query unchanged, and never retries. *)
Theorem init_normalises (base token : string) :
  let self := Mailbox.__init__ base token in
  ends_with "/" (base_url self) = false
  /\ (exists k, base = base_url self ++ Str.times "/" k)
  /\ Str.strip (jwt_token self) = jwt_token self
  /\ email self = JNull
  /\ (all_chars Str.is_space token = true ->
      forall m u kw sent,
        _request_with_auth_fallback transport self m u kw sent
        = (transport sent (Request m u (default ∅ (kw_headers kw)) (kw_params kw)),
           (sent ++ [Request m u (default ∅ (kw_headers kw)) (kw_params kw)])%list)).
Proof.
  intros self. subst self. unfold Mailbox.__init__. cbn [base_url jwt_token email].
  destruct (rstrip_char_spec "/" base) as [He Hk].
  split; [exact He |]. split; [exact Hk |].
  split; [apply strip_idempotent |]. split; [reflexivity |].
  intros Hblank m u kw sent.
  unfold _request_with_auth_fallback, _request. cbn [jwt_token].
  rewrite (strip_spaces token Hblank). cbn [Str.nonempty].
  destruct (transport sent _) as [res|]; [| reflexivity].
  now rewrite orb_true_r.
Qed.

Lemma generate_attempts_log (self : client) (domain : option string) (sent : list request) :
  exists new : list request,
    snd (generate_attempts transport self domain sent) = (sent ++ new)%list
    /\ Forall (fun r => exists m, sent_for self m (base_url self ++ "/api/generate")
                                    (Kwargs None (Some (generate_params domain))) r) new.
Proof.
  rewrite generate_attempts_unfold.
  set (u := base_url self ++ "/api/generate").
  set (kw := Kwargs None (Some (generate_params domain))).
  destruct (fallback_log self "GET" u kw sent) as (new & Hnew & _ & Hall).
  assert (Hget : Forall (fun r => exists m, sent_for self m u kw r) new).
  { eapply List.Forall_impl; [| exact Hall]. intros r Hr. now exists "GET". }
  destruct (_request_with_auth_fallback transport self "GET" u kw sent) as [[rg|] s];
    cbn [snd] in Hnew; subst s.
  2: { exists new. split; [reflexivity | exact Hget]. }
  destruct (status_in rg [404; 405]).
  2: { exists new. split; [reflexivity | exact Hget]. }
  destruct (fallback_log self "POST" u kw (sent ++ new)%list) as (new' & Hnew' & _ & Hall').
  assert (Hpost : Forall (fun r => exists m, sent_for self m u kw r) new').
  { eapply List.Forall_impl; [| exact Hall']. intros r Hr. now exists "POST". }
  exists (new ++ new')%list.
  destruct (_request_with_auth_fallback transport self "POST" u kw (sent ++ new)%list)
    as [[rp|] s']; cbn [snd] in *; subst s';
    (split; [now rewrite List.app_assoc | apply List.Forall_app; split; assumption]).
Qed.

(** X17. Every request of [register_account] carries a query in which
    [domain] is the requested domain when one is given (and is absent for
    no domain or the empty string), in which [admin_token], if present, is
    the token of the client, and which has no other parameter. *)
Theorem register_sends_domain (self : client) (domain : option string) (sent : list request) :
  exists new : list request,
    snd (register_account transport self domain sent) = (sent ++ new)%list
    /\ Forall (fun r => exists q : gmap string string,
                 params r = Some q
                 /\ q !! "domain" = Message.truthy_str domain
                 /\ (q !! "admin_token" = None
                     \/ q !! "admin_token" = Some (jwt_token self))
                 /\ forall k, k <> "domain" -> k <> "admin_token" -> q !! k = None) new.
Proof.
  destruct (generate_attempts_log self domain sent) as (new & Hnew & Hall).
  exists new.
  destruct (register_account_result transport self domain sent) as (_ & _ & ->).
  rewrite register_body_log. split; [exact Hnew |].
  eapply List.Forall_impl; [| exact Hall].
  intros r (m & _ & _ & Hparams).
  assert (Hbase : generate_params domain !! "domain" = Message.truthy_str domain
                  /\ forall k, k <> "domain" -> generate_params domain !! k = None).
  { unfold generate_params. destruct (Message.truthy_str domain) as [d|].
    - split; [apply lookup_singleton_eq |]. intros k Hk. now apply lookup_singleton_ne.
    - split; [apply lookup_empty |]. intros k _. apply lookup_empty. }
  destruct Hbase as [Hdom Hother].
  cbn [kw_params] in Hparams. destruct Hparams as [-> | ->].
  - exists (generate_params domain). split; [reflexivity |]. split; [exact Hdom |].
    split; [left; apply Hother; discriminate |]. intros k Hk _. now apply Hother.
  - eexists. split; [reflexivity |]. cbn [default].
    rewrite !lookup_setdefault.
    split; [case_decide; [discriminate | exact Hdom] |].
    split.
    + right. case_decide; [| congruence]. rewrite Hother by discriminate. reflexivity.
    + intros k Hk Hk'. rewrite lookup_setdefault. case_decide; [congruence |]. now apply Hother.
Qed.


End ClientExtras.

(* ===================================================================== *)
(** * Further properties of the client: the inbox *)
(* ===================================================================== *)

Lemma dict_get_delete (d : gmap string json) (k k' : string) :
  k <> k' -> dict_get (delete k d) k' = dict_get d k'.
Proof. intros H. unfold dict_get. now rewrite lookup_delete_ne. Qed.

Lemma dict_get_deleted (d : gmap string json) (k : string) :
  dict_get (delete k d) k = JNull.
Proof. unfold dict_get. now rewrite lookup_delete_eq. Qed.

Lemma first_truthy_delete (d : gmap string json) (k : string) (keys : list string)
    (dflt : json) :
  ~ In k keys ->
  Mailbox.first_truthy (delete k d) keys dflt = Mailbox.first_truthy d keys dflt.
Proof.
  induction keys as [|k' keys IH]; intros Hk; [reflexivity |].
  cbn [Mailbox.first_truthy].
  rewrite dict_get_delete by (intros ->; apply Hk; now left).
  rewrite IH by (intros Hin; apply Hk; now right). reflexivity.
Qed.

Lemma first_truthy_app (d : gmap string json) (before after : list string) (dflt : json) :
  Forall (fun k => truthy (dict_get d k) = false) before ->
  Mailbox.first_truthy d (before ++ after) dflt = Mailbox.first_truthy d after dflt.
Proof.
  induction 1 as [|k before Hk _ IH]; [reflexivity |].
  cbn [app Mailbox.first_truthy]. unfold py_or at 1. now rewrite Hk.
Qed.

Lemma py_or_truthy (a b : json) : truthy a = true -> py_or a b = a.
Proof. intros H. unfold py_or. now rewrite H. Qed.

Lemma first_truthy_hit (d : gmap string json) (before after : list string) (k : string)
    (dflt : json) :
  Forall (fun k' => truthy (dict_get d k') = false) before ->
  truthy (dict_get d k) = true ->
  Mailbox.first_truthy d (before ++ k :: after) dflt = dict_get d k.
Proof.
  intros Hb Hk. rewrite first_truthy_app by exact Hb.
  cbn [Mailbox.first_truthy]. now apply py_or_truthy.
Qed.

Lemma as_dicts_inv (items : list json) (ds : list (gmap string json)) :
  Mailbox.as_dicts items = Ok ds -> items = map JDict ds.
Proof.
  revert ds. induction items as [|x items IH]; intros ds H.
  - injection H as <-. reflexivity.
  - destruct x; try discriminate. cbn [Mailbox.as_dicts] in H.
    destruct (Mailbox.as_dicts items) as [ds'|]; [| discriminate].
    injection H as <-. cbn [map]. now rewrite (IH ds').
Qed.

Lemma as_dicts_raise (items : list json) (x : json) :
  In x items -> (forall d, x <> JDict d) -> Mailbox.as_dicts items = Raise.
Proof.
  intros Hin Hx. induction items as [|y items IH]; [contradiction |].
  destruct Hin as [-> | Hin].
  - destruct x; try reflexivity. now contradiction (Hx fields).
  - destruct y; try reflexivity. cbn [Mailbox.as_dicts]. now rewrite IH.
Qed.

Section InboxExtras.
Import Datetime EmailTime Freemail Mailbox.
Local Open Scope Z_scope.
Variable tz : Z.
Variable fromisoformat : string -> result iso_datetime.
Variable transport : list request -> request -> result response.
Variable extract_verification_code : string -> option string.
Variable py_str : json -> string.
Variable query_str : json -> string.

Lemma emails_with_time_inv (ds : list (gmap string json))
    (items : list (gmap string json * option datetime)) :
  emails_with_time tz fromisoformat ds = Ok items -> map fst items = ds.
Proof.
  revert items. induction ds as [|e ds IH]; intros items H.
  - injection H as <-. reflexivity.
  - cbn [emails_with_time] in H.
    destruct (_parse_email_time tz fromisoformat e) as [t|]; [| discriminate].
    cbn [bind] in H.
    destruct (emails_with_time tz fromisoformat ds) as [items'|]; [| discriminate].
    injection H as <-. cbn [map fst]. now rewrite (IH items').
Qed.

Lemma emails_with_time_raise (ds : list (gmap string json)) (e : gmap string json) :
  In e ds -> _parse_email_time tz fromisoformat e = Raise ->
  emails_with_time tz fromisoformat ds = Raise.
Proof.
  intros Hin He. induction ds as [|e' ds IH]; [contradiction |].
  cbn [emails_with_time]. destruct Hin as [-> | Hin].
  - now rewrite He.
  - rewrite (IH Hin). now destruct (_parse_email_time tz fromisoformat e').
Qed.

Lemma order_emails_perm (ds ordered : list (gmap string json)) :
  order_emails tz fromisoformat ds = Ok ordered -> Permutation ds ordered.
Proof.
  unfold order_emails.
  destruct (emails_with_time tz fromisoformat ds) as [items|] eqn:E; [| discriminate].
  cbn [bind]. apply emails_with_time_inv in E.
  destruct (existsb has_time items); intros H; injection H as <-; [| reflexivity].
  rewrite <- E. apply Permutation_map, sort_desc_perm.
Qed.

Lemma scan_email_cases (self : client) (e : gmap string json) (sent : list request) :
  scan_email transport extract_verification_code py_str self e sent
  = if truthy (dict_get e "id") then
      match _request_with_auth_fallback transport self "GET" (detail_url py_str self e)
              (Kwargs None None) sent with
      | (Raise, s) => (Raise, s)
      | (Ok res, s) =>
          (code_in extract_verification_code e
             (if status_code res =? 200
              then bind (json_body res) detail_texts
              else listing_texts e), s)
      end
    else (code_in extract_verification_code e (listing_texts e), sent).
Proof.
  unfold scan_email, code_in, detail_url, searched_text.
  destruct (truthy (dict_get e "id")); [| reflexivity].
  destruct (_request_with_auth_fallback transport self "GET" _ (Kwargs None None) sent)
    as [[res|] s]; [| reflexivity].
  destruct (status_code res =? 200); reflexivity.
Qed.

Lemma code_in_some (e : gmap string json) (texts : result (string * json)) (c : string) :
  code_in extract_verification_code e texts = Ok (Some c) ->
  c <> ""
  /\ exists subject content html_content : string,
       as_str (first_truthy e ["subject"] (JStr "")) = Ok subject
       /\ extract_verification_code (searched_text subject content html_content) = Some c.
Proof.
  unfold code_in. destruct texts as [[content h]|]; cbn [bind]; [| discriminate].
  destruct (as_str (first_truthy e ["subject"] (JStr ""))) as [subject|];
    cbn [bind]; [| discriminate].
  destruct (as_str h) as [html_content|]; cbn [bind]; [| discriminate].
  intros H. injection H as H.
  destruct (extract_verification_code (searched_text subject content html_content))
    as [c'|] eqn:Ex; cbn [Message.truthy_str] in H; [| discriminate].
  destruct (Str.nonempty c') eqn:En; [| discriminate]. injection H as ->.
  split; [intros ->; discriminate |]. now exists subject, content, html_content.
Qed.

Lemma scan_email_log (self : client) (e : gmap string json) (sent : list request) :
  exists new : list request,
    snd (scan_email transport extract_verification_code py_str self e sent)
    = (sent ++ new)%list
    /\ (length new <= 2)%nat
    /\ (truthy (dict_get e "id") = false -> new = [])
    /\ Forall (sent_for self "GET" (detail_url py_str self e) (Kwargs None None)) new.
Proof.
  rewrite scan_email_cases. destruct (truthy (dict_get e "id")).
  - destruct (fallback_log transport self "GET" (detail_url py_str self e)
                (Kwargs None None) sent) as (new & Hnew & Hlen & Hall).
    exists new.
    destruct (_request_with_auth_fallback transport self "GET" _ (Kwargs None None) sent)
      as [[res|] s]; cbn [snd] in *; subst s;
      (split; [reflexivity |]; split; [lia |]; split; [discriminate | exact Hall]).
  - exists []. cbn [snd length]. rewrite List.app_nil_r.
    split; [reflexivity |]. split; [lia |]. split; [reflexivity | constructor].
Qed.

Lemma scan_email_code (self : client) (e : gmap string json) (sent : list request)
    (c : string) :
  fst (scan_email transport extract_verification_code py_str self e sent) = Ok (Some c) ->
  exists texts, code_in extract_verification_code e texts = Ok (Some c).
Proof.
  rewrite scan_email_cases. destruct (truthy (dict_get e "id")).
  - destruct (_request_with_auth_fallback transport self "GET" _ (Kwargs None None) sent)
      as [[res|] s]; cbn [fst]; [eauto | discriminate].
  - cbn [fst]. eauto.
Qed.

(** What the loop over the emails adds to the log. *)
Lemma scan_emails_log (self : client) (since_time : option datetime)
    (emails : list (gmap string json)) (sent : list request) :
  exists details : list request,
    snd (scan_emails tz fromisoformat transport extract_verification_code py_str
           self since_time emails sent) = (sent ++ details)%list
    /\ (length details <= 2 * length emails)%nat
    /\ Forall (fun r => exists e,
                 In e emails
                 /\ truthy (dict_get e "id") = true
                 /\ eligible tz fromisoformat since_time e = Ok true
                 /\ sent_for self "GET" (detail_url py_str self e) (Kwargs None None) r)
         details.
Proof.
  revert sent. induction emails as [|e emails IH]; intros sent.
  { exists []. cbn [scan_emails snd length]. rewrite List.app_nil_r.
    split; [reflexivity |]. split; [lia | constructor]. }
  assert (Hweaken : forall l,
    Forall (fun r => exists e', In e' emails
              /\ truthy (dict_get e' "id") = true
              /\ eligible tz fromisoformat since_time e' = Ok true
              /\ sent_for self "GET" (detail_url py_str self e') (Kwargs None None) r) l ->
    Forall (fun r => exists e', In e' (e :: emails)
              /\ truthy (dict_get e' "id") = true
              /\ eligible tz fromisoformat since_time e' = Ok true
              /\ sent_for self "GET" (detail_url py_str self e') (Kwargs None None) r) l).
  { intros l. apply List.Forall_impl. intros r (e' & Hin & H). exists e'.
    split; [now right | exact H]. }
  cbn [scan_emails].
  destruct (eligible tz fromisoformat since_time e) as [[|]|] eqn:El.
  - destruct (scan_email_log self e sent) as (new & Hnew & Hlen & Hnoid & Hall).
    assert (Hall' : Forall (fun r => exists e', In e' (e :: emails)
              /\ truthy (dict_get e' "id") = true
              /\ eligible tz fromisoformat since_time e' = Ok true
              /\ sent_for self "GET" (detail_url py_str self e') (Kwargs None None) r) new).
    { destruct (truthy (dict_get e "id")) eqn:Eid.
      - eapply List.Forall_impl; [| exact Hall]. intros r Hr. exists e.
        split; [now left |]. split; [exact Eid |]. split; [exact El | exact Hr].
      - rewrite (Hnoid eq_refl). constructor. }
    destruct (scan_email transport extract_verification_code py_str self e sent)
      as [[[c|]|] s]; cbn [snd] in Hnew; subst s.
    + exists new. split; [reflexivity |]. split; [cbn [length]; lia | exact Hall'].
    + destruct (IH (sent ++ new)%list) as (details & Hd & Hlen' & Hall'').
      exists (new ++ details)%list. rewrite Hd, List.app_assoc.
      split; [reflexivity |]. split; [rewrite List.length_app; cbn [length]; lia |].
      apply List.Forall_app. split; [exact Hall' | now apply Hweaken].
    + exists new. split; [reflexivity |]. split; [cbn [length]; lia | exact Hall'].
  - destruct (IH sent) as (details & Hd & Hlen' & Hall'').
    exists details. split; [exact Hd |]. split; [cbn [length]; lia | now apply Hweaken].
  - exists []. cbn [snd length]. rewrite List.app_nil_r.
    split; [reflexivity |]. split; [lia | constructor].
Qed.

Lemma scan_emails_code (self : client) (since_time : option datetime)
    (emails : list (gmap string json)) (sent : list request) (c : string) :
  fst (scan_emails tz fromisoformat transport extract_verification_code py_str
         self since_time emails sent) = Ok (Some c) ->
  exists e texts,
    In e emails
    /\ eligible tz fromisoformat since_time e = Ok true
    /\ code_in extract_verification_code e texts = Ok (Some c).
Proof.
  revert sent. induction emails as [|e emails IH]; intros sent; [discriminate |].
  cbn [scan_emails].
  destruct (eligible tz fromisoformat since_time e) as [[|]|] eqn:El.
  - pose proof (scan_email_code self e sent) as Hcode.
    destruct (scan_email transport extract_verification_code py_str self e sent)
      as [[[c'|]|] s]; cbn [fst] in *.
    + intros H. injection H as ->. destruct (Hcode c eq_refl) as (texts & Ht).
      exists e, texts. split; [now left |]. split; [exact El | exact Ht].
    + intros H. destruct (IH _ H) as (e' & texts & Hin & H'). exists e', texts.
      split; [now right | exact H'].
    + discriminate.
  - intros H. destruct (IH _ H) as (e' & texts & Hin & H'). exists e', texts.
    split; [now right | exact H'].
  - discriminate.
Qed.

(** The body of [fetch_verification_code], case by case. *)
Lemma fetch_body_cases (self : client) (since_time : option datetime) (sent : list request) :
  let call := listing_call transport query_str self sent in
  let run := fetch_body tz fromisoformat transport extract_verification_code py_str
               query_str self since_time sent in
  ((fst run = Ok None \/ fst run = Raise) /\ snd run = snd call)
  \/ exists ds ordered,
       listed transport query_str self sent = map JDict ds
       /\ ds <> []
       /\ order_emails tz fromisoformat ds = Ok ordered
       /\ run = scan_emails tz fromisoformat transport extract_verification_code py_str
                  self since_time ordered (snd call).
Proof.
  intros call run. subst call run. unfold fetch_body, listed, listing_call.
  destruct (_request_with_auth_fallback transport self "GET" (base_url self ++ "/api/emails")
              _ sent) as [[res|] s]; cbn [fst snd]; [| solve [left; auto]].
  destruct (status_code res =? 200); cbn [negb]; [| solve [left; auto]].
  destruct (if Str.nonempty (content res) then json_body res else Ok (JList []))
    as [payload|]; [| solve [left; auto]].
  destruct (listing_emails payload) as [| | | |items|]; try solve [left; auto].
  destruct items as [|x items]; [solve [left; auto] |].
  destruct (as_dicts (x :: items)) as [ds|] eqn:Eds; cbn [bind]; [| solve [left; auto]].
  destruct (order_emails tz fromisoformat ds) as [ordered|] eqn:Eo; [| solve [left; auto]].
  right. exists ds, ordered. apply as_dicts_inv in Eds.
  split; [exact Eds |]. split; [| split; [exact Eo | reflexivity]].
  intros ->. discriminate.
Qed.


Lemma listing_call_log (self : client) (sent : list request) :
  exists listing : list request,
    snd (listing_call transport query_str self sent) = (sent ++ listing)%list
    /\ (length listing <= 2)%nat
    /\ Forall (listing_request query_str self) listing.
Proof.
  unfold listing_call.
  destruct (fallback_log transport self "GET" (base_url self ++ "/api/emails")
              (Kwargs None (Some {[ "mailbox" := query_value query_str (email self) ]})) sent)
    as (listing & Hl & Hlen & Hall).
  exists listing. split; [exact Hl |]. split; [lia |].
  eapply List.Forall_impl; [| exact Hall].
  intros r (Hm & Hu & Hp). split; [exact Hm |]. split; [exact Hu |].
  cbn [kw_params] in Hp. destruct Hp as [Hp | Hp]; rewrite Hp; eexists; (split; [reflexivity |]).
  - apply lookup_singleton_eq.
  - cbn [default]. rewrite lookup_setdefault. case_decide; [discriminate |].
    apply lookup_singleton_eq.
Qed.

(** X18. The requests of one [fetch_verification_code]: at most two for
    the listing (GET [/api/emails] with the address as [mailbox]),
    followed by at most two for each listed email, each a GET of the
    detail document of a listed email that has an identifier and passed
    the time filter. Without an address nothing is sent, and an email that
    is older than [since_time] or has no timestamp is never looked up. *)
Theorem fetch_request_log (self : client) (since_time : option datetime)
    (sent : list request) :
  let run := fetch_verification_code tz fromisoformat transport extract_verification_code
               py_str query_str self since_time sent in
  let emails := listed transport query_str self sent in
  exists listing details : list request,
    snd run = (sent ++ listing ++ details)%list
    /\ (length listing <= 2)%nat
    /\ (length details <= 2 * length emails)%nat
    /\ Forall (listing_request query_str self) listing
    /\ Forall (fun r => method r = "GET"
                 /\ exists e, In (JDict e) emails
                      /\ truthy (dict_get e "id") = true
                      /\ eligible tz fromisoformat since_time e = Ok true
                      /\ url r = detail_url py_str self e) details
    /\ (truthy (email self) = false -> listing = [] /\ details = []).
Proof.
  intros run emails. subst run emails. unfold fetch_verification_code.
  destruct (truthy (email self)) eqn:Em; cbn [negb].
  2: { exists [], []. cbn [snd length app]. rewrite List.app_nil_r.
       split; [reflexivity |]. split; [lia |]. split; [lia |].
       split; [constructor |]. split; [constructor | auto]. }
  destruct (listing_call_log self sent) as (listing & Hl & Hlen & Hall).
  destruct (fetch_body_cases self since_time sent)
    as [[Hres Hlog] | (ds & ordered & Hlisted & Hne & Hord & Hrun)].
  - exists listing, [].
    destruct (fetch_body tz fromisoformat transport extract_verification_code py_str
                query_str self since_time sent) as [[code|] s];
      cbn [fst snd] in *; subst s; rewrite Hl, List.app_nil_r;
      (split; [reflexivity |]; split; [exact Hlen |]; split; [cbn [length]; lia |];
       split; [exact Hall |]; split; [constructor | discriminate]).
  - rewrite Hrun, Hlisted.
    destruct (scan_emails_log self since_time ordered
                (snd (listing_call transport query_str self sent)))
      as (details & Hd & Hdl & Hda).
    exists listing, details.
    assert (Hperm := order_emails_perm ds ordered Hord).
    split.
    { destruct (scan_emails tz fromisoformat transport extract_verification_code py_str
                  self since_time ordered _) as [[code|] s];
        cbn [snd] in *; subst s; now rewrite Hl, List.app_assoc. }
    split; [exact Hlen |].
    split; [rewrite List.length_map, (Permutation_length Hperm); exact Hdl |].
    split; [exact Hall |].
    split; [| discriminate].
    eapply List.Forall_impl; [| exact Hda].
    intros r (e & Hin & Hid & Hel & Hm & Hu & _).
    split; [exact Hm |]. exists e.
    split; [apply List.in_map; now apply (Permutation_in e (Permutation_sym Hperm)) |].
    auto.
Qed.

(** X19. A code returned by [fetch_verification_code] is never empty; it
    is what the matcher found in the text of one listed email that passed
    the time filter, and that text starts with the subject of the email.
    It also shows that an address was set. *)
Theorem fetched_code_from_listed_email (self : client) (since_time : option datetime)
    (sent : list request) (c : string) :
  fst (fetch_verification_code tz fromisoformat transport extract_verification_code
         py_str query_str self since_time sent) = Some c ->
  c <> ""
  /\ truthy (email self) = true
  /\ exists (e : gmap string json) (subject content html_content : string),
       In (JDict e) (listed transport query_str self sent)
       /\ eligible tz fromisoformat since_time e = Ok true
       /\ as_str (first_truthy e ["subject"] (JStr "")) = Ok subject
       /\ extract_verification_code (searched_text subject content html_content) = Some c.
Proof.
  unfold fetch_verification_code.
  destruct (truthy (email self)) eqn:Em; cbn [negb]; [| discriminate].
  destruct (fetch_body_cases self since_time sent)
    as [[Hres Hlog] | (ds & ordered & Hlisted & Hne & Hord & Hrun)].
  - destruct (fetch_body tz fromisoformat transport extract_verification_code py_str
                query_str self since_time sent) as [[code|] s]; cbn [fst snd] in *.
    + destruct Hres as [Hres | Hres]; [| discriminate].
      injection Hres as ->. discriminate.
    + discriminate.
  - rewrite Hrun, Hlisted.
    pose proof (scan_emails_code self since_time ordered
                  (snd (listing_call transport query_str self sent)) c) as Hcode.
    destruct (scan_emails tz fromisoformat transport extract_verification_code py_str
                self since_time ordered _) as [[code|] s]; cbn [fst] in *; [| discriminate].
    intros ->. destruct (Hcode eq_refl) as (e & texts & Hin & Hel & Hc).
    destruct (code_in_some e texts c Hc) as (Hne' & subject & content & html & Hs & Hx).
    split; [exact Hne' |]. split; [reflexivity |].
    exists e, subject, content, html.
    split; [| auto].
    apply List.in_map.
    exact (Permutation_in e (Permutation_sym (order_emails_perm ds ordered Hord)) Hin).
Qed.

(** X20. One bad entry hides the whole inbox: if the listing holds an
    entry that is not an object, or an email whose timestamp makes the
    parser raise, [fetch_verification_code] returns [None] for every
    [since_time], whatever the other emails hold, and looks up no email. *)
Theorem fetch_aborted_by_one_entry (self : client) (since_time : option datetime)
    (sent : list request) (x : json) :
  truthy (email self) = true ->
  In x (listed transport query_str self sent) ->
  (forall e, x = JDict e -> _parse_email_time tz fromisoformat e = Raise) ->
  fetch_verification_code tz fromisoformat transport extract_verification_code
    py_str query_str self since_time sent
  = (None, snd (listing_call transport query_str self sent)).
Proof.
  intros Em Hin Hx. unfold fetch_verification_code. rewrite Em. cbn [negb].
  destruct (fetch_body_cases self since_time sent)
    as [[Hres Hlog] | (ds & ordered & Hlisted & Hne & Hord & Hrun)].
  - destruct (fetch_body tz fromisoformat transport extract_verification_code py_str
                query_str self since_time sent) as [[code|] s]; cbn [fst snd] in *; subst s.
    + destruct Hres as [Hres | Hres]; [| discriminate]. now injection Hres as ->.
    + reflexivity.
  - exfalso. rewrite Hlisted in Hin. apply List.in_map_iff in Hin as (e & <- & Hin).
    unfold order_emails in Hord.
    rewrite (emails_with_time_raise ds e Hin (Hx e eq_refl)) in Hord. discriminate.
Qed.

(** X21. The loop over the emails stops at the first code (and at the
    first exception): scanning [l1 ++ l2] is scanning [l1] and, only if
    that found nothing, scanning [l2] from the log reached; when [l1]
    yields a code, the emails of [l2] are neither filtered nor looked
    up. *)
Theorem scan_stops_at_first_code (self : client) (since_time : option datetime)
    (l1 l2 : list (gmap string json)) (sent : list request) :
  let scan := scan_emails tz fromisoformat transport extract_verification_code py_str
                self since_time in
  scan (l1 ++ l2)%list sent
  = match scan l1 sent with
    | (Ok None, s) => scan l2 s
    | found_or_failed => found_or_failed
    end
  /\ forall c, fst (scan l1 sent) = Ok (Some c) -> scan (l1 ++ l2)%list sent = scan l1 sent.
Proof.
  intros scan. subst scan.
  assert (Happ : forall l1 sent,
    scan_emails tz fromisoformat transport extract_verification_code py_str
      self since_time (l1 ++ l2)%list sent
    = match scan_emails tz fromisoformat transport extract_verification_code py_str
              self since_time l1 sent with
      | (Ok None, s) =>
          scan_emails tz fromisoformat transport extract_verification_code py_str
            self since_time l2 s
      | found_or_failed => found_or_failed
      end).
  { clear l1 sent. induction l1 as [|e l1 IH]; intros sent; [reflexivity |].
    cbn [app scan_emails].
    destruct (eligible tz fromisoformat since_time e) as [[|]|]; [| apply IH | reflexivity].
    destruct (scan_email transport extract_verification_code py_str self e sent)
      as [[[c|]|] s]; [reflexivity | apply IH | reflexivity]. }
  split; [apply Happ |].
  intros c Hc. rewrite Happ.
  destruct (scan_emails tz fromisoformat transport extract_verification_code py_str
              self since_time l1 sent) as [[[c'|]|] s]; cbn [fst] in Hc;
    [reflexivity | discriminate | discriminate].
Qed.

(** X22. When the detail document of an email cannot be had (any status
    but 200), the email is searched exactly as the same email without an
    identifier would be: from the texts of its listing entry; and an
    email without an identifier costs no request. *)
Theorem detail_failure_uses_listing (self : client) (e : gmap string json)
    (sent sent' s : list request) (res : response) :
  truthy (dict_get e "id") = true ->
  _request_with_auth_fallback transport self "GET" (detail_url py_str self e)
    (Kwargs None None) sent = (Ok res, s) ->
  status_code res <> 200 ->
  let without_id := scan_email transport extract_verification_code py_str self
                      (delete "id" e) sent' in
  fst (scan_email transport extract_verification_code py_str self e sent) = fst without_id
  /\ snd without_id = sent'.
Proof.
  intros Hid Hcall Hstatus without_id. subst without_id.
  rewrite !scan_email_cases, dict_get_deleted, Hid, Hcall. cbn [truthy fst snd].
  destruct (Z.eqb_spec (status_code res) 200) as [E|_]; [contradiction |].
  split; [| reflexivity].
  unfold code_in, listing_texts.
  rewrite !first_truthy_delete; [reflexivity | ..];
    cbn [In]; intuition discriminate.
Qed.

(** X23. The shapes of a listing: a bare non-empty list, an object that
    holds the list under [emails], [data] or [items] (the first of these
    that is not empty, null, zero or false counts), or such an object
    whose field holds another object with the list under [emails] or
    [items]. *)
Theorem listing_wrappers (d : gmap string json) (before after : list string) (k : string)
    (l : list json) :
  ["emails"; "data"; "items"] = (before ++ k :: after)%list ->
  Forall (fun k' => truthy (dict_get d k') = false) before ->
  l <> [] ->
  listing_emails (JList l) = JList l
  /\ (dict_get d k = JList l -> listing_emails (JDict d) = JList l)
  /\ (forall (inner : gmap string json) (before' after' : list string) (k' : string),
        dict_get d k = JDict inner ->
        ["emails"; "items"] = (before' ++ k' :: after')%list ->
        Forall (fun k'' => truthy (dict_get inner k'') = false) before' ->
        dict_get inner k' = JList l ->
        listing_emails (JDict d) = JList l).
Proof.
  intros Hkeys Hbefore Hl.
  assert (Htruthy : truthy (JList l) = true) by (destruct l; [contradiction | reflexivity]).
  split; [reflexivity |]. unfold listing_emails. rewrite Hkeys.
  split.
  - intros Hk. rewrite (first_truthy_hit d before after k) by (rewrite ?Hk; assumption).
    now rewrite Hk.
  - intros inner before' after' k' Hk Hkeys' Hbefore' Hk'.
    assert (Hinner : truthy (JDict inner) = true).
    { cbn [truthy]. apply negb_true_iff, bool_decide_eq_false. intros ->.
      unfold dict_get in Hk'. rewrite lookup_empty in Hk'. discriminate. }
    rewrite (first_truthy_hit d before after k) by (rewrite ?Hk; assumption).
    rewrite Hk, Hkeys'.
    rewrite (first_truthy_hit inner before' after' k') by (rewrite ?Hk'; assumption).
    exact Hk'.
Qed.

Lemma first_truthy_result (d : gmap string json) (keys : list string) (dflt : json) :
  first_truthy d keys dflt = dflt \/ truthy (first_truthy d keys dflt) = true.
Proof.
  induction keys as [|k keys IH]; [now left |].
  cbn [first_truthy]. unfold py_or. destruct (truthy (dict_get d k)) eqn:E; [now right | exact IH].
Qed.

Lemma first_domain_result (payload : json) :
  first_domain payload = JStr "" \/ truthy (first_domain payload) = true.
Proof.
  unfold first_domain.
  destruct (match payload with
            | JList _ => payload
            | JDict d => first_truthy d ["domains"; "data"; "items"] (JList [])
            | _ => JList []
            end) as [| | | |[|x rest]|]; try (now left).
  destruct x as [| | |s| |d]; try (now left).
  - destruct s; [now left | now right].
  - apply first_truthy_result.
Qed.

(** X24. [_get_domain] never raises and sends one or two GET requests
    for [/api/domains]. Its result is the empty string unless the answer
    has status 200 and a non-empty body that parses; then it is read off
    the first entry of the domain list alone, and is either the empty
    string or a value that counts as true. *)
Theorem get_domain_best_effort (self : client) (sent : list request) :
  let run := _get_domain transport self sent in
  let call := _request_with_auth_fallback transport self "GET"
                (base_url self ++ "/api/domains") (Kwargs None None) sent in
  snd run = snd call
  /\ (exists new : list request,
        snd run = (sent ++ new)%list /\ (1 <= length new <= 2)%nat
        /\ Forall (sent_for self "GET" (base_url self ++ "/api/domains")
                     (Kwargs None None)) new)
  /\ (fst run <> JStr "" ->
      truthy (fst run) = true
      /\ exists res payload,
           fst call = Ok res /\ status_code res = 200
           /\ Str.nonempty (content res) = true
           /\ json_body res = Ok payload /\ fst run = first_domain payload)
  /\ (forall x rest, first_domain (JList (x :: rest)) = first_domain (JList [x])).
Proof.
  intros run call. subst run call. unfold _get_domain.
  destruct (fallback_log transport self "GET" (base_url self ++ "/api/domains")
              (Kwargs None None) sent) as (new & Hnew & Hlen & Hall).
  destruct (_request_with_auth_fallback transport self "GET" (base_url self ++ "/api/domains")
              (Kwargs None None) sent) as [[res|] s]; cbn [fst snd] in *; subst s.
  2: { split; [reflexivity |]. split; [now exists new |].
       split; [intros H; now contradiction H |]. now intros [| | | | |] rest. }
  assert (Hlog : snd (if status_code res =? 200
                      then match (if Str.nonempty (content res)
                                  then json_body res else Ok (JList [])) with
                           | Ok payload => (first_domain payload, (sent ++ new)%list)
                           | Raise => (JStr "", (sent ++ new)%list)
                           end
                      else (JStr "", (sent ++ new)%list)) = (sent ++ new)%list).
  { destruct (status_code res =? 200); [| reflexivity].
    now destruct (if Str.nonempty (content res) then json_body res else Ok (JList [])). }
  split; [exact Hlog |]. split; [now exists new |].
  split; [| now intros [| | | | |] rest].
  destruct (Z.eqb_spec (status_code res) 200) as [Es|_];
    [| intros H; now contradiction H].
  destruct (Str.nonempty (content res)) eqn:Ec.
  - destruct (json_body res) as [payload|] eqn:Ej; cbn [fst];
      [| intros H; now contradiction H].
    intros Hne. split.
    + destruct (first_domain_result payload); [contradiction | assumption].
    + exists res, payload. auto.
  - cbn [fst]. intros H. now contradiction H.
Qed.

End InboxExtras.

Lemma fetched_code_from_listed_email_witness :
  fst (Mailbox.fetch_verification_code 0 IsoFormat.fromisoformat inbox_server toy_extract
         no_str no_str inbox_client None []) = Some "246810"
  /\ "246810" <> ""
  /\ exists (e : gmap string json) (subject content html_content : string),
       In (JDict e) (listed inbox_server no_str inbox_client [])
       /\ toy_extract (searched_text subject content html_content) = Some "246810".
Proof.
  assert (H : fst (Mailbox.fetch_verification_code 0 IsoFormat.fromisoformat inbox_server
                     toy_extract no_str no_str inbox_client None []) = Some "246810")
    by (vm_compute; reflexivity).
  split; [exact H |].
  destruct (fetched_code_from_listed_email 0 IsoFormat.fromisoformat inbox_server toy_extract
              no_str no_str inbox_client None [] "246810" H)
    as (Hne & _ & e & subject & content & html & Hin & _ & _ & Hx).
  split; [exact Hne |]. exists e, subject, content, html. exact (conj Hin Hx).
Defined.

Lemma fetch_aborted_by_one_entry_witness :
  truthy (Freemail.email inbox_client) = true
  /\ In (JDict email_far_future) (listed broken_inbox_server no_str inbox_client [])
  /\ fst (Mailbox.fetch_verification_code 0 IsoFormat.fromisoformat broken_inbox_server
            toy_extract no_str no_str inbox_client None []) = None.
Proof.
  assert (H1 : truthy (Freemail.email inbox_client) = true) by reflexivity.
  assert (H2 : In (JDict email_far_future) (listed broken_inbox_server no_str inbox_client []))
    by (vm_compute; right; left; reflexivity).
  assert (H3 : forall e, JDict email_far_future = JDict e ->
                 EmailTime._parse_email_time 0 IsoFormat.fromisoformat e = Raise).
  { intros e He. injection He as <-. vm_compute. reflexivity. }
  split; [exact H1 |]. split; [exact H2 |].
  now rewrite (fetch_aborted_by_one_entry 0 IsoFormat.fromisoformat broken_inbox_server
                 toy_extract no_str no_str inbox_client None [] _ H1 H2 H3).
Defined.

Lemma detail_failure_uses_listing_witness :
  truthy (dict_get email_welcome "id") = true
  /\ fst (Mailbox.scan_email inbox_server toy_extract no_str inbox_client email_welcome [])
     = fst (Mailbox.scan_email inbox_server toy_extract no_str inbox_client
              (delete "id" email_welcome) []).
Proof.
  assert (H1 : truthy (dict_get email_welcome "id") = true) by (vm_compute; reflexivity).
  split; [exact H1 |].
  refine (proj1 (detail_failure_uses_listing inbox_server toy_extract no_str inbox_client
                   email_welcome [] [] _ (Freemail.Response 404 "" Raise) H1 _ _)).
  - vm_compute. reflexivity.
  - discriminate.
Defined.

Lemma listing_wrappers_witness :
  Mailbox.listing_emails
    (JDict {[ "emails" := JList []; "data" := JList [JDict email_welcome] ]})
  = JList [JDict email_welcome].
Proof.
  refine (proj1 (proj2 (listing_wrappers
            {[ "emails" := JList []; "data" := JList [JDict email_welcome] ]}
            ["emails"] ["items"] "data" [JDict email_welcome] eq_refl _ _)) _).
  - constructor; [vm_compute; reflexivity | constructor].
  - discriminate.
  - vm_compute. reflexivity.
Defined.

(* ===================================================================== *)
(** * Further properties of the message module: roles *)
(* ===================================================================== *)

Lemma tail_suffix (text : string) :
  exists p, (if Str.nonempty text then newline ++ text else "") = p ++ text.
Proof.
  destruct (Str.nonempty text) eqn:E.
  - now exists newline.
  - exists "". now rewrite (nonempty_false text E).
Qed.

Lemma augment_text_suffix (m : Msg) (text : string) :
  exists prefix, augment_text m text = prefix ++ text.
Proof.
  unfold augment_text.
  destruct (str_eqb (role_lower m) "tool").
  { eexists. rewrite <- !append_assoc. reflexivity. }
  destruct (str_eqb (role_lower m) "assistant"); [| now exists ""].
  destruct (tail_suffix text) as (p & ->).
  destruct (get (tool_calls m) []) as [|c cs].
  - destruct (function_call m) as [f|]; [| now exists ""].
    destruct (function_call_name (Some f)); [| now exists ""].
    eexists. rewrite <- !append_assoc. reflexivity.
  - eexists. rewrite <- !append_assoc. reflexivity.
Qed.

Lemma or_else_nonempty (o : option string) (dflt : string) :
  dflt <> "" -> or_else o dflt <> "".
Proof.
  intros Hd. unfold or_else, truthy_str. destruct o as [s|]; [| exact Hd].
  destruct (Str.nonempty s) eqn:E; [| exact Hd]. now apply nonempty_true.
Qed.

Section RoleExtras.
Variable http_get : string -> http_result.

Lemma parse_last_text (history : list Msg) (m : Msg) :
  text (parse_last_message http_get (history ++ [m]))
  = augment_text m (fst (fst (scan_content (content m)))).
Proof.
  unfold parse_last_message. rewrite last_snoc_msg.
  destruct (scan_content (content m)) as [[t images] urls].
  now destruct urls.
Qed.

(** X25. The text that [parse_last_message] returns always ends with the
    text read from the content of the last message: the role only puts
    something in front of it (the tool header, or the requested tool or
    function calls of an assistant), and for any role other than [tool]
    and [assistant], compared without letter case, the text is returned
    as read. When an assistant message has tool calls, its
    [function_call] is not looked at. *)
Theorem last_text_kept_as_suffix (history : list Msg) (m : Msg) :
  let scanned := fst (fst (scan_content (content m))) in
  let out := text (parse_last_message http_get (history ++ [m])) in
  (exists prefix, out = prefix ++ scanned)
  /\ (str_eqb (role_lower m) "tool" = false ->
      str_eqb (role_lower m) "assistant" = false -> out = scanned)
  /\ (forall ps, content m = CParts ps -> scanned = extract_text_from_content (content m))
  /\ (forall c cs, tool_calls m = Some (c :: cs) ->
      out = text (parse_last_message http_get (history ++ [without_function_call m]))).
Proof.
  intros scanned out. subst scanned out. rewrite parse_last_text.
  split; [apply augment_text_suffix |].
  split; [| split].
  - intros Ht Ha. unfold augment_text. now rewrite Ht, Ha.
  - intros ps ->. now rewrite scan_content_parts.
  - intros c cs Hcalls. rewrite parse_last_text.
    unfold augment_text, without_function_call, role_lower. cbn [role content name
      tool_call_id tool_calls function_call]. rewrite Hcalls. reflexivity.
Qed.

End RoleExtras.

(** X26. Every block of the transcript is the role label, a colon and a
    blank, the text of the content, whatever is added for tool calls and
    images, and two line feeds; the label is never empty (a message
    without a role is labelled [Assistant]). *)
Theorem transcript_block_shape (m : Msg) :
  role_label m <> ""
  /\ exists added,
       render_message m
       = role_label m ++ ": " ++ extract_text_from_content (content m)
           ++ added ++ newline ++ newline.
Proof.
  split.
  - unfold role_label.
    destruct (str_eqb (role_lower m) "system"); [discriminate |].
    destruct (str_eqb (role_lower m) "user"); [discriminate |].
    destruct (str_eqb (role_lower m) "tool"); [discriminate |].
    destruct (str_eqb (role_lower m) "assistant"); [discriminate |].
    now apply or_else_nonempty.
  - unfold render_message.
    set (t := extract_text_from_content (content m)).
    assert (Hlead : exists p, (if Str.nonempty t then t ++ newline else "") = t ++ p).
    { destruct (Str.nonempty t) eqn:E; [now exists newline |].
      exists "". now rewrite (nonempty_false t E). }
    destruct Hlead as (p & Hlead).
    assert (Hbody : exists q,
      (if str_eqb (role_lower m) "assistant" then
         match get (tool_calls m) [] with
         | [] =>
             match function_call m, function_call_name (function_call m) with
             | Some f, Some fn_name =>
                 (if Str.nonempty t then t ++ newline else "")
                   ++ "Function call: " ++ fn_name ++ "(" ++ function_call_args f ++ ")"
             | _, _ => t
             end
         | (_ :: _) as calls =>
             (if Str.nonempty t then t ++ newline else "")
               ++ "Tool calls:" ++ newline ++ format_tool_calls_text calls
         end
       else t) = t ++ q).
    { rewrite Hlead.
      destruct (str_eqb (role_lower m) "assistant"); [| exists ""; now rewrite append_nil_r].
      destruct (get (tool_calls m) []) as [|c cs].
      - destruct (function_call m) as [f|]; [| exists ""; now rewrite append_nil_r].
        destruct (function_call_name (Some f)); [| exists ""; now rewrite append_nil_r].
        eexists. rewrite append_assoc. reflexivity.
      - eexists. rewrite append_assoc. reflexivity. }
    destruct Hbody as (q & ->).
    destruct (content m) as [s | ps | | r | r]; try (exists q; now rewrite !append_assoc).
    exists (q ++ Str.times image_marker (length (List.filter is_image_part ps))).
    now rewrite !append_assoc.
Qed.
